(* ===== verification/_CoqProject ===== *)
-Q . S2P
Prelude.v
JsString.v
JsNumber.v
Duration.v
Parser.v
Notifier.v
Engine.v
View.v
Markup.v
Refinement.v
Typing.v
Scheduler.v
Passive.v
Double.v
Clock.v
