(* ===== verification/Prelude.v ===== *)
(** * Countdown timer widget: a verification development

    ** The program

    The program is one React component, [CountdownTimer] in
    [src/src/App.tsx]: a text field holding a duration, Start, Pause and
    Reset buttons, six preset buttons, a one-second interval that counts the
    duration down, and a beep with a modal notice when the countdown reaches
    zero.  Its parts, and how they interact:

    - the duration: the [TimeState] interface, the zero test and the borrow
      arithmetic inside the interval callback;
    - the parser and the formatter: [parseTimeInput] and [formatTime], on
      the runtime's [split], [trim], [parseInt], [toString] and [padStart];
    - the notifier: [createBeepSound], which builds an oscillator and a
      gain node on the audio context and schedules a tone of one second,
      stored as [{ play }] in [beepRef] by the first effect, on a context
      it constructs at the mount;
    - the engine: five state variables ([time], [isRunning], [isCompleted],
      [showAlert], [inputValue]), two refs ([intervalRef], [beepRef]), the
      handlers [handleInputChange], [handleStart], [handlePause],
      [handleReset], [handlePreset] and the Dismiss handler, and the timer
      effect that arms and clears the interval whose callback ticks;
    - the view: the returned markup, which shows the state and decides, by
      its [disabled] attributes, which handlers the user can reach.

    An edit or a click runs a handler on the snapshot of the state it was
    rendered with; the handler schedules state updates; React commits them
    and, when [isRunning] or [isCompleted] changed, runs the cleanup of the
    timer effect and the effect again; the host calls the callback of a
    live interval once per period.

    ** The files

    - [Prelude] (this file): libraries, tactics ([zbool], [case_test],
      [zdiv], [str_norm]), the hint databases [timer] and [timer_rw], the
      generic iteration-with-a-measure lemmas ([Section Iterate]) and the
      string lemmas the components share.
    - [JsString], [JsNumber]: the runtime primitives the program calls,
      after ECMAScript: [split], [trim], [padStart]; [parseInt] as an
      [option Z] ([None] is [NaN]) and [toString].
    - [Duration]: [TimeState] as a record of integers, [isZeroTime] (the
      test of line 59 and of [handleStart]), [decrement] (the three borrow
      branches and the final [return prevTime] of lines 67-75), and the
      measures used to reason about them ([totalSeconds], [ofSeconds],
      [ticksToZero], [lexNonNegative]).
    - [Parser]: [parseTimeInput] (lines 92-100) and [formatTime] (lines
      102-112), with [parsePart] for [parseInt(part.trim()) || 0].
    - [Notifier]: the type class [Notifier] (an operation [fire] on a device
      and the count [fired] of its uses, with their law), the interface the
      engine is verified against, and the instance the program uses: an
      [AudioContext] is a sample rate, a clock in frames, the nodes created
      on it and their connections; the calls of the Web Audio interface
      ([createOscillator], [createGain], [connect], [setValueAtTime],
      [exponentialRampToValueAtTime], [start], [stop]) are actions of the
      monad [Audio], which threads the context and raises the exceptions
      the interface raises; [createBeepSound] is lines 29-47 call by call,
      [audioContext] the constructor expression of lines 25-27 on a
      [Window] that may lack both constructors, [play] the method of line
      49.  Times and values are rationals.  [Silent] is a second instance.
    - [Engine]: the record [Widget] of state variables, refs and host state
      (the set of live intervals, the next identifier, the device); a setter
      per state variable; every handler as a function from the snapshot to
      an action on the state; [tickUpdater], [setTimeWith] and
      [intervalCallback] for lines 55-77; [timerEffect], [timerCleanup],
      [depsChanged] and [rerender] for the effect of lines 53-90; [mount],
      [unmount]; [Event], [handler] and [dispatch], one event followed by
      the commit and the effects; [mountOn], the mount in a
      browser, which fails where the constructor of line 25 throws; [run]
      and [ticks] for sequences; the invariant [Inv], the relation
      [reachable], and [sameHooks], the equivalence of states with the same
      state variables, which the effects preserve and the view and the
      abstraction respect; [Section Countdown], what the firings of the
      interval do to a running widget, with [completedFrom], the state a
      completed countdown is left in.
    - [View]: [render], what the markup shows of the state (the text of the
      field, the digits, the flags of the three buttons and of the presets,
      the colouring, the banner, the alert), and [enabled], the events the
      rendered controls deliver.
    - [Markup]: the returned JSX of lines 158-283 as a tree of elements
      ([Node], [Attr]), with every class string, icon, text and handler
      ([markup] and one definition per block), and the functions that read
      a tree the way a browser and a user do ([viewOf], [delivers]).
    - [Refinement]: [Spec], the state machine of the specification
      (Idle, Running, Completed; Start, Pause, Reset, Tick, preset, edit,
      Dismiss), the abstraction [abs] and the refinement theorems.
    - [Typing]: [wellTyped], the durations of non-negative integers the
      specification takes a duration to be, and the events that keep them
      so.
    - [Scheduler]: the handlers once more, as the lists of calls they make
      ([calls], [tickCalls]), and React's treatment of those calls: a set
      call is put on the queue of its variable, the render settles the
      queues, the set calls of an updater are settled by a second pass
      ([commit]); a [Mode] says whether updaters are called once or, as
      under StrictMode, twice ([dispatchIn], [mountIn], [ticksIn]).
    - [Passive]: the timer effect as a passive effect, which runs after the
      commit: a [Staged] widget, [deliver] for an event without its
      effects, [flush] for the run of the pending effects, [step] and
      [stagedRun] for their interleavings.
    - [Double]: the fields of a duration as doubles: [roundDouble], the
      rounding of an integer to the nearest double, and the parser and the
      tick with every result rounded ([parseTimeInputD], [decrementD]),
      and the engine on them ([handlerD], [dispatchD], [runD]).
    - [Clock]: the wall clock: a [Timed] widget carries the time and the
      time at which its interval was created; [elapse] lets time pass and
      fires the interval every [period] of 1000 ms (line 77),
      [timedDispatch] is an event at the current time.

    ** The theorems

    - Arithmetic ([Duration]): [n] ticks on a normalised duration subtract
      [n] seconds, saturating at zero ([countdown_seconds]); on arbitrary
      integers the countdown is at zero exactly from [ticksToZero] ticks on
      when the duration is lexicographically at least zero
      ([countdown_zero_iff]) and never otherwise ([reachesZero_iff]); ticks
      keep the fields safe integers ([countdown_safeTime]).
    - Parsing ([Parser]): the result by the number of colons
      ([parseTimeInput_shapes], [parseTimeInput_other]); what a part reads
      as ([parsePart_lenient]); parsing inverts formatting
      ([parse_format_roundtrip]); lengths and bounds ([formatTime_length],
      [parseTimeInput_safe]); texts of digits and colons parse to
      non-negative fields ([parseTimeInput_plain]); the examples of the
      specification.
    - Engine ([Engine]): [Inv] holds in every reachable state
      ([run_invariant]); each handler on each of its branches, effects
      included ([start_spec], [pause_spec], [reset_spec], [preset_spec],
      [input_spec], [dismiss_spec]); the interval as a resource
      ([interval_iff_running], [unmount_releases], [handles_fresh],
      [dead_interval_silent]); Reset returns to the preset
      ([reset_restores_preset]); the mount fails with a [TypeError] in a
      browser without an audio constructor ([mountOn_raises]).
    - Countdown ([Engine], [Section Countdown]): a countdown completes
      after [ticksToZero] firings plus one and is notified exactly once
      ([countdown_completes], [notified_once]); one firing
      ([interval_fires]); [n] firings ([countdown_runs]); a duration with a
      negative field that no borrow overwrites never completes
      ([countdown_never_completes]).
    - Notifier ([Notifier]): on every context [createBeepSound] raises
      nothing, adds exactly an oscillator of 800 Hz and a gain node that
      falls from 0.3 to 0.01, routes the oscillator through the gain to the
      destination, and the tone sounds from the current time for one second
      ([beep_sounds]); a second [start], a ramp to zero and a window
      without constructors raise ([second_start_raises],
      [ramp_to_zero_raises], [audioContext_raises]).
    - View ([View], [Markup]): disabled controls are those whose handlers
      would do nothing ([disabled_controls_noop]), enabled ones act, the
      colouring and the banner follow the status, and the alert is raised
      and hidden by the events that should ([alert_lifecycle]); what
      [viewOf] reads in the tree of [markup] is [render], and the clicks
      and edits the tree delivers are those [enabled] says
      ([markup_reads]).
    - Types ([Typing]): from the mount, the events the view delivers keep
      the duration and the parsed input non-negative as long as the edits
      type digits and colons ([view_run_wellTyped]); such a countdown
      completes after as many firings as it has seconds.
    - Scheduling ([Scheduler], [Passive]): in production the state React
      commits from the queues is the state [Engine] computes, for every
      event ([commit_handler]); under StrictMode the state variables are
      the same and a completion beeps twice ([strict_dispatch],
      [mode_notified]); a run of events and flushes in any order, in
      which no firing comes while an effect is pending, ends after a flush
      in the state [Engine] computes from its events ([timely_run]); in
      every interleaving of
      events and flushes the state stays well formed and effects are
      pending only after the completing commit ([staged_invariant]); a
      firing in that window beeps again ([late_firing_beeps]), and it is
      the only step on which the staged widget leaves the specified timer
      ([staged_refines]).
    - Doubles ([Double]): up to fifteen characters of input nothing is
      rounded, so the integer model is the program ([short_input_exact]);
      from a state of safe integers, under edits of at most fifteen
      characters and presets that are safe integers, every run of the
      engine on doubles is the run of [Engine] and ends in such a state
      ([runD_exact]), while a longer edit is rounded
      ([long_input_rounded]);
      a field beyond [2^54] is not changed by the subtraction of one, and
      the countdown never reaches zero ([huge_field_stuck]).
    - Time ([Clock]): a countdown left alone completes when the seconds of
      its duration and one more have passed, and not before
      ([completes_on_time]); with pauses it is never ahead of the clock
      ([never_early]); a pause discards the part of the second under way,
      so a countdown paused and resumed within every second never advances
      ([pause_resume_starves]).
    - Refinement ([Refinement]): every run of events on which code and
      specification agree is the run of its commands on the specified
      timer ([refines_run], [view_refines]); the theorems
      [completed_honours_preset], [completed_honours_edit] and
      [running_edit_stores_text] state, on every well-formed state, what the
      code does where the specification says otherwise.

    Every theorem with a hypothesis is applied to a concrete widget or
    duration by a lemma named after it with the suffix [_witness].

    ** Bounds, fuel and assumptions

    - Numbers.  JavaScript numbers are modelled as integers [Z].  The
      program only parses, compares, decrements and prints them, which is
      exact on the safe integers (magnitude at most [2^53 - 1]);
      [parseTimeInput_safe] shows that a text of at most fifteen characters
      parses to safe integers and [countdown_safeTime] that ticks keep them
      safe.  All files but [Double] compute with integers, and their
      theorems carry no hypothesis on the size of the numbers: they are
      theorems of the program for the runs [runD_exact] covers, which
      include every run from the mount whose edits have at most fifteen
      characters.  [Double] rounds, proves that the two agree on those
      runs, and says what the program does beyond.  Its [roundDouble] is written out on integers and
      checked against the standard library's specification of IEEE 754
      ([binary_normalize] at 53 bits) on some 2800 integers around zero and
      around the powers of two where the spacing changes
      ([roundDouble_binary64]); their agreement on all integers is not
      proved.  Minus zero is identified with zero.
    - Strings.  A string is a [string] of the standard library: code units
      below 256.  White space is the ECMAScript set restricted to that range.
    - Fuel.  [toString] computes decimal digits with fuel
      [S (Z.to_nat (Z.log2 n))], an upper bound on their number
      ([log2_fuel], [parseDigits_natToString]).  [routed], the search for
      a path from a node to the destination of an audio context, has the
      number of connections as fuel: a path without a repeated connection
      is no longer, and [beep_sounds] exhibits the path of the beep within
      it.  There is no other fuel: every other definition is structurally
      recursive, and sequences of events and of firings are lists and
      iterations of any length.
    - Scheduling.  In [Engine], and in the theorems of [View], [Markup],
      [Typing] and [Refinement], one event is handled at a time, its
      updaters run once, and its commit and effects complete before the
      next event.  [Scheduler] and [Passive] drop these assumptions one at
      a time and show what each is worth: the order of the queues is not
      observable in this program, the number of calls of the updater and
      the moment of the effects are, and only in the number of beeps.
      React's queues, StrictMode and passive effects are written after
      React's documentation; the sources of React are not part of the
      repository.  The same holds for the Web Audio interface: the nodes,
      their defaults and the exceptions of [Notifier] follow its
      specification.  The host calls the callback of live intervals only;
      the case [IntervalFires] of [handler] is that call, not a line of the
      program.  A firing is one call of the callback; [Clock] says when it happens, on
      an ideal host: a firing at every multiple of the period after the
      creation of the interval, and events that take no time.

    ** Not modelled

    The layout and the painting of the markup by the browser and the
    style sheet behind the class names; the samples the audio hardware
    renders from the graph of nodes, the advance of the clock of an audio
    context (a beep is read at the time of its creation), the suspension of
    a context by the autoplay policy and the closing of contexts (the
    program never closes one); the drift of real timers and their throttling in
    inactive tabs; React's concurrent rendering, in which a render can be
    interrupted and started again; numbers that are not integers, which the
    program never produces, the exponent notation of [toString] from
    [10^21] on and [parseInt] beyond twenty significant digits; strings
    with code units above 255, and with them the white space of
    ECMAScript beyond U+00A0.  The refinement, the
    scheduling and the clock are stated on the integer model, which
    [runD_exact] relates to the doubles for the engine of [Engine]; the
    engines of [Scheduler], [Passive] and [Clock] have no version on
    doubles. *)

From Stdlib Require Export ZArith Lia Bool.
From Stdlib Require Export Ascii String.
From Stdlib Require Export ZifyBool.
From stdpp Require Export prelude strings.

#[global] Open Scope Z_scope.

(** ** Tactics *)

(** [zbool]: turn boolean integer tests in the hypotheses into propositions. *)
Ltac zbool :=
  repeat match goal with
  | H : (_ =? _) = true |- _ => apply Z.eqb_eq in H
  | H : (_ =? _) = false |- _ => apply Z.eqb_neq in H
  | H : (_ <? _) = true |- _ => apply Z.ltb_lt in H
  | H : (_ <? _) = false |- _ => apply Z.ltb_ge in H
  | H : (_ <=? _) = true |- _ => apply Z.leb_le in H
  | H : (_ <=? _) = false |- _ => apply Z.leb_gt in H
  | H : (_ >? _) = true |- _ => rewrite Z.gtb_ltb in H
  | H : (_ >? _) = false |- _ => rewrite Z.gtb_ltb in H
  | H : (_ && _) = true |- _ => apply andb_true_iff in H; destruct H
  | H : (_ || _) = false |- _ => apply orb_false_iff in H; destruct H
  | H : negb _ = true |- _ => apply negb_true_iff in H
  | H : negb _ = false |- _ => apply negb_false_iff in H
  end.

(** [case_test]: case analysis on the first integer test the goal branches on. *)
Ltac case_test :=
  match goal with
  | |- context [if ?a =? ?b then _ else _] => destruct (Z.eqb_spec a b)
  | |- context [if ?a <? ?b then _ else _] => destruct (Z.ltb_spec a b)
  | |- context [if ?a <=? ?b then _ else _] => destruct (Z.leb_spec a b)
  | |- context [if ?a >? ?b then _ else _] =>
      rewrite (Z.gtb_ltb a b); destruct (Z.ltb_spec b a)
  end.

(** [zdiv]: linear arithmetic with division and remainder by constants. *)
Ltac zdiv := Z.to_euclidean_division_equations; lia.

(** ** Hint databases

    [timer] collects the resolution hints of the components (constructors of
    the step relations, preservation lemmas); [timer_rw] the rewrite rules
    that evaluate the string and number primitives. *)
Create HintDb timer.
Create Rewrite HintDb timer_rw.

(** ** Booleans and integers *)

Lemma zgtb_true (a b : Z) : (a >? b) = true <-> b < a.
Proof. lia. Qed.

Lemma zgtb_false (a b : Z) : (a >? b) = false <-> a <= b.
Proof. lia. Qed.

Lemma div10_lt (n : Z) : 0 < n -> n / 10 < n.
Proof. intros. apply Z.div_lt; lia. Qed.

Lemma div10_pow2 (n : Z) (k : nat) :
  0 <= n < 2 ^ Z.of_nat (S k) -> 0 <= n / 10 < 2 ^ Z.of_nat k.
Proof.
  intros [H0 H1]. rewrite Nat2Z.inj_succ, Z.pow_succ_r in H1 by lia. zdiv.
Qed.

Lemma log2_fuel (n : Z) : 0 <= n -> n < 2 ^ Z.of_nat (S (Z.to_nat (Z.log2 n))).
Proof.
  intros H. destruct (Z.eq_dec n 0) as [->|Hn]; [reflexivity|].
  rewrite Nat2Z.inj_succ, Z2Nat.id by apply Z.log2_nonneg.
  apply Z.log2_spec. lia.
Qed.

#[export] Hint Resolve div10_lt : timer.

(** ** Iterating a step that counts a measure down

    The countdown arguments of the development share one shape: a step [f]
    that, on the states of an invariant [P] that are not final, keeps [P] and
    takes exactly one off an integer measure [mu], where the final states are
    those of measure zero.  Then [f] reaches a final state after exactly
    [mu a] steps. *)

Section Iterate.
Context {A : Type} (f : A -> A) (P final : A -> Prop) (mu : A -> Z).
Hypothesis step_inv : forall a, P a -> ~ final a -> P (f a).
Hypothesis step_measure : forall a, P a -> ~ final a -> mu (f a) = mu a - 1.
Hypothesis measure_final : forall a, P a -> (final a <-> mu a = 0).
Hypothesis measure_nonneg : forall a, P a -> 0 <= mu a.

Lemma iter_measure (n : nat) (a : A) :
  P a -> Z.of_nat n <= mu a ->
  P (Nat.iter n f a) /\ mu (Nat.iter n f a) = mu a - Z.of_nat n.
Proof.
  intros Ha. induction n as [|n IH]; intros Hn; [split; [done|cbn; lia]|].
  destruct IH as [IH1 IH2]; [lia|].
  change (Nat.iter (S n) f a) with (f (Nat.iter n f a)).
  assert (~ final (Nat.iter n f a)) as Hnf by (rewrite measure_final by done; lia).
  split; [by apply step_inv|]. rewrite step_measure by done. lia.
Qed.

Lemma iter_reaches (a : A) : P a -> final (Nat.iter (Z.to_nat (mu a)) f a).
Proof.
  intros Ha. pose proof (measure_nonneg a Ha).
  destruct (iter_measure (Z.to_nat (mu a)) a Ha) as [H1 H2]; [lia|].
  apply measure_final; [done|lia].
Qed.

Lemma iter_not_before (n : nat) (a : A) :
  P a -> Z.of_nat n < mu a -> ~ final (Nat.iter n f a).
Proof.
  intros Ha Hn. destruct (iter_measure n a Ha) as [H1 H2]; [lia|].
  rewrite measure_final by done. lia.
Qed.

End Iterate.

Lemma iter_S {A : Type} (f : A -> A) (n : nat) (a : A) :
  Nat.iter (S n) f a = f (Nat.iter n f a).
Proof. done. Qed.

(** A property that a step preserves holds after any number of steps. *)
Lemma iter_invariant {A : Type} (f : A -> A) (P : A -> Prop) (n : nat) (a : A) :
  (forall x, P x -> P (f x)) -> P a -> P (Nat.iter n f a).
Proof. intros Hf Ha. induction n as [|n IH]; [done|]. rewrite iter_S. by apply Hf. Qed.

Lemma iter_fixed {A : Type} (f : A -> A) (n : nat) (a : A) :
  f a = a -> Nat.iter n f a = a.
Proof. intros Hf. induction n as [|n IH]; [done|]. by rewrite iter_S, IH. Qed.

Lemma iter_add {A : Type} (f : A -> A) (n m : nat) (a : A) :
  Nat.iter (n + m) f a = Nat.iter n f (Nat.iter m f a).
Proof.
  induction n as [|n IH]; [done|].
  by rewrite Nat.add_succ_l, !iter_S, IH.
Qed.

Lemma iter_succ_r {A : Type} (f : A -> A) (n : nat) (a : A) :
  Nat.iter (S n) f a = Nat.iter n f (f a).
Proof. replace (S n) with (n + 1)%nat by lia. by rewrite iter_add. Qed.

(** ** Options *)

Lemma from_option_id_zero (o : option Z) :
  o = None \/ o = Some 0 -> from_option id 0 o = 0.
Proof. by intros [-> | ->]. Qed.

(** ** Lists *)

(** Reading a list by index with a default, as the source reads arrays. *)
Lemma Forall_nth_default {A : Type} (P : A -> Prop) (l : list A) (d : A) (i : nat) :
  Forall P l -> P d -> P (nth i l d).
Proof.
  intros Hl Hd. revert i. induction Hl as [|x l Hx Hl IH]; intros [|i]; cbn; auto.
Qed.

(** ** Strings *)

Lemma append_nil_l (s : string) : "" +:+ s = s.
Proof. done. Qed.

Lemma append_cons (c : ascii) (s1 s2 : string) :
  String c s1 +:+ s2 = String c (s1 +:+ s2).
Proof. done. Qed.

Lemma append_nil_r (s : string) : (s +:+ "") = s.
Proof. induction s as [|c s IH]; [done|]. by rewrite append_cons, IH. Qed.

Lemma append_assoc (s1 s2 s3 : string) :
  (s1 +:+ s2) +:+ s3 = s1 +:+ (s2 +:+ s3).
Proof. induction s1 as [|c s1 IH]; [done|]. by rewrite !append_cons, IH. Qed.

Lemma length_append (s1 s2 : string) :
  String.length (s1 +:+ s2) = (String.length s1 + String.length s2)%nat.
Proof. induction s1 as [|c s1 IH]; [done|]. rewrite append_cons. cbn. by rewrite IH. Qed.

#[export] Hint Rewrite append_nil_l append_nil_r append_assoc append_cons : timer_rw.

(** [str_norm]: concatenations to the right and literals unfolded to their
    characters, by the rewrite rules of [timer_rw]. *)
Ltac str_norm := autorewrite with timer_rw.

(** [string_forall P s]: every character of [s] satisfies the test [P]. *)
Fixpoint string_forall (P : ascii -> bool) (s : string) : bool :=
  match s with
  | EmptyString => true
  | String c s' => P c && string_forall P s'
  end.

Lemma string_forall_append (P : ascii -> bool) (s1 s2 : string) :
  string_forall P (s1 +:+ s2) = string_forall P s1 && string_forall P s2.
Proof.
  induction s1 as [|c s1 IH]; [done|].
  rewrite append_cons. cbn. by rewrite IH, andb_assoc.
Qed.

Lemma string_forall_impl (P Q : ascii -> bool) (s : string) :
  (forall c, P c = true -> Q c = true) ->
  string_forall P s = true -> string_forall Q s = true.
Proof.
  intros HPQ. induction s as [|c s IH]; [done|]. cbn.
  intros [Hc Hs]%andb_true_iff. by rewrite (HPQ _ Hc), (IH Hs).
Qed.

Lemma string_forall_and (P Q : ascii -> bool) (s : string) :
  string_forall (fun c => P c && Q c) s = string_forall P s && string_forall Q s.
Proof.
  induction s as [|c s IH]; [done|]. cbn. rewrite IH.
  destruct (P c), (Q c), (string_forall P s); done.
Qed.

#[export] Hint Rewrite string_forall_append : timer_rw.
