(* ===== verification/JsString.v ===== *)
(** * The string primitives of the JavaScript runtime that the widget calls

    [parseTimeInput] and [formatTime] of [src/src/App.tsx] are written with
    [String.prototype.split], [trim] and [padStart] and with template
    literals.  This file models those primitives after ECMAScript, on strings
    whose code units are below 256 (Rocq's [ascii]); in that range the white
    space and line terminator characters are the codes 9 to 13, 32 and 160.
    The lemmas are the facts about them that the parser's theorems need:
    what [trim] removes, how [split] and concatenation interact, the length
    [padStart] produces. *)

From S2P Require Import Prelude.

(** ** White space and trimming *)

(** ECMAScript's WhiteSpace and LineTerminator productions, below 256:
    TAB, LF, VT, FF, CR, SP and NBSP. *)
Definition isWhiteSpace (c : ascii) : bool :=
  match c with
  | "009" | "010" | "011" | "012" | "013" | " " | "160" => true
  | _ => false
  end%char.

(** [String.prototype.trimStart]: drop the leading white space. *)
Fixpoint trimStart (s : string) : string :=
  match s with
  | EmptyString => EmptyString
  | String c s' => if isWhiteSpace c then trimStart s' else s
  end.

(** [String.prototype.trimEnd]: drop the trailing white space. *)
Fixpoint trimEnd (s : string) : string :=
  match s with
  | EmptyString => EmptyString
  | String c s' =>
      match trimEnd s' with
      | EmptyString => if isWhiteSpace c then EmptyString else String c EmptyString
      | r => String c r
      end
  end.

(** [String.prototype.trim]: both ends. *)
Definition trim (s : string) : string := trimEnd (trimStart s).

(** ** Splitting and joining *)

(** [String.prototype.split] with a one-character separator.  The result is
    never empty: the empty string splits into one empty part, and [n]
    separators give [n + 1] parts. *)
Fixpoint split (sep : ascii) (s : string) : list string :=
  match s with
  | EmptyString => [EmptyString]
  | String c s' =>
      if Ascii.eqb c sep then EmptyString :: split sep s'
      else match split sep s' with
           | p :: ps => String c p :: ps
           | [] => [String c EmptyString]
           end
  end.

(** [Array.prototype.join] with a one-character separator. *)
Fixpoint join (sep : ascii) (parts : list string) : string :=
  match parts with
  | [] => EmptyString
  | [p] => p
  | p :: ps => p +:+ String sep (join sep ps)
  end.

(** The number of occurrences of [c] in [s]. *)
Fixpoint countChar (c : ascii) (s : string) : nat :=
  match s with
  | EmptyString => O
  | String x s' => ((if Ascii.eqb x c then 1 else 0) + countChar c s')%nat
  end.

(** ** Padding *)

(** [String.prototype.repeat] on a one-character string. *)
Fixpoint repeatChar (n : nat) (c : ascii) : string :=
  match n with
  | O => EmptyString
  | S n' => String c (repeatChar n' c)
  end.

(** [String.prototype.padStart] with a one-character filler: the filler is
    repeated up to the target length, and a string that is long enough is
    returned as it is. *)
Definition padStart (target : nat) (fill : ascii) (s : string) : string :=
  repeatChar (target - String.length s) fill +:+ s.

(** [noChar c s]: the character [c] does not occur in [s]. *)
Definition noChar (c : ascii) (s : string) : bool :=
  string_forall (fun x => negb (Ascii.eqb x c)) s.

(** [noSpace s]: no character of [s] is white space. *)
Definition noSpace (s : string) : bool :=
  string_forall (fun x => negb (isWhiteSpace x)) s.

(** ** Facts about trimming *)

Section Trim.
Implicit Types (s r : string) (c : ascii).

Lemma trimStart_cons_ws c s :
  isWhiteSpace c = true -> trimStart (String c s) = trimStart s.
Proof. cbn. by intros ->. Qed.

Lemma trimStart_cons_nonws c s :
  isWhiteSpace c = false -> trimStart (String c s) = String c s.
Proof. cbn. by intros ->. Qed.

(** What [trimStart] returns is empty or starts with a character that is not
    white space. *)
Lemma trimStart_head s :
  trimStart s = EmptyString \/
  exists c r, trimStart s = String c r /\ isWhiteSpace c = false.
Proof.
  induction s as [|c s IH]; [by left|].
  cbn. destruct (isWhiteSpace c) eqn:E; [done|]. right. by exists c, s.
Qed.

Lemma trimStart_length s : (String.length (trimStart s) <= String.length s)%nat.
Proof. induction s as [|c s IH]; [done|]. cbn. destruct (isWhiteSpace c); cbn; lia. Qed.

Lemma trimStart_idem s : trimStart (trimStart s) = trimStart s.
Proof.
  destruct (trimStart_head s) as [->|(c & r & -> & E)]; [done|].
  by apply trimStart_cons_nonws.
Qed.

Lemma trimEnd_cons_nonws c s :
  isWhiteSpace c = false -> trimEnd (String c s) = String c (trimEnd s).
Proof. cbn. intros ->. by destruct (trimEnd s). Qed.

Lemma trimEnd_cons_ws c s :
  isWhiteSpace c = true ->
  trimEnd (String c s) =
    match trimEnd s with EmptyString => EmptyString | r => String c r end.
Proof. cbn. by intros ->. Qed.

(** [trimEnd] keeps the first character, or removes everything when the
    string is white space only. *)
Lemma trimEnd_cons c s :
  trimEnd (String c s) = String c (trimEnd s) \/
  (trimEnd (String c s) = EmptyString /\ isWhiteSpace c = true).
Proof.
  cbn. destruct (trimEnd s); [|by left].
  destruct (isWhiteSpace c); [by right|by left].
Qed.

(** A string that starts with a character that is not white space keeps it
    through [trim]. *)
Lemma trim_cons_nonws c s :
  isWhiteSpace c = false -> trim (String c s) = String c (trimEnd s).
Proof.
  intros E. unfold trim. by rewrite trimStart_cons_nonws, trimEnd_cons_nonws.
Qed.

Lemma trim_trimStart s : trim (trimStart s) = trim s.
Proof. unfold trim. by rewrite trimStart_idem. Qed.

Lemma trimStart_trim s : trimStart (trim s) = trim s.
Proof.
  unfold trim. destruct (trimStart_head s) as [->|(c & r & -> & E)]; [done|].
  rewrite trimEnd_cons_nonws by done. by apply trimStart_cons_nonws.
Qed.

Lemma trimEnd_noSpace s : noSpace s = true -> trimEnd s = s.
Proof.
  induction s as [|c s IH]; [done|]. cbn [noSpace string_forall].
  intros [Hc Hs]%andb_true_iff. apply negb_true_iff in Hc.
  by rewrite trimEnd_cons_nonws, IH.
Qed.

Lemma trimStart_noSpace s : noSpace s = true -> trimStart s = s.
Proof.
  destruct s as [|c s]; [done|]. cbn [noSpace string_forall].
  intros [Hc _]%andb_true_iff. apply negb_true_iff in Hc.
  by apply trimStart_cons_nonws.
Qed.

(** [trim] leaves a string without white space alone. *)
Lemma trim_noSpace s : noSpace s = true -> trim s = s.
Proof. intros H. unfold trim. by rewrite trimStart_noSpace, trimEnd_noSpace. Qed.

Lemma trim_idem s : trim (trim s) = trim s.
Proof.
  unfold trim at 1. rewrite trimStart_trim. unfold trim.
  generalize (trimStart s). clear s. intros s.
  induction s as [|c s IH]; [done|].
  destruct (isWhiteSpace c) eqn:E.
  - rewrite (trimEnd_cons_ws c s E). destruct (trimEnd s) as [|d r] eqn:Er; [done|].
    rewrite (trimEnd_cons_ws c _ E), IH. done.
  - by rewrite !trimEnd_cons_nonws, IH.
Qed.

End Trim.

#[export] Hint Rewrite trimStart_idem trim_idem trimStart_trim trim_trimStart : timer_rw.

(** ** Facts about splitting *)

Section Split.
Implicit Types (s a b : string) (c sep : ascii).

Lemma split_nonempty sep s : split sep s <> [].
Proof.
  induction s as [|c s IH]; [done|]. cbn.
  destruct (Ascii.eqb c sep); [done|]. by destruct (split sep s).
Qed.

Lemma split_cons_sep sep s : split sep (String sep s) = EmptyString :: split sep s.
Proof. cbn. by rewrite Ascii.eqb_refl. Qed.

Lemma split_cons_other sep c s :
  Ascii.eqb c sep = false ->
  split sep (String c s) =
    match split sep s with
    | p :: ps => String c p :: ps
    | [] => [String c EmptyString]
    end.
Proof. cbn. by intros ->. Qed.

(** A string without the separator is one part. *)
Lemma split_noChar sep s : noChar sep s = true -> split sep s = [s].
Proof.
  induction s as [|c s IH]; [done|]. cbn [noChar string_forall].
  intros [Hc Hs]%andb_true_iff. apply negb_true_iff in Hc.
  by rewrite split_cons_other, (IH Hs).
Qed.

(** The first separator ends the first part. *)
Lemma split_append sep a b :
  noChar sep a = true ->
  split sep (a +:+ String sep b) = a :: split sep b.
Proof.
  induction a as [|c a IH]; intros H.
  - by rewrite append_nil_l, split_cons_sep.
  - cbn [noChar string_forall] in H. apply andb_true_iff in H as [Hc Ha].
    apply negb_true_iff in Hc.
    by rewrite append_cons, split_cons_other, (IH Ha).
Qed.

(** The number of parts is the number of separators plus one. *)
Lemma split_length sep s : length (split sep s) = S (countChar sep s).
Proof.
  induction s as [|c s IH]; [done|]. cbn.
  destruct (Ascii.eqb c sep); cbn; [by rewrite IH|].
  destruct (split sep s) eqn:E; [by destruct (split_nonempty sep s)|].
  by rewrite <- IH.
Qed.

(** No part contains the separator. *)
Lemma split_parts_noChar sep s : Forall (fun p => noChar sep p = true) (split sep s).
Proof.
  induction s as [|c s IH]; [by repeat constructor|]. cbn.
  destruct (Ascii.eqb c sep) eqn:E; [by constructor|].
  destruct (split sep s) as [|p ps]; [repeat constructor; cbn; by rewrite E|].
  inv IH. constructor; [|done]. cbn. by rewrite E.
Qed.

(** Joining the parts gives the string back. *)
(** What holds of every character of the string holds of every character of
    every part. *)
Lemma split_parts_forall (P : ascii -> bool) sep s :
  string_forall P s = true ->
  Forall (fun p => string_forall P p = true) (split sep s).
Proof.
  induction s as [|c s IH]; [by repeat constructor|]. cbn.
  intros [Hc Hs]%andb_true_iff. specialize (IH Hs).
  destruct (Ascii.eqb c sep); [by constructor|].
  destruct (split sep s) as [|p ps]; [constructor; [cbn; by rewrite Hc|constructor]|].
  inv IH. constructor; [|done]. cbn. by rewrite Hc.
Qed.

(** No part is longer than the string. *)
Lemma split_parts_length sep s :
  Forall (fun p => (String.length p <= String.length s)%nat) (split sep s).
Proof.
  induction s as [|c s IH]; [by repeat constructor|]. cbn.
  destruct (Ascii.eqb c sep).
  - constructor; [cbn; lia|]. eapply Forall_impl; [done|]. cbn. lia.
  - destruct (split sep s) as [|p ps]; [constructor; [cbn; lia|constructor]|].
    inv IH. constructor; [cbn; lia|]. eapply Forall_impl; [done|]. cbn. lia.
Qed.

Lemma join_split sep s : join sep (split sep s) = s.
Proof.
  induction s as [|c s IH]; [done|]. cbn.
  destruct (Ascii.eqb_spec c sep) as [->|Hne].
  - destruct (split sep s) as [|p ps] eqn:E; [by destruct (split_nonempty sep s)|].
    cbn [join]. rewrite append_nil_l. by rewrite <- IH.
  - destruct (split sep s) as [|p ps] eqn:E; [by destruct (split_nonempty sep s)|].
    destruct ps as [|q qs]; cbn [join] in *; [by rewrite IH|].
    by rewrite append_cons, IH.
Qed.

End Split.

(** ** Facts about padding *)

Section Pad.
Implicit Types (s : string) (c : ascii) (n : nat).

Lemma repeatChar_length n c : String.length (repeatChar n c) = n.
Proof. induction n as [|n IH]; [done|]. cbn. by rewrite IH. Qed.

Lemma padStart_length n c s :
  String.length (padStart n c s) = Nat.max n (String.length s).
Proof. unfold padStart. rewrite length_append, repeatChar_length. lia. Qed.

(** A string that is long enough is not padded. *)
Lemma padStart_long n c s : (n <= String.length s)%nat -> padStart n c s = s.
Proof.
  intros H. unfold padStart. by replace (n - String.length s)%nat with O by lia.
Qed.

Lemma padStart_short n c s :
  (String.length s < n)%nat ->
  padStart n c s = String c (padStart (n - 1) c s).
Proof.
  intros H. unfold padStart.
  replace (n - String.length s)%nat with (S (n - 1 - String.length s)) by lia.
  done.
Qed.

Lemma padStart_forall (P : ascii -> bool) n c s :
  P c = true -> string_forall P s = true -> string_forall P (padStart n c s) = true.
Proof.
  intros Hc Hs. unfold padStart. rewrite string_forall_append, Hs, andb_true_r.
  induction (n - String.length s)%nat as [|k IH]; [done|]. cbn. by rewrite Hc, IH.
Qed.

End Pad.
