(* ===== verification/JsNumber.v ===== *)
(** * The number primitives of the JavaScript runtime that the widget calls

    [parseInt] (global, radix absent) and [Number.prototype.toString] on
    integers, after ECMAScript.  A JavaScript number is modelled as an
    integer [Z]; [NaN], which [parseInt] returns when it finds no digit, is
    [None].  The model is exact on the safe integers (magnitude at most
    [2^53 - 1]): beyond them JavaScript rounds, which [Double] models, and
    prints exponents, which is not modelled; [parseInt_safe] shows that
    inputs of at most 15 characters stay inside.  Minus zero is identified with zero, which the one use in
    the widget ([parseInt(...) || 0]) cannot tell apart. *)

From S2P Require Import Prelude JsString.

(** ** Parsing *)

(** The value of a code unit as a digit in the given radix: [0-9], then
    [a-z] and [A-Z] for ten and above. *)
Definition digitValue (radix : Z) (c : ascii) : option Z :=
  let n := Z.of_N (N_of_ascii c) in
  let v := if (48 <=? n) && (n <=? 57) then n - 48
           else if (97 <=? n) && (n <=? 122) then n - 87
           else if (65 <=? n) && (n <=? 90) then n - 55
           else radix in
  if v <? radix then Some v else None.

(** The longest prefix of radix digits, read left to right; [acc] is [None]
    until a digit has been read. *)
Fixpoint parseDigits (radix : Z) (s : string) (acc : option Z) : option Z :=
  match s with
  | EmptyString => acc
  | String c s' =>
      match digitValue radix c with
      | Some d => parseDigits radix s' (Some (from_option id 0 acc * radix + d))
      | None => acc
      end
  end.

(** An optional sign. *)
Definition readSign (s : string) : Z * string :=
  match s with
  | String c r =>
      if Ascii.eqb c "-" then (-1, r)
      else if Ascii.eqb c "+" then (1, r)
      else (1, s)
  | EmptyString => (1, s)
  end.

(** With no radix argument, a [0x] or [0X] prefix selects radix 16. *)
Definition readRadix (s : string) : Z * string :=
  match s with
  | String c0 (String c1 r) =>
      if Ascii.eqb c0 "0" && (Ascii.eqb c1 "x" || Ascii.eqb c1 "X")
      then (16, r) else (10, s)
  | _ => (10, s)
  end.

(** [parseInt] once the leading white space is skipped: the sign, the radix
    prefix, then the digits; [None] is [NaN]. *)
Definition parseIntBody (s : string) : option Z :=
  let '(sign, s1) := readSign s in
  let '(radix, s2) := readRadix s1 in
  match parseDigits radix s2 None with
  | Some m => Some (sign * m)
  | None => None
  end.

(** [parseInt(s)] with no radix argument. *)
Definition parseInt (s : string) : option Z := parseIntBody (trimStart s).

(** ** Printing *)

Definition digitChar (d : Z) : ascii := ascii_of_N (Z.to_N (48 + d)).

(** The decimal digits of [n >= 0] in front of [acc], least significant
    first; [fuel] bounds the number of digits. *)
Fixpoint digitsFuel (fuel : nat) (n : Z) (acc : string) : string :=
  match fuel with
  | O => acc
  | S fuel' =>
      let acc' := String (digitChar (n mod 10)) acc in
      if n <? 10 then acc' else digitsFuel fuel' (n / 10) acc'
  end.

(** A number below [2^k] has at most [k] decimal digits, so the binary
    logarithm plus one is enough fuel. *)
Definition natToString (n : Z) : string :=
  digitsFuel (S (Z.to_nat (Z.log2 n))) n EmptyString.

(** [Number.prototype.toString()] on an integer. *)
Definition toString (n : Z) : string :=
  if n <? 0 then String "-" (natToString (- n)) else natToString n.

(** ** Safe integers *)

Definition MAX_SAFE_INTEGER : Z := 2 ^ 53 - 1.

Definition isSafeInteger (n : Z) : bool :=
  (- MAX_SAFE_INTEGER <=? n) && (n <=? MAX_SAFE_INTEGER).

(** A decimal digit character. *)
Definition isDecDigit (c : ascii) : bool :=
  match digitValue 10 c with Some _ => true | None => false end.

(** Strings of decimal digits. *)
Definition allDigits (s : string) : bool := string_forall isDecDigit s.

(** The characters [toString] writes: decimal digits and the minus sign. *)
Definition isNumChar (c : ascii) : bool := isDecDigit c || Ascii.eqb c "-".

(** ** Digits *)

Section Digits.
Implicit Types (s r : string) (c : ascii) (n d radix : Z) (acc : option Z).

Lemma digitValue_range radix c d :
  digitValue radix c = Some d -> 0 <= d < radix.
Proof.
  unfold digitValue. pose proof (N2Z.is_nonneg (N_of_ascii c)).
  repeat case_match; intros; simplify_eq; lia.
Qed.

Lemma digitValue_digitChar d : 0 <= d < 10 -> digitValue 10 (digitChar d) = Some d.
Proof.
  intros H. unfold digitValue, digitChar.
  rewrite N_ascii_embedding by lia. rewrite Z2N.id by lia.
  repeat case_match; try lia. f_equal. lia.
Qed.

(** No digit of any radix is white space. *)
Lemma digitValue_not_ws radix c d :
  digitValue radix c = Some d -> isWhiteSpace c = false.
Proof.
  destruct (isWhiteSpace c) eqn:E; [|done].
  destruct c as [[] [] [] [] [] [] [] []]; try discriminate E;
    unfold digitValue; cbn; by rewrite Z.ltb_irrefl.
Qed.

Lemma isDecDigit_not_ws c : isDecDigit c = true -> isWhiteSpace c = false.
Proof.
  unfold isDecDigit. destruct (digitValue 10 c) eqn:E; [|done].
  intros _. by eapply digitValue_not_ws.
Qed.

(** The characters the parser treats specially are no decimal digits. *)
Lemma isDecDigit_plain c :
  isDecDigit c = true ->
  Ascii.eqb c "-" = false /\ Ascii.eqb c "+" = false /\
  Ascii.eqb c "x" = false /\ Ascii.eqb c "X" = false /\ Ascii.eqb c ":" = false.
Proof.
  intros H.
  repeat split;
    match goal with |- Ascii.eqb c ?x = false =>
      destruct (Ascii.eqb_spec c x) as [->|]; done end.
Qed.

Lemma isDecDigit_digitChar d : 0 <= d < 10 -> isDecDigit (digitChar d) = true.
Proof. intros H. unfold isDecDigit. by rewrite digitValue_digitChar. Qed.

Lemma parseDigits_cons_digit radix c s acc d :
  digitValue radix c = Some d ->
  parseDigits radix (String c s) acc =
    parseDigits radix s (Some (from_option id 0 acc * radix + d)).
Proof. cbn. by intros ->. Qed.

Lemma parseDigits_cons_other radix c s acc :
  digitValue radix c = None -> parseDigits radix (String c s) acc = acc.
Proof. cbn. by intros ->. Qed.

(** Once a digit has been read the result is a number. *)
Lemma parseDigits_Some radix s m : is_Some (parseDigits radix s (Some m)).
Proof.
  revert m. induction s as [|c s IH]; intros m; cbn; [done|].
  destruct (digitValue radix c); [apply IH|done].
Qed.

(** [parseDigits] finds nothing exactly when the first character is no digit. *)
Lemma parseDigits_None radix s :
  parseDigits radix s None = None <->
  match s with EmptyString => True | String c _ => digitValue radix c = None end.
Proof.
  destruct s as [|c s]; cbn; [done|].
  destruct (digitValue radix c) as [d|]; [|done].
  split; [|done]. intros H.
  by destruct (parseDigits_Some radix s (0 * radix + d)) as [? ?]; simplify_eq.
Qed.

End Digits.

(** ** [parseInt] ignores trailing white space

    [parseInt] stops at the first character that is no digit, so what
    [trimEnd] removes was never read. *)

Section ParseTrim.
Implicit Types (s r : string) (c : ascii) (radix : Z) (acc : option Z).

Lemma parseDigits_trimEnd radix s acc :
  parseDigits radix (trimEnd s) acc = parseDigits radix s acc.
Proof.
  revert acc. induction s as [|c s IH]; intros acc; [done|].
  destruct (digitValue radix c) as [d|] eqn:E.
  - rewrite trimEnd_cons_nonws by (by eapply digitValue_not_ws).
    by rewrite !(parseDigits_cons_digit _ _ _ _ _ E), IH.
  - rewrite (parseDigits_cons_other _ _ _ _ E).
    destruct (trimEnd_cons c s) as [-> | [-> _]]; [|done].
    by apply parseDigits_cons_other.
Qed.

Lemma readSign_trimEnd s :
  readSign (trimEnd s) = (fst (readSign s), trimEnd (snd (readSign s))).
Proof.
  destruct s as [|c s]; [done|].
  destruct (trimEnd_cons c s) as [E | [E Hws]]; rewrite E; cbn [readSign].
  - repeat case_match; cbn [fst snd]; by rewrite ?E.
  - repeat case_match; cbn [fst snd]; rewrite ?E; try done;
      match goal with H : Ascii.eqb c _ = true |- _ =>
        apply Ascii.eqb_eq in H; by subst end.
Qed.

Lemma readRadix_trimEnd s :
  readRadix (trimEnd s) = (fst (readRadix s), trimEnd (snd (readRadix s))).
Proof.
  destruct s as [|c0 s]; [done|].
  destruct (trimEnd_cons c0 s) as [E | [E Hws]]; rewrite E.
  - destruct s as [|c1 s].
    { change (trimEnd "") with "" in *. cbn [readRadix fst snd]. by rewrite E. }
    destruct (trimEnd_cons c1 s) as [E1 | [E1 Hws1]]; rewrite E1; cbn [readRadix].
    + repeat case_match; cbn [fst snd]; by rewrite ?E, ?E1.
    + destruct (Ascii.eqb c0 "0" && (Ascii.eqb c1 "x" || Ascii.eqb c1 "X")) eqn:T;
        cbn [fst snd]; [|by rewrite E, E1].
      apply andb_true_iff in T as [_ [T|T]%orb_true_iff];
        apply Ascii.eqb_eq in T; by subst.
  - assert (Ascii.eqb c0 "0" = false) as T
      by (apply Ascii.eqb_neq; by intros ->).
    destruct s as [|c1 s]; cbn [readRadix]; rewrite ?T; cbn [andb fst snd];
      by rewrite E.
Qed.

Lemma parseIntBody_trimEnd s : parseIntBody (trimEnd s) = parseIntBody s.
Proof.
  unfold parseIntBody. rewrite readSign_trimEnd.
  destruct (readSign s) as [sign s1]. cbn [fst snd].
  rewrite readRadix_trimEnd. destruct (readRadix s1) as [radix s2]. cbn [fst snd].
  by rewrite parseDigits_trimEnd.
Qed.

(** Trimming the argument of [parseInt] changes nothing. *)
Lemma parseInt_trim s : parseInt (trim s) = parseInt s.
Proof.
  unfold parseInt. rewrite trimStart_trim. unfold trim.
  apply parseIntBody_trimEnd.
Qed.

End ParseTrim.

(** ** Printing and parsing back *)

Section Print.
Implicit Types (s acc : string) (c : ascii) (n d : Z) (fuel : nat).

Lemma allDigits_noSpace s : allDigits s = true -> noSpace s = true.
Proof.
  apply string_forall_impl. intros c H. by rewrite (isDecDigit_not_ws c H).
Qed.

Lemma allDigits_noChar c s :
  isDecDigit c = false -> allDigits s = true -> noChar c s = true.
Proof.
  intros Hc. apply string_forall_impl. intros x Hx.
  destruct (Ascii.eqb_spec x c) as [->|]; [congruence|done].
Qed.

Lemma readSign_allDigits s : allDigits s = true -> readSign s = (1, s).
Proof.
  destruct s as [|c s]; [done|]. cbn. intros [Hc _]%andb_true_iff.
  by destruct (isDecDigit_plain c Hc) as (-> & -> & _).
Qed.

Lemma readRadix_allDigits s : allDigits s = true -> readRadix s = (10, s).
Proof.
  destruct s as [|c0 [|c1 s]]; [done..|]. cbn.
  intros [_ [Hc _]%andb_true_iff]%andb_true_iff.
  destruct (isDecDigit_plain c1 Hc) as (_ & _ & -> & -> & _).
  by rewrite andb_false_r.
Qed.

(** On a string of decimal digits, [parseInt] is [parseDigits] in radix 10:
    no white space, no sign, no [0x]. *)
Lemma parseIntBody_allDigits s :
  allDigits s = true -> parseIntBody s = parseDigits 10 s None.
Proof.
  intros H. unfold parseIntBody.
  rewrite (readSign_allDigits s H), (readRadix_allDigits s H).
  destruct (parseDigits 10 s None) as [m|]; [|done]. f_equal; lia.
Qed.

Lemma parseIntBody_minus s :
  allDigits s = true ->
  parseIntBody (String "-" s) = Z.opp <$> parseDigits 10 s None.
Proof.
  intros H. unfold parseIntBody. cbn [readSign]. cbn [Ascii.eqb Bool.eqb andb].
  rewrite (readRadix_allDigits s H).
  destruct (parseDigits 10 s None) as [m|]; [|done]. cbn. f_equal; lia.
Qed.

Lemma parseInt_allDigits s :
  allDigits s = true -> parseInt s = parseDigits 10 s None.
Proof.
  intros H. unfold parseInt.
  by rewrite trimStart_noSpace, parseIntBody_allDigits by auto using allDigits_noSpace.
Qed.

Lemma digitsFuel_allDigits fuel n acc :
  0 <= n -> allDigits acc = true -> allDigits (digitsFuel fuel n acc) = true.
Proof.
  revert n acc. induction fuel as [|fuel IH]; intros n acc Hn Hacc; [done|].
  cbn [digitsFuel].
  assert (allDigits (String (digitChar (n mod 10)) acc) = true) as Hacc'.
  { cbn. rewrite isDecDigit_digitChar by (apply Z.mod_pos_bound; lia). done. }
  destruct (n <? 10); [done|]. apply IH; [apply Z.div_pos; lia|done].
Qed.

(** Reading back the digits [digitsFuel] wrote gives the number, when no
    nonzero digit was read before them. *)
Lemma parseDigits_digitsFuel fuel n acc (a : option Z) :
  0 <= n < 2 ^ Z.of_nat (S fuel) ->
  from_option id 0 a = 0 ->
  parseDigits 10 (digitsFuel (S fuel) n acc) a = parseDigits 10 acc (Some n).
Proof.
  revert n acc. induction fuel as [|fuel IH]; intros n acc Hn Ha.
  - cbn [digitsFuel]. assert (n < 10) by (cbn in Hn; lia).
    rewrite Z.mod_small by lia. replace (n <? 10) with true by lia.
    rewrite (parseDigits_cons_digit 10 _ _ _ n) by (apply digitValue_digitChar; lia).
    rewrite Ha. done.
  - remember (S fuel) as k. cbn [digitsFuel].
    assert (parseDigits 10 (String (digitChar (n mod 10)) acc) (Some (n / 10))
            = parseDigits 10 acc (Some n)) as Hstep.
    { rewrite (parseDigits_cons_digit 10 _ _ _ (n mod 10))
        by (apply digitValue_digitChar; apply Z.mod_pos_bound; lia).
      cbn [from_option id]. do 2 f_equal. pose proof (Z.div_mod n 10). lia. }
    destruct (Z.ltb_spec n 10) as [Hlt|Hge].
    + rewrite Z.div_small in Hstep by lia. rewrite <- Hstep.
      rewrite !(parseDigits_cons_digit 10 _ _ _ (n mod 10))
        by (apply digitValue_digitChar; apply Z.mod_pos_bound; lia).
      by rewrite Ha.
    + subst k. rewrite IH, Hstep; [done| |done]. by apply div10_pow2.
Qed.

Lemma natToString_allDigits n : 0 <= n -> allDigits (natToString n) = true.
Proof. intros H. by apply digitsFuel_allDigits. Qed.

Lemma parseDigits_natToString n (a : option Z) :
  0 <= n -> from_option id 0 a = 0 -> parseDigits 10 (natToString n) a = Some n.
Proof.
  intros Hn Ha. unfold natToString.
  rewrite parseDigits_digitsFuel; [done| |done].
  split; [done|]. by apply log2_fuel.
Qed.

Lemma digitsFuel_length fuel n acc :
  (String.length acc + Nat.min 1 fuel <= String.length (digitsFuel fuel n acc))%nat.
Proof.
  revert n acc. induction fuel as [|fuel IH]; intros n acc; cbn; [lia|].
  destruct (n <? 10); cbn; [lia|].
  specialize (IH (n / 10) (String (digitChar (n mod 10)) acc)). cbn in IH. lia.
Qed.

(** One digit below ten, at least two from ten on. *)
Lemma natToString_small n : 0 <= n < 10 -> natToString n = String (digitChar n) EmptyString.
Proof.
  intros H. unfold natToString. cbn [digitsFuel].
  replace (n <? 10) with true by lia. by rewrite Z.mod_small by lia.
Qed.

Lemma natToString_long n : 10 <= n -> (2 <= String.length (natToString n))%nat.
Proof.
  intros H. unfold natToString. cbn [digitsFuel]. replace (n <? 10) with false by lia.
  assert (1 <= Z.log2 n) by (apply Z.log2_le_pow2; lia).
  pose proof (digitsFuel_length (Z.to_nat (Z.log2 n)) (n / 10)
                (String (digitChar (n mod 10)) EmptyString)) as Hl.
  cbn [String.length] in Hl. lia.
Qed.

Lemma natToString_nonempty n : (1 <= String.length (natToString n))%nat.
Proof.
  unfold natToString.
  pose proof (digitsFuel_length (S (Z.to_nat (Z.log2 n))) n EmptyString) as Hl.
  cbn [String.length] in Hl. lia.
Qed.

Lemma toString_allNumChars n : string_forall isNumChar (toString n) = true.
Proof.
  assert (forall m, 0 <= m -> string_forall isNumChar (natToString m) = true) as H.
  { intros m Hm. apply (string_forall_impl isDecDigit); [|by apply natToString_allDigits].
    intros c Hc. unfold isNumChar. by rewrite Hc. }
  unfold toString. destruct (Z.ltb_spec n 0); [|by apply H].
  cbn. apply H. lia.
Qed.

Lemma toString_small n : 0 <= n < 10 -> toString n = String (digitChar n) EmptyString.
Proof.
  intros H. unfold toString. replace (n <? 0) with false by lia.
  by apply natToString_small.
Qed.

Lemma toString_long n : n < 0 \/ 10 <= n -> (2 <= String.length (toString n))%nat.
Proof.
  intros H. unfold toString. destruct (Z.ltb_spec n 0).
  - pose proof (natToString_nonempty (- n)). cbn [String.length]. lia.
  - apply natToString_long. lia.
Qed.

(** [parseInt] reads the digits in front and ignores what follows them. *)
Lemma parseDigits_prefix ds c rest (acc : option Z) :
  allDigits ds = true -> digitValue 10 c = None ->
  parseDigits 10 (ds +:+ String c rest) acc = parseDigits 10 ds acc.
Proof.
  intros Hds Hc. revert acc. induction ds as [|x ds IH]; intros acc.
  - by rewrite append_nil_l, parseDigits_cons_other.
  - cbn in Hds. apply andb_true_iff in Hds as [Hx Hds]. rewrite append_cons.
    unfold isDecDigit in Hx. destruct (digitValue 10 x) as [d|] eqn:E; [|done].
    rewrite !(parseDigits_cons_digit 10 x _ _ d) by done. by apply IH.
Qed.

Lemma parseInt_prefix ds c rest :
  allDigits ds = true -> ds <> EmptyString -> digitValue 10 c = None ->
  Ascii.eqb c "x" = false -> Ascii.eqb c "X" = false ->
  parseInt (ds +:+ String c rest) = parseInt ds.
Proof.
  intros Hds Hne Hc Hx HX. rewrite (parseInt_allDigits ds Hds).
  destruct ds as [|c0 ds]; [done|]. cbn in Hds.
  apply andb_true_iff in Hds as [H0 Hds]. rewrite append_cons.
  unfold parseInt. rewrite trimStart_cons_nonws by (by apply isDecDigit_not_ws).
  destruct (isDecDigit_plain c0 H0) as (Hm & Hp & _).
  unfold parseIntBody. cbn [readSign]. rewrite Hm, Hp.
  assert (readRadix (String c0 (ds +:+ String c rest))
          = (10, String c0 (ds +:+ String c rest))) as ->.
  { destruct ds as [|c1 ds]; cbn [readRadix].
    - rewrite append_nil_l, Hx, HX. by rewrite andb_false_r.
    - rewrite append_cons. cbn in Hds. apply andb_true_iff in Hds as [H1 _].
      destruct (isDecDigit_plain c1 H1) as (_ & _ & -> & -> & _).
      by rewrite andb_false_r. }
  rewrite <- append_cons, parseDigits_prefix by (done || (cbn; by rewrite H0)).
  destruct (parseDigits 10 _ None) as [m|]; [|done]. f_equal; lia.
Qed.

(** [parseInt] inverts [toString] on every integer. *)
Lemma parseInt_toString n : parseInt (toString n) = Some n.
Proof.
  unfold toString. destruct (Z.ltb_spec n 0) as [Hneg|Hpos].
  - unfold parseInt. rewrite trimStart_cons_nonws by done.
    rewrite parseIntBody_minus by (apply natToString_allDigits; lia).
    rewrite parseDigits_natToString by (done || lia). cbn. f_equal; lia.
  - rewrite parseInt_allDigits by (by apply natToString_allDigits).
    by apply parseDigits_natToString.
Qed.

End Print.

(** ** Safe integers *)

Section Safe.
Implicit Types (s : string) (n m a radix : Z).

(** Digits in a radix write a number below the radix to the power of
    their count. *)
Lemma parseDigits_bound radix s (acc : option Z) m :
  0 < radix -> 0 <= from_option id 0 acc ->
  parseDigits radix s acc = Some m ->
  0 <= m < (from_option id 0 acc + 1) * radix ^ Z.of_nat (String.length s).
Proof.
  intros Hr. revert acc. induction s as [|c s IH]; intros acc Ha Hm.
  - cbn in Hm. subst acc. change (Z.of_nat (String.length "")) with 0.
    rewrite Z.pow_0_r. cbn [from_option id] in *. lia.
  - cbn [String.length]. rewrite Nat2Z.inj_succ, Z.pow_succ_r by lia.
    assert (0 < radix ^ Z.of_nat (String.length s)) by (apply Z.pow_pos_nonneg; lia).
    cbn [parseDigits] in Hm. destruct (digitValue radix c) as [d|] eqn:E.
    + apply digitValue_range in E. apply IH in Hm; cbn [from_option id] in *; nia.
    + subst acc. cbn [from_option id] in *. nia.
Qed.

Lemma readSign_length s :
  (fst (readSign s) = 1 \/ fst (readSign s) = -1) /\
  (String.length (snd (readSign s)) <= String.length s)%nat.
Proof.
  destruct s as [|c s]; [by split; [left|]|]. cbn [readSign].
  destruct (Ascii.eqb c "-"); [by split; [right|cbn; lia]|].
  destruct (Ascii.eqb c "+"); split; auto; cbn; lia.
Qed.

Lemma readRadix_length s :
  (fst (readRadix s) = 10 /\ snd (readRadix s) = s) \/
  (fst (readRadix s) = 16 /\
   (String.length (snd (readRadix s)) + 2 = String.length s)%nat).
Proof.
  destruct s as [|c0 [|c1 s]]; [by left..|]. cbn [readRadix].
  destruct (_ && _); [right|left]; split; try done. cbn. lia.
Qed.

(** Digits without a sign write a number that is not negative. *)
Lemma parseInt_allDigits_nonneg s n :
  allDigits s = true -> parseInt s = Some n -> 0 <= n.
Proof.
  intros Hs. rewrite parseInt_allDigits by done. intros Hn.
  by apply parseDigits_bound in Hn as [Hn _].
Qed.

(** A text of at most fifteen characters reads as a safe integer: decimal
    below [10^15], hexadecimal below [16^13]. *)
Lemma parseInt_safe s n :
  (String.length s <= 15)%nat -> parseInt s = Some n -> isSafeInteger n = true.
Proof.
  intros Hlen. unfold parseInt, parseIntBody.
  pose proof (trimStart_length s) as Ht.
  destruct (readSign_length (trimStart s)) as [Hsign Hl1].
  destruct (readSign (trimStart s)) as [sign s1]. cbn [fst snd] in *.
  destruct (readRadix_length s1) as [[Hr Hs]|[Hr Hl2]];
    destruct (readRadix s1) as [radix s2]; cbn [fst snd] in *; subst radix;
    destruct (parseDigits _ s2 None) as [m|] eqn:Hm; try done;
    intros [= <-]; apply parseDigits_bound in Hm; try done;
    cbn [from_option id] in Hm; unfold isSafeInteger, MAX_SAFE_INTEGER.
  - subst s2.
    assert (10 ^ Z.of_nat (String.length s1) <= 10 ^ 15)
      by (apply Z.pow_le_mono_r; lia). lia.
  - assert (16 ^ Z.of_nat (String.length s2) <= 16 ^ 13)
      by (apply Z.pow_le_mono_r; lia). lia.
Qed.

End Safe.
