(* ===== verification/Duration.v ===== *)
(** * Durations and the borrow arithmetic of one tick

    [TimeState] is the interface of that name in [src/src/App.tsx]; its
    fields are JavaScript numbers, here integers, and nothing in the program
    keeps them non-negative or below 60.  [decrement] is the arithmetic
    that the interval callback applies to a duration that is not zero: take
    a second, or borrow from the minutes, or from the hours.

    The theorems say what one tick and what [n] ticks do: on non-negative
    durations a tick takes exactly one second off the total, so the countdown
    reaches zero after [totalSeconds] ticks and not before; on normalised
    durations [decrement] agrees with the reference definition by division
    and remainder; and, for arbitrary fields, the countdown reaches zero
    exactly when the duration is lexicographically at least zero. *)

From S2P Require Import Prelude JsNumber.

(** ** The data *)

Record TimeState : Type := mkTime {
  hours : Z;
  minutes : Z;
  seconds : Z;
}.

#[export] Instance TimeState_eq_dec : EqDecision TimeState.
Proof. solve_decision. Defined.

(** The initial value of the [time] state. *)
Definition initialTime : TimeState := {| hours := 0; minutes := 5; seconds := 0 |}.

Definition zeroTime : TimeState := {| hours := 0; minutes := 0; seconds := 0 |}.

(** [hours === 0 && minutes === 0 && seconds === 0]. *)
Definition isZeroTime (t : TimeState) : bool :=
  (hours t =? 0) && (minutes t =? 0) && (seconds t =? 0).

(** The three branches of the interval callback below its zero test, and
    its final [return prevTime]. *)
Definition decrement (t : TimeState) : TimeState :=
  if seconds t >? 0 then
    {| hours := hours t; minutes := minutes t; seconds := seconds t - 1 |}
  else if minutes t >? 0 then
    {| hours := hours t; minutes := minutes t - 1; seconds := 59 |}
  else if hours t >? 0 then
    {| hours := hours t - 1; minutes := 59; seconds := 59 |}
  else t.

(** [n] ticks on a duration. *)
Definition countdown (n : nat) (t : TimeState) : TimeState := Nat.iter n decrement t.

(** ** Measures and classes of durations *)

Definition totalSeconds (t : TimeState) : Z :=
  hours t * 3600 + minutes t * 60 + seconds t.

(** The duration of [n] seconds, by division and remainder. *)
Definition ofSeconds (n : Z) : TimeState :=
  {| hours := n / 3600; minutes := (n / 60) mod 60; seconds := n mod 60 |}.

Definition nonNegative (t : TimeState) : bool :=
  (0 <=? hours t) && (0 <=? minutes t) && (0 <=? seconds t).

(** Minutes and seconds in their conventional range. *)
Definition normalized (t : TimeState) : bool :=
  nonNegative t && (minutes t <=? 59) && (seconds t <=? 59).

(** Every field is a safe integer, so that JavaScript's arithmetic on it is
    exact. *)
Definition safeTime (t : TimeState) : bool :=
  isSafeInteger (hours t) && isSafeInteger (minutes t) && isSafeInteger (seconds t).

(** [(hours, minutes, seconds)] is lexicographically at least [(0, 0, 0)]. *)
Definition lexNonNegative (t : TimeState) : bool :=
  (0 <? hours t) ||
  ((hours t =? 0) && ((0 <? minutes t) || ((minutes t =? 0) && (0 <=? seconds t)))).

(** The number of ticks a duration that is lexicographically at least zero
    lasts: a negative minutes or seconds field is overwritten by the first
    borrow, so it counts as zero. *)
Definition ticksToZero (t : TimeState) : Z :=
  3600 * hours t + 60 * Z.max 0 (minutes t) + Z.max 0 (seconds t).

(** The countdown reaches zero. *)
Definition reachesZero (t : TimeState) : Prop :=
  exists n : nat, countdown n t = zeroTime.

(** No branch of [decrement] applies. *)
Definition exhausted (t : TimeState) : bool :=
  (seconds t <=? 0) && (minutes t <=? 0) && (hours t <=? 0).

(** ** Tactics *)

(** [time_cases t]: split a duration into its fields and every test on them. *)
Ltac time_unfold :=
  unfold isZeroTime, decrement, totalSeconds, normalized, nonNegative,
    safeTime, lexNonNegative, exhausted, isSafeInteger, MAX_SAFE_INTEGER,
    ticksToZero, zeroTime in *;
  cbn [hours minutes seconds] in *.

Ltac time_cases :=
  time_unfold;
  repeat match goal with
  | |- context [if ?b then _ else _] => destruct b eqn:?
  | H : context [if ?b then _ else _] |- _ => destruct b eqn:?
  end;
  cbn [hours minutes seconds] in *.

Ltac time_solve := time_cases; try (f_equal; lia); try lia; try done.

(** ** One tick *)

Section OneTick.
Implicit Types (t : TimeState).

Lemma isZeroTime_eq t : isZeroTime t = true <-> t = zeroTime.
Proof.
  destruct t as [h m s]. split.
  - time_unfold. intros H. f_equal; lia.
  - by intros [= -> -> ->].
Qed.

Lemma isZeroTime_total t : nonNegative t = true ->
  isZeroTime t = true <-> totalSeconds t = 0.
Proof. destruct t as [h m s]. time_unfold. lia. Qed.

(** On a non-negative duration that is not zero, a tick takes exactly one
    second off the total. *)
Lemma decrement_total t :
  nonNegative t = true -> isZeroTime t = false ->
  totalSeconds (decrement t) = totalSeconds t - 1.
Proof. destruct t as [h m s]. intros H1 H2. time_solve. Qed.

Lemma decrement_nonNegative t :
  nonNegative t = true -> nonNegative (decrement t) = true.
Proof. destruct t as [h m s]. intros H. time_solve. Qed.

Lemma decrement_normalized t :
  normalized t = true -> normalized (decrement t) = true.
Proof. destruct t as [h m s]. intros H. time_solve. Qed.

(** A tick never leaves the safe integers. *)
Lemma decrement_safeTime t : safeTime t = true -> safeTime (decrement t) = true.
Proof. destruct t as [h m s]. intros H. time_solve. Qed.

(** [decrement] changes nothing exactly on the exhausted durations. *)
Lemma decrement_fixed t : decrement t = t <-> exhausted t = true.
Proof.
  destruct t as [h m s]. split.
  - intros H. time_cases; first [lia | inversion H; lia].
  - intros H. time_solve.
Qed.

Lemma decrement_zeroTime : decrement zeroTime = zeroTime.
Proof. done. Qed.

(** A normalised duration is the duration of its total, as the reference
    definition computes it. *)
Lemma ofSeconds_totalSeconds t : normalized t = true -> ofSeconds (totalSeconds t) = t.
Proof.
  destruct t as [h m s]. intros H. unfold ofSeconds. time_unfold.
  assert ((h * 3600 + m * 60 + s) / 60 = h * 60 + m) as -> by zdiv.
  f_equal; zdiv.
Qed.

Lemma totalSeconds_ofSeconds n : totalSeconds (ofSeconds n) = n.
Proof. unfold ofSeconds. time_unfold. zdiv. Qed.

Lemma ofSeconds_normalized n : 0 <= n -> normalized (ofSeconds n) = true.
Proof. intros H. unfold ofSeconds. time_unfold. zdiv. Qed.

(** On normalised durations the borrow arithmetic is the subtraction of one
    second, as the reference definition computes it. *)
Lemma decrement_ofSeconds t :
  normalized t = true -> isZeroTime t = false ->
  decrement t = ofSeconds (totalSeconds t - 1).
Proof.
  intros Hn Hz.
  rewrite <- (decrement_total t), ofSeconds_totalSeconds;
    auto using decrement_normalized.
  revert Hn. destruct t. time_unfold. lia.
Qed.

End OneTick.

(** ** Many ticks *)

Section ManyTicks.
Implicit Types (t : TimeState) (n : nat).

Lemma countdown_S n t : countdown (S n) t = decrement (countdown n t).
Proof. done. Qed.

Lemma countdown_succ_r n t : countdown (S n) t = countdown n (decrement t).
Proof. apply iter_succ_r. Qed.

Lemma countdown_add n m t : countdown (n + m) t = countdown n (countdown m t).
Proof. apply iter_add. Qed.

Lemma countdown_zeroTime n : countdown n zeroTime = zeroTime.
Proof. by apply iter_fixed. Qed.

Lemma countdown_exhausted n t : exhausted t = true -> countdown n t = t.
Proof. intros H. apply iter_fixed. by apply decrement_fixed. Qed.

Lemma countdown_nonNegative n t :
  nonNegative t = true -> nonNegative (countdown n t) = true.
Proof. apply (iter_invariant decrement (fun t => nonNegative t = true)), decrement_nonNegative. Qed.

Lemma countdown_normalized n t :
  normalized t = true -> normalized (countdown n t) = true.
Proof. apply (iter_invariant decrement (fun t => normalized t = true)), decrement_normalized. Qed.

(** While seconds are left, [n] ticks on a normalised duration subtract
    [n] seconds, as the reference definition computes them. *)
Lemma countdown_ofSeconds n t :
  normalized t = true -> Z.of_nat n <= totalSeconds t ->
  countdown n t = ofSeconds (totalSeconds t - Z.of_nat n).
Proof.
  intros Hn. induction n as [|n IH]; intros Hle.
  - by rewrite Z.sub_0_r, ofSeconds_totalSeconds.
  - rewrite countdown_S, IH by lia.
    rewrite decrement_ofSeconds, totalSeconds_ofSeconds;
      [f_equal; lia|apply ofSeconds_normalized; lia|].
    destruct (isZeroTime _) eqn:Hz; [|done].
    apply isZeroTime_eq, (f_equal totalSeconds) in Hz.
    rewrite totalSeconds_ofSeconds in Hz.
    change (totalSeconds zeroTime) with 0 in Hz. lia.
Qed.

(** The four facts that make [ticksToZero] the measure of the countdown on
    the durations that are lexicographically at least zero. *)
Lemma decrement_lexNonNegative t :
  lexNonNegative t = true -> lexNonNegative (decrement t) = true.
Proof. destruct t as [h m s]. intros H. time_solve. Qed.

Lemma decrement_ticksToZero t :
  lexNonNegative t = true -> t <> zeroTime ->
  ticksToZero (decrement t) = ticksToZero t - 1.
Proof.
  destruct t as [h m s]. intros H Hz. time_cases; try lia.
  exfalso. apply Hz. f_equal; lia.
Qed.

Lemma ticksToZero_zero t :
  lexNonNegative t = true -> t = zeroTime <-> ticksToZero t = 0.
Proof.
  destruct t as [h m s]. intros H. split.
  - by intros [= -> -> ->].
  - intros H0. time_unfold. f_equal; lia.
Qed.

Lemma ticksToZero_nonneg t : lexNonNegative t = true -> 0 <= ticksToZero t.
Proof. destruct t as [h m s]. intros H. time_unfold. lia. Qed.

Lemma ticksToZero_totalSeconds t :
  nonNegative t = true -> ticksToZero t = totalSeconds t.
Proof. destruct t as [h m s]. intros H. time_unfold. lia. Qed.

Lemma nonNegative_lexNonNegative t :
  nonNegative t = true -> lexNonNegative t = true.
Proof. destruct t as [h m s]. intros H. time_unfold. lia. Qed.

(** After [n] ticks, [n] fewer remain. *)
Lemma countdown_ticksToZero n t :
  lexNonNegative t = true -> Z.of_nat n <= ticksToZero t ->
  ticksToZero (countdown n t) = ticksToZero t - Z.of_nat n.
Proof.
  intros H Hn.
  apply (iter_measure decrement (fun t => lexNonNegative t = true)
           (fun t => t = zeroTime) ticksToZero);
    eauto using decrement_lexNonNegative, decrement_ticksToZero, ticksToZero_zero.
Qed.

(** A duration that is lexicographically at least zero reaches zero after
    exactly [ticksToZero] ticks. *)
Lemma countdown_reaches_zero t :
  lexNonNegative t = true -> countdown (Z.to_nat (ticksToZero t)) t = zeroTime.
Proof.
  apply (iter_reaches decrement (fun t => lexNonNegative t = true)
           (fun t => t = zeroTime) ticksToZero);
    eauto using decrement_lexNonNegative, decrement_ticksToZero, ticksToZero_zero,
      ticksToZero_nonneg.
Qed.

(** ... and is not zero before. *)
Lemma countdown_not_zero_before n t :
  lexNonNegative t = true -> Z.of_nat n < ticksToZero t -> countdown n t <> zeroTime.
Proof.
  apply (iter_not_before decrement (fun t => lexNonNegative t = true)
           (fun t => t = zeroTime) ticksToZero);
    eauto using decrement_lexNonNegative, decrement_ticksToZero, ticksToZero_zero.
Qed.

(** On the other durations a tick changes neither the hours nor the sign of
    what is left, and zero is never reached. *)
Lemma decrement_lexNegative t :
  lexNonNegative t = false -> lexNonNegative (decrement t) = false.
Proof. destruct t as [h m s]. intros H. time_solve. Qed.

Lemma countdown_never_zero n t :
  lexNonNegative t = false -> countdown n t <> zeroTime.
Proof.
  intros H Hz.
  pose proof (iter_invariant decrement (fun t => lexNonNegative t = false)
                n t decrement_lexNegative H) as Hn.
  unfold countdown in Hz. by rewrite Hz in Hn.
Qed.

End ManyTicks.

(** ** What the arithmetic guarantees *)

Section Guarantees.
Implicit Types (t : TimeState) (n : nat).

(** C32. On a duration that is lexicographically at least zero the countdown
    is at zero after [n] ticks exactly when [n] is at least [ticksToZero]:
    zero is reached, not earlier, and never left. *)
Theorem countdown_zero_iff n t :
  lexNonNegative t = true ->
  countdown n t = zeroTime <-> ticksToZero t <= Z.of_nat n.
Proof.
  intros Hlex. pose proof (ticksToZero_nonneg t Hlex). split.
  - intros Hz. destruct (Z.le_gt_cases (ticksToZero t) (Z.of_nat n)); [done|].
    by destruct (countdown_not_zero_before n t).
  - intros Hle.
    replace n with ((n - Z.to_nat (ticksToZero t)) + Z.to_nat (ticksToZero t))%nat
      by lia.
    by rewrite countdown_add, countdown_reaches_zero, countdown_zeroTime.
Qed.

(** C33. The countdown of a duration reaches zero if and only if the
    duration is lexicographically at least zero: a negative hours field,
    or negative minutes or seconds under zero hours, is never repaired. *)
Theorem reachesZero_iff t : reachesZero t <-> lexNonNegative t = true.
Proof.
  split.
  - intros [n Hn]. destruct (lexNonNegative t) eqn:Hlex; [done|].
    by destruct (countdown_never_zero n t).
  - intros Hlex. exists (Z.to_nat (ticksToZero t)). by apply countdown_reaches_zero.
Qed.

(** C31. On normalised durations the borrow arithmetic is subtraction of
    seconds: [n] ticks leave the duration of the total less [n] seconds,
    and zero once the total is used up. *)
Theorem countdown_seconds n t :
  normalized t = true ->
  countdown n t = ofSeconds (Z.max 0 (totalSeconds t - Z.of_nat n)) /\
  normalized (countdown n t) = true.
Proof.
  intros Hn. split; [|by apply countdown_normalized].
  assert (nonNegative t = true) as Hnn by (revert Hn; time_unfold; lia).
  destruct (Z.le_gt_cases (Z.of_nat n) (totalSeconds t)) as [Hle|Hgt].
  - rewrite Z.max_r by lia. by apply countdown_ofSeconds.
  - rewrite Z.max_l by lia. change (ofSeconds 0) with zeroTime.
    apply countdown_zero_iff; [by apply nonNegative_lexNonNegative|].
    rewrite ticksToZero_totalSeconds by done. lia.
Qed.

(** Ticks keep every field a safe integer: a countdown that starts
    within the safe integers never leaves them, so the integer model of the
    fields is exact. *)
Theorem countdown_safeTime n t : safeTime t = true -> safeTime (countdown n t) = true.
Proof. apply (iter_invariant decrement (fun t => safeTime t = true)), decrement_safeTime. Qed.

End Guarantees.

(** ** Concrete durations *)

Lemma countdown_zero_iff_witness :
  countdown 90 {| hours := 0; minutes := 1; seconds := 30 |} = zeroTime <->
  ticksToZero {| hours := 0; minutes := 1; seconds := 30 |} <= Z.of_nat 90.
Proof. by apply (countdown_zero_iff 90). Defined.

Lemma countdown_seconds_witness :
  countdown 61 {| hours := 1; minutes := 0; seconds := 0 |} =
    ofSeconds (Z.max 0 (totalSeconds {| hours := 1; minutes := 0; seconds := 0 |}
                        - Z.of_nat 61)) /\
  normalized (countdown 61 {| hours := 1; minutes := 0; seconds := 0 |}) = true.
Proof. by apply (countdown_seconds 61). Defined.

Lemma countdown_safeTime_witness :
  safeTime (countdown 3 {| hours := 0; minutes := 0; seconds := 2 |}) = true.
Proof. by apply (countdown_safeTime 3). Defined.
