(* ===== verification/Parser.v ===== *)
(** * The duration parser and the display format

    [parseTimeInput] and [formatTime] of [src/src/App.tsx].  The parser
    splits the text at the colons, reads each part with [parseInt] and puts
    zero where that finds no number; two parts are minutes and seconds, three
    are hours, minutes and seconds, any other count is the zero duration.
    Nothing is rejected and nothing is normalised: a part may be negative,
    hexadecimal or followed by other text.  The formatter pads each field to
    two digits and leaves the hours out unless they are positive.

    The theorems: the parser on each shape of input, the values of the
    specification's examples, that trimming each part is redundant, that
    parsing inverts formatting on every duration whose hours are not
    negative, and the safe-integer bound on what short inputs parse to. *)

From S2P Require Import Prelude JsString JsNumber Duration.

(** ** The parser *)

(** [x || 0] on the result of [parseInt]: [NaN] and zero are falsy. *)
Definition orZero (o : option Z) : Z :=
  match o with
  | Some n => if n =? 0 then 0 else n
  | None => 0
  end.

(** The function mapped over the parts: [parseInt(part.trim()) || 0]. *)
Definition parsePart (part : string) : Z := orZero (parseInt (trim part)).

Definition parseTimeInput (input : string) : TimeState :=
  let parts := map parsePart (split ":" input) in
  if (length parts =? 2)%nat then
    {| hours := 0; minutes := nth 0 parts 0; seconds := nth 1 parts 0 |}
  else if (length parts =? 3)%nat then
    {| hours := nth 0 parts 0; minutes := nth 1 parts 0; seconds := nth 2 parts 0 |}
  else {| hours := 0; minutes := 0; seconds := 0 |}.

(** ** Plain texts *)

(** The characters of a text in the format the field asks for,
    [HH:MM:SS] or [MM:SS]: decimal digits and colons. *)
Definition plainChar (c : ascii) : bool := isDecDigit c || Ascii.eqb c ":".

Definition plainText (input : string) : bool := string_forall plainChar input.

(** ** The formatter *)

(** [n.toString().padStart(2, '0')]. *)
Definition pad2 (n : Z) : string := padStart 2 "0" (toString n).

Definition formatTime (t : TimeState) : string :=
  if hours t >? 0 then
    pad2 (hours t) +:+ ":" +:+ pad2 (minutes t) +:+ ":" +:+ pad2 (seconds t)
  else
    pad2 (minutes t) +:+ ":" +:+ pad2 (seconds t).

(** ** The parser, part by part *)

Section Parse.
Implicit Types (s a b c input : string) (n : Z) (t : TimeState).

Lemma orZero_Some n : orZero (Some n) = n.
Proof. unfold orZero. case_test; congruence. Qed.

Lemma orZero_default (o : option Z) : orZero o = default 0 o.
Proof. destruct o; [apply orZero_Some|done]. Qed.

(** The [trim] in [parsePart] is redundant: [parseInt] skips leading white
    space and never reads trailing white space. *)
Lemma parsePart_untrimmed s : parsePart s = orZero (parseInt s).
Proof. unfold parsePart. by rewrite parseInt_trim. Qed.

(** A part without a digit in front reads as zero. *)
Lemma parsePart_NaN s : parseInt s = None -> parsePart s = 0.
Proof. intros H. by rewrite parsePart_untrimmed, H. Qed.

Lemma parsePart_empty : parsePart "" = 0.
Proof. done. Qed.

(** The parser by the shape of its input. *)
Lemma parseTimeInput_one a :
  noChar ":" a = true -> parseTimeInput a = zeroTime.
Proof. intros H. unfold parseTimeInput. by rewrite split_noChar. Qed.

Lemma parseTimeInput_two a b :
  noChar ":" a = true -> noChar ":" b = true ->
  parseTimeInput (a +:+ ":" +:+ b) =
    {| hours := 0; minutes := parsePart a; seconds := parsePart b |}.
Proof.
  intros Ha Hb. unfold parseTimeInput. str_norm.
  by rewrite split_append, split_noChar.
Qed.

Lemma parseTimeInput_three a b c :
  noChar ":" a = true -> noChar ":" b = true -> noChar ":" c = true ->
  parseTimeInput (a +:+ ":" +:+ b +:+ ":" +:+ c) =
    {| hours := parsePart a; minutes := parsePart b; seconds := parsePart c |}.
Proof.
  intros Ha Hb Hc. unfold parseTimeInput. str_norm.
  by rewrite !split_append, split_noChar.
Qed.

(** A text with no colon, or with more than two, is the zero
    duration. *)
Theorem parseTimeInput_other input :
  countChar ":" input <> 1%nat -> countChar ":" input <> 2%nat ->
  parseTimeInput input = zeroTime.
Proof.
  intros H1 H2. unfold parseTimeInput.
  rewrite length_map, split_length.
  destruct (Nat.eqb_spec (S (countChar ":" input)) 2); [lia|].
  destruct (Nat.eqb_spec (S (countChar ":" input)) 3); [lia|done].
Qed.

(** With one colon the hours are zero. *)
Lemma parseTimeInput_hours input :
  countChar ":" input = 1%nat -> hours (parseTimeInput input) = 0.
Proof.
  intros H. unfold parseTimeInput. rewrite length_map, split_length, H. done.
Qed.

(** The parts of a plain text are digits, and read as numbers that are not
    negative. *)
Lemma plainText_parts input :
  plainText input = true -> Forall (fun p => allDigits p = true) (split ":" input).
Proof.
  intros Hp. apply Forall_forall. intros p Hin.
  pose proof (proj1 (Forall_forall _ _) (split_parts_forall _ ":" _ Hp) p Hin) as H1.
  pose proof (proj1 (Forall_forall _ _) (split_parts_noChar ":" input) p Hin) as H2.
  clear Hin. unfold allDigits. induction p as [|c p IH]; [done|]. cbn in *.
  apply andb_true_iff in H1 as [Hc H1]. apply andb_true_iff in H2 as [Hn H2].
  rewrite IH by done. unfold plainChar in Hc.
  destruct (isDecDigit c); [done|]. by destruct (Ascii.eqb c ":").
Qed.

Lemma parsePart_digits_nonneg s : allDigits s = true -> 0 <= parsePart s.
Proof.
  intros Hs. rewrite parsePart_untrimmed.
  destruct (parseInt s) as [n|] eqn:E; [|done].
  apply parseInt_allDigits_nonneg in E; [|done]. unfold orZero. case_test; lia.
Qed.

Lemma parseTimeInput_plain input :
  plainText input = true -> nonNegative (parseTimeInput input) = true.
Proof.
  intros Hp.
  assert (Forall (fun n => 0 <= n) (map parsePart (split ":" input))) as Hall.
  { apply Forall_map. eapply Forall_impl; [by apply plainText_parts|].
    cbn. intros p. apply parsePart_digits_nonneg. }
  assert (forall i, 0 <= nth i (map parsePart (split ":" input)) 0) as Hnth
    by (intros i; by apply (Forall_nth_default (fun n => 0 <= n))).
  unfold parseTimeInput, nonNegative.
  pose proof (Hnth 0%nat). pose proof (Hnth 1%nat). pose proof (Hnth 2%nat).
  repeat case_match; cbn [hours minutes seconds]; lia.
Qed.

(** A part of at most fifteen characters is a safe integer. *)
Lemma parsePart_safe s :
  (String.length s <= 15)%nat -> isSafeInteger (parsePart s) = true.
Proof.
  intros Hlen. rewrite parsePart_untrimmed.
  destruct (parseInt s) as [n|] eqn:E; [|done].
  apply parseInt_safe in E; [|done]. unfold orZero. by case_test.
Qed.

(** A text of at most fifteen characters parses to a duration whose
    fields are safe integers, on which the arithmetic of the countdown is
    exact. *)
Theorem parseTimeInput_safe input :
  (String.length input <= 15)%nat -> safeTime (parseTimeInput input) = true.
Proof.
  intros Hlen.
  assert (Forall (fun n => isSafeInteger n = true)
            (map parsePart (split ":" input))) as Hall.
  { apply Forall_map. eapply Forall_impl; [apply split_parts_length|].
    cbn. intros p Hp. apply parsePart_safe. lia. }
  assert (forall i, isSafeInteger (nth i (map parsePart (split ":" input)) 0) = true)
    as Hnth by (intros i; by apply (Forall_nth_default (fun n => isSafeInteger n = true))).
  unfold parseTimeInput, safeTime.
  repeat case_match; cbn [hours minutes seconds]; by rewrite ?Hnth.
Qed.

(** C34. The parser by the shape of its input: a text without a colon is
    the zero duration, one colon separates minutes from seconds under zero
    hours, two colons separate hours, minutes and seconds. *)
Theorem parseTimeInput_shapes a b c :
  noChar ":" a = true -> noChar ":" b = true -> noChar ":" c = true ->
  parseTimeInput a = zeroTime /\
  parseTimeInput (a +:+ ":" +:+ b) =
    {| hours := 0; minutes := parsePart a; seconds := parsePart b |} /\
  parseTimeInput (a +:+ ":" +:+ b +:+ ":" +:+ c) =
    {| hours := parsePart a; minutes := parsePart b; seconds := parsePart c |}.
Proof.
  intros Ha Hb Hc.
  by rewrite parseTimeInput_one, parseTimeInput_two, parseTimeInput_three.
Qed.

(** C36. A part is read leniently: digits followed by anything that is not a
    digit are the number the digits write, what follows being ignored, and
    a part that does not start with a number is zero. *)
Theorem parsePart_lenient ds ch rest :
  allDigits ds = true -> ds <> EmptyString -> digitValue 10 ch = None ->
  Ascii.eqb ch "x" = false -> Ascii.eqb ch "X" = false ->
  parsePart (ds +:+ String ch rest) = parsePart ds /\
  (Ascii.eqb ch "-" || Ascii.eqb ch "+" || isWhiteSpace ch = false ->
   parsePart (String ch rest) = 0).
Proof.
  intros Hds Hne Hc Hx HX. split.
  - by rewrite !parsePart_untrimmed, parseInt_prefix.
  - intros [[Hm Hp]%orb_false_iff Hw]%orb_false_iff.
    apply parsePart_NaN. unfold parseInt. rewrite trimStart_cons_nonws by done.
    unfold parseIntBody. cbn [readSign]. rewrite Hm, Hp.
    assert (readRadix (String ch rest) = (10, String ch rest)) as ->.
    { destruct rest as [|c1 r]; [done|]. cbn [readRadix].
      assert (Ascii.eqb ch "0" = false) as ->; [|done].
      destruct (Ascii.eqb_spec ch "0") as [->|]; done. }
    by rewrite parseDigits_cons_other.
Qed.

End Parse.

(** ** Formatting, and parsing what was formatted *)

Section Format.
Implicit Types (n : Z) (t : TimeState).

(** Below ten a zero is put in front; other numbers are printed as they are. *)
Lemma pad2_small n :
  0 <= n < 10 -> pad2 n = String "0" (String (digitChar n) EmptyString).
Proof. intros H. unfold pad2. by rewrite toString_small. Qed.

Lemma pad2_long n : n < 0 \/ 10 <= n -> pad2 n = toString n.
Proof. intros H. unfold pad2. by apply padStart_long, toString_long. Qed.

Lemma pad2_length n : 0 <= n < 100 -> String.length (pad2 n) = 2%nat.
Proof.
  intros H. destruct (Z.lt_ge_cases n 10).
  - by rewrite pad2_small by lia.
  - rewrite pad2_long by lia. unfold toString, natToString.
    replace (n <? 0) with false by lia. cbn [digitsFuel].
    replace (n <? 10) with false by lia.
    assert (1 <= Z.log2 n) by (apply Z.log2_le_pow2; lia).
    destruct (Z.to_nat (Z.log2 n)) as [|k] eqn:E; [lia|]. cbn [digitsFuel].
    replace (n / 10 <? 10) with true by zdiv. done.
Qed.

Lemma pad2_allNumChars n : string_forall isNumChar (pad2 n) = true.
Proof. apply padStart_forall; [done|apply toString_allNumChars]. Qed.

(** No field is printed with a colon in it. *)
Lemma pad2_noColon n : noChar ":" (pad2 n) = true.
Proof.
  apply (string_forall_impl isNumChar); [|apply pad2_allNumChars].
  intros c Hc. destruct (Ascii.eqb_spec c ":") as [->|]; done.
Qed.

(** Reading a printed field gives the number back. *)
Lemma parsePart_pad2 n : parsePart (pad2 n) = n.
Proof.
  rewrite parsePart_untrimmed.
  destruct (Z.lt_ge_cases n 0); [|destruct (Z.lt_ge_cases n 10)].
  - by rewrite pad2_long, parseInt_toString, orZero_Some by lia.
  - rewrite pad2_small, parseInt_allDigits by (lia || (cbn; by rewrite isDecDigit_digitChar by lia)).
    rewrite (parseDigits_cons_digit 10 _ _ _ 0) by done.
    rewrite (parseDigits_cons_digit 10 _ _ _ n) by (apply digitValue_digitChar; lia).
    cbn. apply orZero_Some.
  - by rewrite pad2_long, parseInt_toString, orZero_Some by lia.
Qed.

(** The two shapes of the display. *)
Lemma formatTime_hours t :
  0 < hours t ->
  formatTime t = pad2 (hours t) +:+ ":" +:+ pad2 (minutes t) +:+ ":" +:+ pad2 (seconds t).
Proof. intros H. unfold formatTime. by replace (hours t >? 0) with true by lia. Qed.

Lemma formatTime_no_hours t :
  hours t <= 0 -> formatTime t = pad2 (minutes t) +:+ ":" +:+ pad2 (seconds t).
Proof. intros H. unfold formatTime. by replace (hours t >? 0) with false by lia. Qed.

(** Parsing inverts formatting on every duration whose hours are not
    negative, whatever its minutes and seconds. *)
Lemma parse_format t : 0 <= hours t -> parseTimeInput (formatTime t) = t.
Proof.
  destruct t as [h m s]. cbn [hours]. intros H.
  destruct (Z.eq_dec h 0) as [->|Hh].
  - rewrite formatTime_no_hours by done. cbn [minutes seconds].
    by rewrite parseTimeInput_two, !parsePart_pad2 by apply pad2_noColon.
  - rewrite formatTime_hours by (cbn; lia). cbn [hours minutes seconds].
    by rewrite parseTimeInput_three, !parsePart_pad2 by apply pad2_noColon.
Qed.

(** C8. What the input text holds after a preset is what the parser reads
    back: parsing a formatted duration returns its minutes and seconds
    unchanged, whatever they are, and its hours when they are not negative;
    negative hours are not displayed and come back as zero. *)
Theorem parse_format_roundtrip t :
  parseTimeInput (formatTime t) =
    {| hours := Z.max 0 (hours t); minutes := minutes t; seconds := seconds t |}.
Proof.
  destruct (Z.lt_ge_cases (hours t) 0) as [Hneg|Hpos].
  - rewrite formatTime_no_hours by lia.
    rewrite parseTimeInput_two, !parsePart_pad2 by apply pad2_noColon.
    f_equal; lia.
  - rewrite parse_format by done. destruct t as [h m s]. cbn in *. f_equal; lia.
Qed.

(** Negative hours are not displayed, so they do not survive the round trip. *)
Lemma parse_format_negative_hours t :
  hours t < 0 -> hours (parseTimeInput (formatTime t)) = 0.
Proof.
  intros H. rewrite formatTime_no_hours by lia.
  by rewrite parseTimeInput_two by apply pad2_noColon.
Qed.

(** The display of a normalised duration of less than a hundred hours
    is [MM:SS], five characters, or [HH:MM:SS], eight. *)
Theorem formatTime_length t :
  normalized t = true -> hours t < 100 ->
  String.length (formatTime t) = if hours t >? 0 then 8%nat else 5%nat.
Proof.
  destruct t as [h m s]. intros Hn Hh. unfold formatTime. time_unfold.
  destruct (h >? 0) eqn:E; rewrite !length_append, !pad2_length by lia; done.
Qed.

End Format.

(** ** The examples of the specification *)

(** The parser and the formatter on the inputs the specification lists:
    [05:00], [1:02:03], [abc], the empty text and [99:99:99]; five minutes
    and one hour. *)
Theorem parse_format_examples :
  parseTimeInput "05:00" = {| hours := 0; minutes := 5; seconds := 0 |} /\
  parseTimeInput "1:02:03" = {| hours := 1; minutes := 2; seconds := 3 |} /\
  parseTimeInput "abc" = zeroTime /\
  parseTimeInput EmptyString = zeroTime /\
  parseTimeInput "99:99:99" = {| hours := 99; minutes := 99; seconds := 99 |} /\
  formatTime {| hours := 0; minutes := 5; seconds := 0 |} = "05:00" /\
  formatTime {| hours := 1; minutes := 0; seconds := 0 |} = "01:00:00".
Proof. by vm_compute. Qed.

Lemma parseTimeInput_shapes_witness :
  parseTimeInput "7" = zeroTime /\
  parseTimeInput ("7" +:+ ":" +:+ "30") =
    {| hours := 0; minutes := parsePart "7"; seconds := parsePart "30" |} /\
  parseTimeInput ("7" +:+ ":" +:+ "30" +:+ ":" +:+ "x") =
    {| hours := parsePart "7"; minutes := parsePart "30"; seconds := parsePart "x" |}.
Proof. by apply (parseTimeInput_shapes "7" "30" "x"). Defined.

Lemma parseTimeInput_other_witness : parseTimeInput "1:2:3:4" = zeroTime.
Proof. apply (parseTimeInput_other "1:2:3:4"); by vm_compute. Defined.

Lemma parsePart_lenient_witness :
  parsePart ("12" +:+ String "a" "bc") = parsePart "12" /\
  (Ascii.eqb "a" "-" || Ascii.eqb "a" "+" || isWhiteSpace "a" = false ->
   parsePart (String "a" "bc") = 0).
Proof. by apply (parsePart_lenient "12" "a" "bc"). Defined.

Lemma formatTime_length_witness :
  String.length (formatTime {| hours := 1; minutes := 2; seconds := 3 |}) =
    if hours {| hours := 1; minutes := 2; seconds := 3 |} >? 0 then 8%nat else 5%nat.
Proof. by apply (formatTime_length {| hours := 1; minutes := 2; seconds := 3 |}). Defined.

Lemma parseTimeInput_safe_witness : safeTime (parseTimeInput "99:99:99") = true.
Proof. apply (parseTimeInput_safe "99:99:99"). cbn. lia. Defined.
