(* ===== verification/Notifier.v ===== *)
(** * The alert notifier

    The widget signals the end of the countdown with a tone.  The first
    effect of [CountdownTimer] ([src/src/App.tsx], lines 24-50) opens an
    audio context with [window.AudioContext] or, where that is missing,
    the prefixed [window.webkitAudioContext], and stores in [beepRef] an
    object whose [play] method is [createBeepSound]: ten calls of the Web
    Audio interface that build an oscillator and a gain node, route the one
    through the other to the destination, schedule the frequency and the
    fading gain, and start and stop the oscillator.

    This file has the part of the Web Audio interface those calls use, as
    operations on the graph of an audio context that return a result or the
    exception the interface raises ([Audio], a state and error monad), and
    [createBeepSound] as the sequence of the calls.  The theorems give the
    graph a beep leaves, with its parameters, and show that no call of it
    raises, whatever the context holds.

    The countdown engine only needs to know that playing is an operation on
    the audio device that can be counted.  [Notifier] is that interface; the
    engine is written and verified against it.  [AudioContext] with
    [createBeepSound] is the implementation the program uses, and [Silent]
    is a second one, a counter, that stands for a device without sound.

    Numbers are rationals: the literals [0.3] and [0.01] are the fractions
    they denote, not the doubles nearest to them.  The time of the context
    is the number of sample frames it has rendered over its sample rate, so
    it is never negative; it does not advance while [createBeepSound]
    runs. *)

From Stdlib Require Import QArith.
From S2P Require Import Prelude.

(** ** The interface *)

(** A device [Dev] on which a notification can be fired, with the number of
    notifications fired so far as its observable. *)
Class Notifier (Dev : Type) : Type := {
  fire : Dev -> Dev;
  fired : Dev -> nat;
  fired_fire : forall d : Dev, fired (fire d) = S (fired d);
}.

(** ** Results and exceptions *)

(** The outcome of a call that can raise. *)
Inductive Result (E A : Type) : Type :=
  | Ok (val : A)
  | Error (err : E).

Arguments Ok {E A} val.
Arguments Error {E A} err.

#[export] Instance Result_ret {E : Type} : MRet (Result E) := fun A => Ok.

#[export] Instance Result_bind {E : Type} : MBind (Result E) := fun A B f r =>
  match r with Ok a => f a | Error e => Error e end.

#[export] Instance Result_fmap {E : Type} : FMap (Result E) := fun A B f r =>
  match r with Ok a => Ok (f a) | Error e => Error e end.

(** The exceptions of the calls the program makes. *)
Inductive AudioError : Type :=
  | RangeError            (* a negative time, a ramp to zero *)
  | InvalidStateError     (* a second [start], a [stop] before [start] *)
  | TypeError.            (* no constructor, no such node *)

#[export] Instance AudioError_eq_dec : EqDecision AudioError.
Proof. solve_decision. Defined.

(** ** The audio graph *)

(** [OscillatorType]. *)
Inductive Waveform : Type := Sine | Square | Sawtooth | Triangle.

#[export] Instance Waveform_eq_dec : EqDecision Waveform.
Proof. solve_decision. Defined.

(** One event on the timeline of an [AudioParam]. *)
Inductive Automation : Type :=
  | SetValueAtTime (value startTime : Q)
  | ExponentialRampToValueAtTime (value endTime : Q).

(** An [AudioParam]: its default value and the events scheduled on it, in
    the order of the calls. *)
Record AudioParam : Type := mkParam {
  defaultValue : Q;
  timeline : list Automation;
}.

(** An [OscillatorNode]; the times are those given to [start] and [stop]. *)
Record OscillatorNode : Type := mkOscillator {
  frequency : AudioParam;
  type : Waveform;
  startTime : option Q;
  stopTime : option Q;
}.

(** A [GainNode]. *)
Record GainNode : Type := mkGain {
  gain : AudioParam;
}.

Inductive AudioNode : Type :=
  | Oscillator (o : OscillatorNode)
  | Gain (g : GainNode).

(** Where an output is connected: the input of a node of the context, by
    its position in [nodes], or [audioContext.destination]. *)
Inductive Input : Type :=
  | nodeInput (n : nat)
  | destination.

(** The audio context: the sample rate of the hardware, the number of
    sample frames rendered so far, the nodes in the order of their
    creation, and the connections in the order of the calls. *)
Record AudioContext : Type := mkAudio {
  sampleRate : positive;
  currentFrame : N;
  nodes : list AudioNode;
  connections : list (nat * Input);
}.

(** [audioContext.currentTime], in seconds. *)
Definition currentTime (ctx : AudioContext) : Q :=
  Z.of_N (currentFrame ctx) # sampleRate ctx.

(** [new AudioContext()] on hardware of the given sample rate. *)
Definition construct (rate : positive) : AudioContext :=
  {| sampleRate := rate; currentFrame := 0; nodes := []; connections := [] |}.

Definition newAudioContext : AudioContext := construct 44100.

(** What [window] offers: the constructor [AudioContext] and the prefixed
    one, each present or not, given by the sample rate of its contexts. *)
Record Window : Type := mkWindow {
  standardAudioContext : option positive;
  webkitAudioContext : option positive;
}.

(** [new (window.AudioContext || window.webkitAudioContext)()]: the first
    constructor that is defined; calling [undefined] as a constructor
    raises. *)
Definition audioContext (window : Window) : Result AudioError AudioContext :=
  match standardAudioContext window, webkitAudioContext window with
  | Some rate, _ => Ok (construct rate)
  | None, Some rate => Ok (construct rate)
  | None, None => Error TypeError
  end.

(** ** Calls on a context *)

(** A call: it reads and changes the graph, and returns or raises. *)
Definition Audio (A : Type) : Type :=
  AudioContext -> Result AudioError (A * AudioContext).

#[export] Instance Audio_ret : MRet Audio := fun A a ctx => Ok (a, ctx).

#[export] Instance Audio_bind : MBind Audio := fun A B f m ctx =>
  match m ctx with
  | Ok (a, ctx') => f a ctx'
  | Error e => Error e
  end.

Definition throw {A : Type} (e : AudioError) : Audio A := fun _ => Error e.

Definition getCurrentTime : Audio Q := fun ctx => Ok (currentTime ctx, ctx).

Definition setNodes (ns : list AudioNode) (ctx : AudioContext) : AudioContext :=
  {| sampleRate := sampleRate ctx; currentFrame := currentFrame ctx;
     nodes := ns; connections := connections ctx |}.

(** A new node, at the end of [nodes]; its position is returned. *)
Definition createNode (node : AudioNode) : Audio nat := fun ctx =>
  Ok (length (nodes ctx), setNodes (nodes ctx ++ [node]) ctx).

(** [audioContext.createOscillator()]: 440 Hz, a sine, not started. *)
Definition createOscillator : Audio nat :=
  createNode (Oscillator {| frequency := mkParam 440 []; type := Sine;
                            startTime := None; stopTime := None |}).

(** [audioContext.createGain()]: gain 1. *)
Definition createGain : Audio nat :=
  createNode (Gain {| gain := mkParam 1 [] |}).

Definition isNode (ctx : AudioContext) (n : nat) : bool :=
  match nodes ctx !! n with Some _ => true | None => false end.

(** [source.connect(target)]. *)
Definition connect (source : nat) (target : Input) : Audio unit := fun ctx =>
  if isNode ctx source && match target with nodeInput n => isNode ctx n | destination => true end
  then Ok (tt, {| sampleRate := sampleRate ctx; currentFrame := currentFrame ctx;
                  nodes := nodes ctx;
                  connections := connections ctx ++ [(source, target)] |})
  else Error TypeError.

(** The parameters the program schedules: [oscillator.frequency] and
    [gainNode.gain]. *)
Inductive ParamRef : Type :=
  | frequencyOf (oscillator : nat)
  | gainOf (gainNode : nat).

(** An event is added to the timeline of a parameter. *)
Definition schedule (ev : Automation) (p : AudioParam) : AudioParam :=
  {| defaultValue := defaultValue p; timeline := timeline p ++ [ev] |}.

Definition updateParam (p : ParamRef) (f : AudioParam -> AudioParam) : Audio unit :=
  fun ctx =>
    match p with
    | frequencyOf n =>
        match nodes ctx !! n with
        | Some (Oscillator o) =>
            Ok (tt, setNodes (<[n := Oscillator (mkOscillator (f (frequency o))
                                (type o) (startTime o) (stopTime o))]> (nodes ctx)) ctx)
        | _ => Error TypeError
        end
    | gainOf n =>
        match nodes ctx !! n with
        | Some (Gain g) =>
            Ok (tt, setNodes (<[n := Gain (mkGain (f (gain g)))]> (nodes ctx)) ctx)
        | _ => Error TypeError
        end
    end.

(** [param.setValueAtTime(value, startTime)]: a negative time raises. *)
Definition setValueAtTime (p : ParamRef) (value startTime : Q) : Audio unit :=
  if Qle_bool 0 startTime then updateParam p (schedule (SetValueAtTime value startTime))
  else throw RangeError.

(** [param.exponentialRampToValueAtTime(value, endTime)]: a ramp to zero
    and a negative time raise. *)
Definition exponentialRampToValueAtTime (p : ParamRef) (value endTime : Q) : Audio unit :=
  if Qeq_bool value 0 then throw RangeError
  else if Qle_bool 0 endTime
       then updateParam p (schedule (ExponentialRampToValueAtTime value endTime))
       else throw RangeError.

Definition updateOscillator (n : nat)
    (f : OscillatorNode -> Result AudioError OscillatorNode) : Audio unit := fun ctx =>
  match nodes ctx !! n with
  | Some (Oscillator o) =>
      o' ← f o; Ok (tt, setNodes (<[n := Oscillator o']> (nodes ctx)) ctx)
  | _ => Error TypeError
  end.

(** [oscillator.type = w]. *)
Definition setType (oscillator : nat) (w : Waveform) : Audio unit :=
  updateOscillator oscillator (fun o =>
    Ok (mkOscillator (frequency o) w (startTime o) (stopTime o))).

(** [oscillator.start(when)]: a negative time raises, and so does a second
    call. *)
Definition start (oscillator : nat) (when : Q) : Audio unit :=
  if Qle_bool 0 when then
    updateOscillator oscillator (fun o =>
      match startTime o with
      | None => Ok (mkOscillator (frequency o) (type o) (Some when) (stopTime o))
      | Some _ => Error InvalidStateError
      end)
  else throw RangeError.

(** [oscillator.stop(when)]: a negative time raises, and so does a call
    before [start]. *)
Definition stop (oscillator : nat) (when : Q) : Audio unit :=
  if Qle_bool 0 when then
    updateOscillator oscillator (fun o =>
      match startTime o with
      | Some _ => Ok (mkOscillator (frequency o) (type o) (startTime o) (Some when))
      | None => Error InvalidStateError
      end)
  else throw RangeError.

(** ** The beep *)

(** [createBeepSound], call by call. *)
Definition createBeepSound : Audio unit :=
  oscillator ← createOscillator;
  gainNode ← createGain;
  connect oscillator (nodeInput gainNode);;
  connect gainNode destination;;
  now ← getCurrentTime;
  setValueAtTime (frequencyOf oscillator) 800 now;;
  setType oscillator Sine;;
  now ← getCurrentTime;
  setValueAtTime (gainOf gainNode) (3 # 10) now;;
  now ← getCurrentTime;
  exponentialRampToValueAtTime (gainOf gainNode) (1 # 100) (now + 1);;
  now ← getCurrentTime;
  start oscillator now;;
  now ← getCurrentTime;
  stop oscillator (now + 1).

(** The object stored in [beepRef]: its [play] is [createBeepSound]. *)
Inductive BeepObject : Type := BeepSound.

#[export] Instance BeepObject_eq_dec : EqDecision BeepObject.
Proof. solve_decision. Defined.

(** [play()]: the calls of [createBeepSound] on the context.  None of them
    raises ([createBeepSound_returns]); an exception would leave the
    updater of the interval callback before its [return]. *)
Definition play (b : BeepObject) (ctx : AudioContext) : AudioContext :=
  match b with
  | BeepSound =>
      match createBeepSound ctx with
      | Ok (_, ctx') => ctx'
      | Error _ => ctx
      end
  end.

(** ** What a beep leaves on the graph *)

(** The oscillator of a beep made at time [now]. *)
Definition beepOscillator (now : Q) : OscillatorNode :=
  {| frequency := mkParam 440 [SetValueAtTime 800 now];
     type := Sine;
     startTime := Some now;
     stopTime := Some (now + 1)%Q |}.

(** Its gain node. *)
Definition beepGain (now : Q) : GainNode :=
  {| gain := mkParam 1 [SetValueAtTime (3 # 10) now;
                        ExponentialRampToValueAtTime (1 # 100) (now + 1)] |}.

(** The context after a beep: two more nodes, the oscillator connected to
    the gain node and the gain node to the destination. *)
Definition beeped (ctx : AudioContext) : AudioContext :=
  let n := length (nodes ctx) in
  {| sampleRate := sampleRate ctx; currentFrame := currentFrame ctx;
     nodes := nodes ctx ++ [Oscillator (beepOscillator (currentTime ctx));
                            Gain (beepGain (currentTime ctx))];
     connections := connections ctx ++ [(n, nodeInput (S n)); (S n, destination)] |}.

(** The oscillators that were started. *)
Definition isStarted (node : AudioNode) : bool :=
  match node with
  | Oscillator o => match startTime o with Some _ => true | None => false end
  | Gain _ => false
  end.

Definition started (ctx : AudioContext) : nat :=
  length (List.filter isStarted (nodes ctx)).

(** ** Routing and sound *)

(** The node reaches the destination along the connections, in at most
    [fuel] steps. *)
Fixpoint routed (fuel : nat) (conns : list (nat * Input)) (n : nat) : bool :=
  match fuel with
  | O => false
  | S fuel' =>
      existsb (fun c =>
        (fst c =? n)%nat &&
        match snd c with
        | destination => true
        | nodeInput m => routed fuel' conns m
        end) conns
  end.

(** The oscillator at position [n] sounds at time [x]: it was started at
    or before [x], is not stopped yet, and reaches the destination. *)
Definition sounds (ctx : AudioContext) (n : nat) (x : Q) : bool :=
  match nodes ctx !! n with
  | Some (Oscillator o) =>
      match startTime o with
      | Some t0 =>
          Qle_bool t0 x &&
          match stopTime o with
          | Some t1 => negb (Qle_bool t1 x)
          | None => true
          end &&
          routed (length (connections ctx)) (connections ctx) n
      | None => false
      end
  | _ => false
  end.

(** ** The implementations *)

(** A device that only counts. *)
Record Silent : Type := mkSilent { count : nat }.

#[export] Instance silent_notifier : Notifier Silent := {|
  fire := fun s => {| count := S (count s) |};
  fired := count;
  fired_fire := fun s => eq_refl;
|}.

(** ** Laws *)

Section Laws.
Context {Dev : Type} `{!Notifier Dev}.

(** Firing [k] times is counted [k] times. *)
Lemma fired_iter (k : nat) (d : Dev) : fired (Nat.iter k fire d) = (k + fired d)%nat.
Proof.
  induction k as [|k IH]; [done|]. by rewrite iter_S, fired_fire, IH.
Qed.

Lemma fire_neq (d : Dev) : fire d <> d.
Proof. intros E. pose proof (fired_fire d) as F. rewrite E in F. lia. Qed.

End Laws.

(** ** The clock of the context *)

Lemma currentTime_nonneg (ctx : AudioContext) : Qle_bool 0 (currentTime ctx) = true.
Proof. apply Qle_bool_iff. unfold currentTime, Qle. cbn. lia. Qed.

Lemma later_nonneg (ctx : AudioContext) : Qle_bool 0 (currentTime ctx + 1) = true.
Proof. apply Qle_bool_iff. unfold currentTime, Qle. cbn. lia. Qed.

Lemma frames_nonneg (rate : positive) (frame : N) :
  Qle_bool 0 (Z.of_N frame # rate) = true.
Proof. apply (currentTime_nonneg (mkAudio rate frame [] [])). Qed.

Lemma frames_later_nonneg (rate : positive) (frame : N) :
  Qle_bool 0 ((Z.of_N frame # rate) + 1) = true.
Proof. apply (later_nonneg (mkAudio rate frame [] [])). Qed.

(** ** The calls on the two newest nodes *)

Lemma lookup_last2_fst {A : Type} (l : list A) (a b : A) :
  (l ++ [a; b]) !! length l = Some a.
Proof. by rewrite lookup_app_r, Nat.sub_diag by lia. Qed.

Lemma lookup_last2_snd {A : Type} (l : list A) (a b : A) :
  (l ++ [a; b]) !! S (length l) = Some b.
Proof.
  rewrite lookup_app_r by lia.
  by replace (S (length l) - length l)%nat with 1%nat by lia.
Qed.

Lemma insert_last2_fst {A : Type} (l : list A) (a b x : A) :
  <[length l := x]> (l ++ [a; b]) = l ++ [x; b].
Proof. by rewrite insert_app_r_alt, Nat.sub_diag by lia. Qed.

Lemma insert_last2_snd {A : Type} (l : list A) (a b x : A) :
  <[S (length l) := x]> (l ++ [a; b]) = l ++ [a; x].
Proof.
  rewrite insert_app_r_alt by lia.
  by replace (S (length l) - length l)%nat with 1%nat by lia.
Qed.

Section Newest.
Context (rate : positive) (frame : N) (ns : list AudioNode).
Implicit Types (cs : list (nat * Input)) (o : OscillatorNode) (g : GainNode).

(** A context whose two newest nodes are an oscillator and a gain node. *)
Abbreviation graph o g cs := (mkAudio rate frame (ns ++ [Oscillator o; Gain g]) cs).

Lemma connect_newest o g cs (source : nat) (target : Input) :
  source = length ns \/ source = S (length ns) ->
  target = destination \/ target = nodeInput (S (length ns)) ->
  connect source target (graph o g cs) = Ok (tt, graph o g (cs ++ [(source, target)])).
Proof.
  intros Hs Ht. unfold connect, isNode. cbn [nodes].
  destruct Hs as [-> | ->], Ht as [-> | ->];
    by rewrite ?lookup_last2_fst, ?lookup_last2_snd.
Qed.

Lemma updateParam_frequency o g cs (f : AudioParam -> AudioParam) :
  updateParam (frequencyOf (length ns)) f (graph o g cs) =
    Ok (tt, graph (mkOscillator (f (frequency o)) (type o) (startTime o) (stopTime o)) g cs).
Proof.
  unfold updateParam, setNodes. cbn [nodes].
  by rewrite lookup_last2_fst, insert_last2_fst.
Qed.

Lemma updateParam_gain o g cs (f : AudioParam -> AudioParam) :
  updateParam (gainOf (S (length ns))) f (graph o g cs) =
    Ok (tt, graph o (mkGain (f (gain g))) cs).
Proof.
  unfold updateParam, setNodes. cbn [nodes].
  by rewrite lookup_last2_snd, insert_last2_snd.
Qed.

Lemma updateOscillator_newest o g cs
    (f : OscillatorNode -> Result AudioError OscillatorNode) :
  updateOscillator (length ns) f (graph o g cs) =
    match f o with Ok o' => Ok (tt, graph o' g cs) | Error e => Error e end.
Proof.
  unfold updateOscillator, setNodes. cbn [nodes]. rewrite lookup_last2_fst.
  destruct (f o); [|done]. cbn. by rewrite insert_last2_fst.
Qed.

(** The newest oscillator reaches the destination through the gain node,
    whatever was connected before. *)
Lemma routed_newest cs (n : nat) :
  let cs' := cs ++ [(n, nodeInput (S n)); (S n, destination)] in
  routed (length cs') cs' n = true.
Proof.
  intros cs'. unfold cs'. rewrite length_app, Nat.add_comm. cbn [length Nat.add routed].
  rewrite !existsb_app. cbn [existsb fst snd]. rewrite !existsb_app. cbn [existsb fst snd].
  rewrite !Nat.eqb_refl. cbn [andb]. by rewrite !orb_true_r.
Qed.

End Newest.

(** [audio_eval]: run the calls of a sequence on a context whose two newest
    nodes are an oscillator and a gain node. *)
Ltac audio_eval :=
  repeat first
    [ rewrite connect_newest by auto
    | rewrite updateParam_frequency
    | rewrite updateParam_gain
    | rewrite updateOscillator_newest
    | rewrite frames_nonneg
    | rewrite frames_later_nonneg
    | progress unfold getCurrentTime, setValueAtTime, exponentialRampToValueAtTime,
        setType, start, stop, schedule, throw, currentTime
    | progress cbn [startTime stopTime frequency type gain timeline defaultValue app
                    sampleRate currentFrame]
    | progress change (Qeq_bool (1 # 100) 0) with false
    | progress cbv beta iota ].

(** [audio_create]: the two [create] calls that open a sequence. *)
Ltac audio_create :=
  cbv [mbind Audio_bind createOscillator createGain createNode setNodes
       nodes sampleRate currentFrame connections];
  rewrite <- app_assoc, length_app, Nat.add_1_r; cbn [app length].

(** ** The beep *)

(** C12. One call of [createBeepSound], on any audio context at any time
    [now]: none of its ten calls raises; it adds one oscillator, a sine
    with 800 Hz scheduled at [now], started at [now] and stopped at
    [now + 1], and one gain node whose gain is set to 0.3 at [now] and
    ramps exponentially to 0.01 at [now + 1]; it connects the oscillator to
    the gain node and the gain node to the destination; and the oscillator
    sounds at a time [x] exactly when [now <= x < now + 1]. *)
Theorem beep_sounds (ctx : AudioContext) (x : Q) :
  let now := currentTime ctx in
  let oscillator := length (nodes ctx) in
  let gainNode := S oscillator in
  createBeepSound ctx = Ok (tt, play BeepSound ctx) /\
  nodes (play BeepSound ctx) =
    nodes ctx ++
      [Oscillator {| frequency := mkParam 440 [SetValueAtTime 800 now];
                     type := Sine;
                     startTime := Some now; stopTime := Some (now + 1)%Q |};
       Gain {| gain := mkParam 1 [SetValueAtTime (3 # 10) now;
                                   ExponentialRampToValueAtTime (1 # 100) (now + 1)] |}] /\
  connections (play BeepSound ctx) =
    connections ctx ++ [(oscillator, nodeInput gainNode); (gainNode, destination)] /\
  currentTime (play BeepSound ctx) = now /\
  sounds (play BeepSound ctx) oscillator x =
    Qle_bool now x && negb (Qle_bool (now + 1) x).
Proof.
  destruct ctx as [rate frame ns cs]. unfold play, createBeepSound.
  audio_create. audio_eval. cbn [nodes connections]. rewrite <- app_assoc.
  repeat split. unfold sounds. cbn [nodes connections app].
  rewrite lookup_last2_fst. cbn [startTime stopTime].
  by rewrite (routed_newest cs (length ns)), andb_true_r.
Qed.

(** The same, as the context [beeped] describes. *)
Lemma createBeepSound_returns (ctx : AudioContext) :
  createBeepSound ctx = Ok (tt, beeped ctx).
Proof.
  destruct ctx as [rate frame ns cs]. unfold createBeepSound, beeped.
  audio_create. audio_eval. by rewrite <- app_assoc.
Qed.

Lemma play_beeped (ctx : AudioContext) : play BeepSound ctx = beeped ctx.
Proof. unfold play. by rewrite createBeepSound_returns. Qed.

Lemma started_beeped (ctx : AudioContext) : started (beeped ctx) = S (started ctx).
Proof.
  unfold started, beeped. cbn [nodes]. rewrite List.filter_app, length_app.
  cbn. lia.
Qed.

(** The audio device as a notifier: a notification is a beep, and the
    notifications fired are the oscillators started. *)
#[export] Instance audio_notifier : Notifier AudioContext := {|
  fire := play BeepSound;
  fired := started;
  fired_fire := fun ctx =>
    eq_trans (f_equal started (play_beeped ctx)) (started_beeped ctx);
|}.

(** ** Calls that raise *)

(** The oscillator of a beep cannot be started again. *)
Lemma second_start_raises (ctx : AudioContext) :
  (createBeepSound;; start (length (nodes ctx)) (currentTime ctx)) ctx =
    Error InvalidStateError.
Proof.
  unfold mbind at 1, Audio_bind at 1. rewrite createBeepSound_returns.
  destruct ctx as [rate frame ns cs]. unfold beeped.
  cbn [nodes connections sampleRate currentFrame]. by audio_eval.
Qed.

(** A ramp to zero raises, whatever the parameter and the time. *)
Lemma ramp_to_zero_raises (p : ParamRef) (endTime : Q) (ctx : AudioContext) :
  exponentialRampToValueAtTime p 0 endTime ctx = Error RangeError.
Proof. done. Qed.

(** The first effect raises exactly where the host has neither
    constructor. *)
Lemma audioContext_raises (window : Window) :
  audioContext window = Error TypeError <->
  standardAudioContext window = None /\ webkitAudioContext window = None.
Proof. unfold audioContext. destruct window as [[a|] [b|]]; cbn; intuition congruence. Qed.
