(* ===== verification/Engine.v ===== *)
(** * The countdown engine

    The component [CountdownTimer] of [src/src/App.tsx] as a state machine:
    its five state variables and two refs, the environment it acts on (the
    interval timers of the host and the notifier), its event handlers, the
    interval callback, the effect that arms and disarms the interval, and
    the dispatch of one event followed by the re-render.

    A handler is an [Action], a state transformer, built from the setters in
    the order the code calls them; it reads the state variables from the
    snapshot of the render that created it.  No handler reads a variable
    after setting it, so React's batching of the setter calls is not
    observable and the composition of the setters is the committed state
    ([Scheduler] proves it from a model of the queues).
    The callback of the interval uses the functional form of [setTime], so
    it sees the current duration and not a snapshot.

    [Section Countdown] has the guarantee of the program: a running
    countdown whose duration is at least zero completes after [ticksToZero]
    firings and one more and is notified exactly once; one that is not
    never completes.  [mountOn] is the mount in a browser, which fails when
    line 25 finds no constructor of audio contexts. *)

From stdpp Require Import gmap.
From S2P Require Import Prelude JsString JsNumber Duration Parser Notifier.

(** ** State *)

(** The identifier [setInterval] returns: a positive integer, so it is
    truthy in [if (intervalRef.current)]. *)
Abbreviation Handle := positive.

Section Engine.
Context {Dev : Type} `{!Notifier Dev}.

(** The state variables and the refs of the component, and the part of the
    environment it acts on. *)
Record Widget : Type := mkWidget {
  time : TimeState;                 (* useState *)
  isRunning : bool;
  isCompleted : bool;
  showAlert : bool;
  inputValue : string;
  intervalRef : option Handle;      (* useRef *)
  beepRef : option BeepObject;
  timers : gset Handle;             (* the live intervals of the host *)
  nextHandle : Handle;              (* the next identifier the host hands out *)
  notifier : Dev;                   (* the audio device *)
}.

(** The values of the first render. *)
Definition initialWidget (d : Dev) : Widget :=
  {| time := initialTime; isRunning := false; isCompleted := false;
     showAlert := false; inputValue := "05:00";
     intervalRef := None; beepRef := None;
     timers := ∅; nextHandle := 1%positive; notifier := d |}.

(** ** Actions *)

Definition Action : Type := Widget -> Widget.

Definition skip : Action := fun s => s.
Definition seq (a b : Action) : Action := fun s => b (a s).

(** The setters of the state variables. *)
Definition setTime (t : TimeState) : Action := fun s =>
  mkWidget t (isRunning s) (isCompleted s) (showAlert s) (inputValue s)
    (intervalRef s) (beepRef s) (timers s) (nextHandle s) (notifier s).
Definition setIsRunning (b : bool) : Action := fun s =>
  mkWidget (time s) b (isCompleted s) (showAlert s) (inputValue s)
    (intervalRef s) (beepRef s) (timers s) (nextHandle s) (notifier s).
Definition setIsCompleted (b : bool) : Action := fun s =>
  mkWidget (time s) (isRunning s) b (showAlert s) (inputValue s)
    (intervalRef s) (beepRef s) (timers s) (nextHandle s) (notifier s).
Definition setShowAlert (b : bool) : Action := fun s =>
  mkWidget (time s) (isRunning s) (isCompleted s) b (inputValue s)
    (intervalRef s) (beepRef s) (timers s) (nextHandle s) (notifier s).
Definition setInputValue (v : string) : Action := fun s =>
  mkWidget (time s) (isRunning s) (isCompleted s) (showAlert s) v
    (intervalRef s) (beepRef s) (timers s) (nextHandle s) (notifier s).

(** Assignments to the refs. *)
Definition setIntervalRef (r : option Handle) : Action := fun s =>
  mkWidget (time s) (isRunning s) (isCompleted s) (showAlert s) (inputValue s)
    r (beepRef s) (timers s) (nextHandle s) (notifier s).
Definition setBeepRef (r : option BeepObject) : Action := fun s =>
  mkWidget (time s) (isRunning s) (isCompleted s) (showAlert s) (inputValue s)
    (intervalRef s) r (timers s) (nextHandle s) (notifier s).

(** The host's [setInterval]: a fresh live timer, whose identifier is
    returned. *)
Definition setInterval (s : Widget) : Handle * Widget :=
  let h := nextHandle s in
  (h, mkWidget (time s) (isRunning s) (isCompleted s) (showAlert s) (inputValue s)
        (intervalRef s) (beepRef s) ({[h]} ∪ timers s) (Pos.succ h) (notifier s)).

(** The host's [clearInterval]: the timer is no longer live; clearing a
    timer that is not live does nothing. *)
Definition clearInterval (h : Handle) : Action := fun s =>
  mkWidget (time s) (isRunning s) (isCompleted s) (showAlert s) (inputValue s)
    (intervalRef s) (beepRef s) (timers s ∖ {[h]}) (nextHandle s) (notifier s).

(** [beepRef.current?.play?.()]: nothing happens while the ref is null. *)
Definition playBeep : Action := fun s =>
  match beepRef s with
  | Some _ =>
      mkWidget (time s) (isRunning s) (isCompleted s) (showAlert s) (inputValue s)
        (intervalRef s) (beepRef s) (timers s) (nextHandle s) (fire (notifier s))
  | None => s
  end.

(** ** The interval callback *)

(** The updater passed to [setTime] by the interval callback, applied to the
    current duration: at zero it stops the countdown, marks it completed,
    shows the alert, plays the beep and returns the duration unchanged;
    otherwise it returns the duration less one second. *)
Definition tickUpdater (prevTime : TimeState) : Action * TimeState :=
  if isZeroTime prevTime then
    (seq (setIsRunning false)
       (seq (setIsCompleted true) (seq (setShowAlert true) playBeep)),
     prevTime)
  else (skip, decrement prevTime).

(** [setTime(updater)]: the updater runs on the current duration. *)
Definition setTimeWith (updater : TimeState -> Action * TimeState) : Action :=
  fun s => let '(effects, t) := updater (time s) in setTime t (effects s).

Definition intervalCallback : Action := setTimeWith tickUpdater.

(** ** The effects *)

(** The first effect: the audio context is opened and the player stored. *)
Definition beepEffect : Action := setBeepRef (Some BeepSound).

(** The body of the timer effect: arm an interval while the countdown
    runs, otherwise clear the one the ref holds. *)
Definition timerEffect : Action := fun s =>
  if isRunning s && negb (isCompleted s) then
    let '(h, s') := setInterval s in setIntervalRef (Some h) s'
  else
    match intervalRef s with
    | Some h => setIntervalRef None (clearInterval h s)
    | None => s
    end.

(** The cleanup the timer effect returns. *)
Definition timerCleanup : Action := fun s =>
  match intervalRef s with
  | Some h => clearInterval h s
  | None => s
  end.

(** The dependency list [[isRunning, isCompleted]] changed between two
    renders. *)
Definition depsChanged (old new : Widget) : bool :=
  negb (Bool.eqb (isRunning old) (isRunning new)) ||
  negb (Bool.eqb (isCompleted old) (isCompleted new)).

(** After a commit: when a dependency changed, the cleanup of the previous
    run and then the effect. *)
Definition rerender (old : Widget) : Action := fun new =>
  if depsChanged old new then timerEffect (timerCleanup new) else new.

(** Mounting: the first render, then both effects. *)
Definition mount (d : Dev) : Widget := timerEffect (beepEffect (initialWidget d)).

(** Unmounting runs the cleanup of the timer effect. *)
Definition unmount : Action := timerCleanup.

(** ** The handlers *)

Definition handleInputChange (value : string) (snap : Widget) : Action :=
  seq (setInputValue value)
    (if negb (isRunning snap) then
       seq (setTime (parseTimeInput value)) (setIsCompleted false)
     else skip).

Definition handleStart (snap : Widget) : Action :=
  if isZeroTime (time snap) then skip
  else seq (setIsRunning true) (setIsCompleted false).

Definition handlePause : Action := setIsRunning false.

Definition handleReset (snap : Widget) : Action :=
  seq (setIsRunning false)
    (seq (setIsCompleted false)
       (seq (setShowAlert false) (setTime (parseTimeInput (inputValue snap))))).

Definition handlePreset (mins : Z) (snap : Widget) : Action :=
  if negb (isRunning snap) then
    let newTime := {| hours := 0; minutes := mins; seconds := 0 |} in
    seq (setTime newTime)
      (seq (setInputValue (formatTime newTime)) (setIsCompleted false))
  else skip.

(** The click handler of the Dismiss button. *)
Definition handleDismiss : Action := setShowAlert false.

(** The preset buttons: label and minutes. *)
Definition presetButtons : list (string * Z) :=
  [("1 Min", 1); ("5 Min", 5); ("10 Min", 10);
   ("15 Min", 15); ("30 Min", 30); ("1 Hour", 60)].

(** ** Events *)

Inductive Event : Type :=
  | InputChange (value : string)
  | ClickStart
  | ClickPause
  | ClickReset
  | ClickPreset (mins : Z)
  | ClickDismiss
  | IntervalFires (h : Handle).

(** The handler an event runs, on the snapshot of the current render.  The
    host calls the callback of live intervals only. *)
Definition handler (e : Event) (snap : Widget) : Action :=
  match e with
  | InputChange value => handleInputChange value snap
  | ClickStart => handleStart snap
  | ClickPause => handlePause
  | ClickReset => handleReset snap
  | ClickPreset mins => handlePreset mins snap
  | ClickDismiss => handleDismiss
  | IntervalFires h => if decide (h ∈ timers snap) then intervalCallback else skip
  end.

(** One event: the handler, the commit, the effects. *)
Definition dispatch (e : Event) : Action := fun s => rerender s (handler e s s).

(** A sequence of events, first to last. *)
Definition run (es : list Event) : Action := fun s => foldl (fun s e => dispatch e s) s es.

(** [n] firings of the interval the ref holds. *)
Definition fireInterval : Action := fun s =>
  match intervalRef s with
  | Some h => dispatch (IntervalFires h) s
  | None => s
  end.

Definition ticks (n : nat) : Action := Nat.iter n fireInterval.

(** ** Well-formed states *)

(** The state variables: running and completed exclude each other, and a
    completed countdown shows zero. *)
Definition hooksOk (s : Widget) : Prop :=
  isRunning s && isCompleted s = false /\
  (isCompleted s = true -> time s = zeroTime).

(** The refs and the host: the ref holds the one live interval exactly while
    the countdown runs, the host has handed out no identifier from
    [nextHandle] on, and the player is installed. *)
Definition resourcesOk (s : Widget) : Prop :=
  match intervalRef s with
  | Some h => isRunning s = true /\ timers s = {[h]} /\ (h < nextHandle s)%positive
  | None => isRunning s = false /\ timers s = ∅
  end /\
  beepRef s = Some BeepSound.

(** What every state the widget can be in satisfies. *)
Definition Inv (s : Widget) : Prop := hooksOk s /\ resourcesOk s.

(** Two states with the same refs and the same host. *)
Definition sameResources (s s' : Widget) : Prop :=
  intervalRef s' = intervalRef s /\ beepRef s' = beepRef s /\
  timers s' = timers s /\ nextHandle s' = nextHandle s.

(** Two states with the same state variables and the same device. *)
Definition sameHooks (s s' : Widget) : Prop :=
  time s' = time s /\ isRunning s' = isRunning s /\
  isCompleted s' = isCompleted s /\ showAlert s' = showAlert s /\
  inputValue s' = inputValue s /\ notifier s' = notifier s.

(** The states the widget reaches from its mount by any sequence of events:
    handler calls in any state, and firings of live intervals. *)
Inductive reachable : Widget -> Prop :=
  | reachable_mount (d : Dev) : reachable (mount d)
  | reachable_dispatch (e : Event) (s : Widget) :
      reachable s -> reachable (dispatch e s).

End Engine.

Arguments Widget : clear implicits.
Arguments Action : clear implicits.

(** ** States with the same state variables

    [sameHooks] is an equivalence coarser than equality: it forgets the refs
    and the host.  The state variables and the device respect it, and so
    does whatever is computed from them alone, the view and the abstraction
    to the specified timer among them. *)

#[export] Instance sameHooks_equivalence {Dev : Type} : Equivalence (@sameHooks Dev).
Proof.
  split; [intros s|intros s s' H|intros s1 s2 s3 H1 H2];
    unfold sameHooks in *; destruct_and?; repeat split; congruence.
Qed.

#[export] Instance time_proper {Dev : Type} : Proper (sameHooks ==> eq) (@time Dev).
Proof. by intros s s' (-> & _). Qed.

#[export] Instance isRunning_proper {Dev : Type} :
  Proper (sameHooks ==> eq) (@isRunning Dev).
Proof. by intros s s' (_ & -> & _). Qed.

#[export] Instance isCompleted_proper {Dev : Type} :
  Proper (sameHooks ==> eq) (@isCompleted Dev).
Proof. by intros s s' (_ & _ & -> & _). Qed.

#[export] Instance showAlert_proper {Dev : Type} :
  Proper (sameHooks ==> eq) (@showAlert Dev).
Proof. by intros s s' (_ & _ & _ & -> & _). Qed.

#[export] Instance inputValue_proper {Dev : Type} :
  Proper (sameHooks ==> eq) (@inputValue Dev).
Proof. by intros s s' (_ & _ & _ & _ & -> & _). Qed.

#[export] Instance notifier_proper {Dev : Type} :
  Proper (sameHooks ==> eq) (@notifier Dev).
Proof. by intros s s' (_ & _ & _ & _ & _ & ->). Qed.

#[export] Hint Constructors reachable : timer.

(** ** Tactics *)

(** [engine_eval]: evaluate handlers, effects and setters on a state, by
    value, so that no state is copied unevaluated; tests on variables are
    left for [engine_cases]. *)
Ltac engine_eval :=
  cbv beta iota zeta delta
    [dispatch handler rerender depsChanged timerEffect timerCleanup
     handleInputChange handleStart handlePause handleReset handlePreset
     handleDismiss intervalCallback setTimeWith tickUpdater playBeep
     mount unmount beepEffect initialWidget setInterval clearInterval
     setIntervalRef setBeepRef setTime setIsRunning setIsCompleted
     setShowAlert setInputValue seq skip
     time isRunning isCompleted showAlert inputValue intervalRef beepRef
     timers nextHandle notifier negb andb orb Bool.eqb fst snd] in *.

(** [engine_simpl]: projections of explicit records. *)
Ltac engine_simpl :=
  cbn [time isRunning isCompleted showAlert inputValue intervalRef beepRef
       timers nextHandle notifier fst snd] in *.

Ltac engine_unfold :=
  unfold Inv, hooksOk, resourcesOk, sameResources, sameHooks in *.

(** [engine_cases]: every test the goal branches on. *)
Ltac engine_cases :=
  repeat match goal with
    | |- context [if ?b then _ else _] => destruct b eqn:?
    | |- context [match ?o with Some _ => _ | None => _ end] => destruct o eqn:?
    end.

(** ** The invariant *)

Section Invariant.
Context {Dev : Type} `{!Notifier Dev}.
Implicit Types (s snap old new : Widget Dev) (e : Event) (d : Dev).

(** Handlers and the interval callback touch neither the refs nor the host. *)
Lemma handler_sameResources e snap s : sameResources s (handler e snap s).
Proof.
  destruct s, snap, e; engine_unfold; engine_eval; engine_cases; by repeat split.
Qed.

(** The effects touch neither the state variables nor the device. *)
Lemma rerender_sameHooks old new : sameHooks new (rerender old new).
Proof.
  destruct old, new; engine_unfold; engine_eval; engine_cases; by repeat split.
Qed.

Lemma handler_hooksOk e s : hooksOk s -> hooksOk (handler e s s).
Proof.
  destruct s as [t r c a v ref b T nx dev]. intros [Hex Hz].
  destruct e; engine_unfold; engine_eval; engine_cases; split; intros;
    simplify_eq; try done; try (by destruct r); try (by apply isZeroTime_eq);
    auto.
  by rewrite Hz in * by done.
Qed.

(** The cleanup leaves no live interval. *)
Lemma timerCleanup_timers s :
  timers s = from_option singleton ∅ (intervalRef s) ->
  timers (timerCleanup s) = ∅ /\ sameHooks s (timerCleanup s) /\
  intervalRef (timerCleanup s) = intervalRef s /\
  beepRef (timerCleanup s) = beepRef s /\
  nextHandle (timerCleanup s) = nextHandle s.
Proof.
  destruct s as [t r c a v [h|] b T nx dev]; engine_unfold; engine_eval;
    intros ->; repeat split.
  apply difference_diag_L.
Qed.

(** With no live interval, the effect arms one exactly when the countdown
    runs. *)
Lemma timerEffect_resourcesOk s :
  timers s = ∅ -> beepRef s = Some BeepSound ->
  isRunning s && isCompleted s = false ->
  resourcesOk (timerEffect s).
Proof.
  destruct s as [t r c a v ref b T nx dev]; engine_unfold; engine_eval.
  intros -> -> Hex.
  destruct r, c; try done.
  - repeat split; [apply (right_id_L ∅ (∪))|lia].
  - destruct ref; repeat split. apply empty_difference_L.
  - destruct ref; repeat split. apply empty_difference_L.
Qed.

Lemma resourcesOk_timers s :
  resourcesOk s -> timers s = from_option singleton ∅ (intervalRef s).
Proof. intros [Hr _]. destruct (intervalRef s); by destruct_and?. Qed.

(** The effect restores the agreement of the interval with [isRunning]. *)
Lemma rerender_resourcesOk old new :
  resourcesOk old -> sameResources old new ->
  isRunning new && isCompleted new = false ->
  resourcesOk (rerender old new).
Proof.
  intros Hold (E1 & E2 & E3 & E4) Hex. unfold rerender.
  destruct (depsChanged old new) eqn:Hd.
  - destruct (timerCleanup_timers new) as (Ht & (_ & Hr & Hc & _) & _ & Hb & _).
    { rewrite E1, E3. by apply resourcesOk_timers. }
    apply timerEffect_resourcesOk; [done| |by rewrite Hr, Hc].
    rewrite Hb, E2. apply Hold.
  - unfold depsChanged in Hd. apply orb_false_iff in Hd as [Hd _].
    apply negb_false_iff, Bool.eqb_prop in Hd.
    unfold resourcesOk in *. by rewrite E1, E2, E3, E4, <- Hd.
Qed.

Lemma dispatch_Inv e s : Inv s -> Inv (dispatch e s).
Proof.
  intros [Hh Hr]. pose proof (handler_hooksOk e s Hh) as Hh'.
  pose proof (rerender_sameHooks s (handler e s s)) as (E1 & E2 & E3 & _).
  split.
  - unfold dispatch, hooksOk in *. by rewrite E1, E2, E3.
  - apply rerender_resourcesOk; [done|apply handler_sameResources|apply Hh'].
Qed.

(** An event changes the state variables and the device as its handler
    does. *)
Lemma dispatch_sameHooks e s : sameHooks (handler e s s) (dispatch e s).
Proof. apply rerender_sameHooks. Qed.

(** The interval callback on a duration that is not zero. *)
Lemma intervalCallback_tick s :
  isZeroTime (time s) = false ->
  intervalCallback s = setTime (decrement (time s)) s.
Proof. intros Hz. unfold intervalCallback, setTimeWith, tickUpdater. by rewrite Hz. Qed.

Lemma run_app (es1 es2 : list Event) s : run (es1 ++ es2) s = run es2 (run es1 s).
Proof. apply foldl_app. Qed.

Lemma run_Inv (es : list Event) s : Inv s -> Inv (run es s).
Proof.
  revert s. induction es as [|e es IH]; intros s Hs; [done|].
  apply IH. by apply dispatch_Inv.
Qed.

(** C3. Every state the widget reaches from its mount by any sequence of
    events is well formed: running and completed exclude each other, a
    completed countdown shows zero, the ref holds the one live interval
    exactly while the countdown runs, and the player is installed. *)
Theorem run_invariant (d : Dev) (es : list Event) : Inv (run es (mount d)).
Proof. apply run_Inv. by repeat split. Qed.

Lemma mount_Inv d : Inv (mount d).
Proof. by repeat split. Qed.

(** Every reachable state is well formed. *)
Lemma reachable_Inv s : reachable s -> Inv s.
Proof. induction 1; auto using mount_Inv, dispatch_Inv. Qed.

Lemma reachable_run (es : list Event) s : reachable s -> reachable (run es s).
Proof.
  revert s. induction es as [|e es IH]; intros s Hs; [done|].
  apply IH. by constructor.
Qed.

Lemma reachable_fireInterval s : reachable s -> reachable (fireInterval s).
Proof. intros Hs. unfold fireInterval. destruct (intervalRef s); by try constructor. Qed.

Lemma reachable_ticks (n : nat) s : reachable s -> reachable (ticks n s).
Proof. apply (iter_invariant fireInterval reachable), reachable_fireInterval. Qed.

End Invariant.

(** ** What each event does *)

Section Events.
Context {Dev : Type} `{!Notifier Dev}.
Implicit Types (s old new : Widget Dev) (e : Event) (h : Handle).

(** A render that changes no dependency runs no effect. *)
Lemma rerender_same_deps old new :
  isRunning new = isRunning old -> isCompleted new = isCompleted old ->
  rerender old new = new.
Proof.
  intros E1 E2. unfold rerender, depsChanged.
  by rewrite E1, E2, !Bool.eqb_reflx.
Qed.

(** The live intervals of a well-formed state. *)
Lemma Inv_idle s :
  Inv s -> isRunning s = false -> intervalRef s = None /\ timers s = ∅.
Proof.
  intros [_ [Hr _]] Hrun. destruct (intervalRef s); destruct_and?; [congruence|done].
Qed.

Lemma Inv_running s :
  Inv s -> isRunning s = true ->
  exists h, intervalRef s = Some h /\ timers s = {[h]} /\ isCompleted s = false.
Proof.
  intros [[Hex _] [Hr _]] Hrun. rewrite Hrun in Hex.
  destruct (intervalRef s) as [h|]; destruct_and?; [|congruence]. by exists h.
Qed.

(** C4. Reset, in any well-formed state, leaves the widget idle with the
    duration the input text parses to, the alert hidden and no interval:
    the interval of a running countdown is cleared by the effect. *)
Theorem reset_spec s :
  Inv s ->
  dispatch ClickReset s =
    {| time := parseTimeInput (inputValue s); isRunning := false;
       isCompleted := false; showAlert := false; inputValue := inputValue s;
       intervalRef := None; beepRef := beepRef s;
       timers := ∅; nextHandle := nextHandle s; notifier := notifier s |}.
Proof.
  intros HI. unfold dispatch, handler, handleReset.
  destruct (isRunning s) eqn:Hrun.
  - destruct (Inv_running s HI Hrun) as (h & Href & Ht & Hc).
    destruct s as [t r c a v ref b T nx dev]. engine_simpl. subst.
    engine_eval. f_equal. rewrite difference_diag_L. apply empty_difference_L.
  - destruct (Inv_idle s HI Hrun) as [Href Ht].
    destruct s as [t r c a v ref b T nx dev]. engine_simpl. subst.
    engine_eval. by destruct c.
Qed.

(** C6. Start does nothing on the zero duration and nothing while the
    countdown runs; otherwise it starts the countdown and arms one
    interval, with a fresh identifier. *)
Theorem start_spec s :
  Inv s ->
  dispatch ClickStart s =
    if isZeroTime (time s) || isRunning s then s
    else {| time := time s; isRunning := true; isCompleted := false;
            showAlert := showAlert s; inputValue := inputValue s;
            intervalRef := Some (nextHandle s); beepRef := beepRef s;
            timers := {[nextHandle s]}; nextHandle := Pos.succ (nextHandle s);
            notifier := notifier s |}.
Proof.
  intros HI. unfold dispatch, handler, handleStart.
  destruct (isZeroTime (time s)) eqn:Hz; [by apply rerender_same_deps|].
  destruct (isRunning s) eqn:Hrun.
  - destruct (Inv_running s HI Hrun) as (h & Href & Ht & Hc).
    destruct s as [t r c a v ref b T nx dev]. engine_simpl. subst. by engine_eval.
  - destruct (Inv_idle s HI Hrun) as [Href Ht].
    assert (isCompleted s = false) as Hc.
    { destruct HI as [[_ Hcz] _]. destruct (isCompleted s); [|done].
      by rewrite (proj2 (isZeroTime_eq _) (Hcz eq_refl)) in Hz. }
    destruct s as [t r c a v ref b T nx dev]. engine_simpl. subst.
    engine_eval. f_equal. apply (right_id_L ∅ (∪)).
Qed.

(** C7. Pause does nothing on a widget that is not running; on a running
    one it stops the countdown and clears its interval, the duration and
    everything else staying as they are. *)
Theorem pause_spec s :
  Inv s ->
  dispatch ClickPause s =
    if isRunning s then
      {| time := time s; isRunning := false; isCompleted := isCompleted s;
         showAlert := showAlert s; inputValue := inputValue s;
         intervalRef := None; beepRef := beepRef s;
         timers := ∅; nextHandle := nextHandle s; notifier := notifier s |}
    else s.
Proof.
  intros HI. unfold dispatch, handler, handlePause.
  destruct (isRunning s) eqn:Hrun.
  - destruct (Inv_running s HI Hrun) as (h & Href & Ht & Hc).
    destruct s as [t r c a v ref b T nx dev]. engine_simpl. subst.
    engine_eval. f_equal. rewrite difference_diag_L. apply empty_difference_L.
  - destruct s as [t r c a v ref b T nx dev]. engine_simpl. subst.
    by rewrite rerender_same_deps.
Qed.

(** *** Branch by branch *)

(** Start on the zero duration does nothing, in any state. *)
Lemma start_guard s : time s = zeroTime -> dispatch ClickStart s = s.
Proof.
  intros Hz. unfold dispatch, handler, handleStart.
  rewrite (proj2 (isZeroTime_eq _) Hz). by apply rerender_same_deps.
Qed.

(** Start on an idle widget whose duration is not zero starts the
    countdown and arms one interval, with a fresh identifier; nothing else
    changes. *)
Lemma start_arms s :
  Inv s -> isRunning s = false -> time s <> zeroTime ->
  dispatch ClickStart s =
    {| time := time s; isRunning := true; isCompleted := false;
       showAlert := showAlert s; inputValue := inputValue s;
       intervalRef := Some (nextHandle s); beepRef := beepRef s;
       timers := {[nextHandle s]}; nextHandle := Pos.succ (nextHandle s);
       notifier := notifier s |}.
Proof.
  intros HI Hrun Hnz. destruct (Inv_idle s HI Hrun) as [Href Ht].
  assert (isZeroTime (time s) = false) as Hz
    by (destruct (isZeroTime (time s)) eqn:E; [by apply isZeroTime_eq in E|done]).
  assert (isCompleted s = false) as Hc
    by (destruct HI as [[_ Hcz] _]; destruct (isCompleted s); [by destruct Hnz; auto|done]).
  unfold dispatch, handler, handleStart. rewrite Hz.
  destruct s as [t r c a v ref b T nx dev]. engine_simpl. subst.
  engine_eval. f_equal. apply (right_id_L ∅ (∪)).
Qed.

(** Start while the countdown runs changes nothing. *)
Lemma start_running s : Inv s -> isRunning s = true -> dispatch ClickStart s = s.
Proof.
  intros HI Hrun. destruct (Inv_running s HI Hrun) as (h & Href & Ht & Hc).
  unfold dispatch, handler, handleStart.
  destruct (isZeroTime (time s)); [by apply rerender_same_deps|].
  destruct s as [t r c a v ref b T nx dev]. engine_simpl. subst. by engine_eval.
Qed.

(** Pause on a widget that is not running changes nothing. *)
Lemma pause_idle s : isRunning s = false -> dispatch ClickPause s = s.
Proof.
  intros Hrun. unfold dispatch, handler, handlePause.
  destruct s as [t r c a v ref b T nx dev]. engine_simpl. subst.
  rewrite rerender_same_deps; done.
Qed.

(** Pause on a running widget stops the countdown and clears its
    interval; the duration and everything else stay. *)
Lemma pause_disarms s :
  Inv s -> isRunning s = true ->
  dispatch ClickPause s =
    {| time := time s; isRunning := false; isCompleted := isCompleted s;
       showAlert := showAlert s; inputValue := inputValue s;
       intervalRef := None; beepRef := beepRef s;
       timers := ∅; nextHandle := nextHandle s; notifier := notifier s |}.
Proof.
  intros HI Hrun. destruct (Inv_running s HI Hrun) as (h & Href & Ht & Hc).
  unfold dispatch, handler, handlePause.
  destruct s as [t r c a v ref b T nx dev]. engine_simpl. subst.
  engine_eval. f_equal. rewrite difference_diag_L. apply empty_difference_L.
Qed.

(** A preset while the countdown runs is rejected: the state does not
    change. *)
Lemma preset_running s (mins : Z) :
  isRunning s = true -> dispatch (ClickPreset mins) s = s.
Proof.
  intros Hrun. unfold dispatch, handler, handlePreset. rewrite Hrun.
  by apply rerender_same_deps.
Qed.

(** A preset on a widget that is not running replaces the duration and
    the input text, and clears the completed flag; the alert stays as it
    is. *)
Lemma preset_idle s (mins : Z) :
  Inv s -> isRunning s = false ->
  dispatch (ClickPreset mins) s =
    {| time := {| hours := 0; minutes := mins; seconds := 0 |};
       isRunning := false; isCompleted := false; showAlert := showAlert s;
       inputValue := formatTime {| hours := 0; minutes := mins; seconds := 0 |};
       intervalRef := None; beepRef := beepRef s;
       timers := ∅; nextHandle := nextHandle s; notifier := notifier s |}.
Proof.
  intros HI Hrun. destruct (Inv_idle s HI Hrun) as [Href Ht].
  unfold dispatch, handler, handlePreset. rewrite Hrun.
  destruct s as [t r c a v ref b T nx dev]. engine_simpl. subst.
  engine_eval. by destruct c.
Qed.

(** Editing the text while the countdown runs stores the text and
    changes nothing else: the duration keeps counting. *)
Lemma input_running s (value : string) :
  isRunning s = true -> dispatch (InputChange value) s = setInputValue value s.
Proof.
  intros Hrun. unfold dispatch, handler, handleInputChange. rewrite Hrun.
  by apply rerender_same_deps.
Qed.

(** Editing the text on a widget that is not running stores the text,
    sets the duration to what it parses to and clears the completed flag. *)
Lemma input_idle s (value : string) :
  Inv s -> isRunning s = false ->
  dispatch (InputChange value) s =
    {| time := parseTimeInput value; isRunning := false; isCompleted := false;
       showAlert := showAlert s; inputValue := value;
       intervalRef := None; beepRef := beepRef s;
       timers := ∅; nextHandle := nextHandle s; notifier := notifier s |}.
Proof.
  intros HI Hrun. destruct (Inv_idle s HI Hrun) as [Href Ht].
  unfold dispatch, handler, handleInputChange. rewrite Hrun.
  destruct s as [t r c a v ref b T nx dev]. engine_simpl. subst.
  engine_eval. by destruct c.
Qed.

(** Dismissing the alert hides it and changes nothing else: the widget
    stays completed until Reset, a preset or an edit. *)
Theorem dismiss_spec s : dispatch ClickDismiss s = setShowAlert false s.
Proof. unfold dispatch, handler, handleDismiss. by apply rerender_same_deps. Qed.

(** The callback of an interval that is not live is never run: the
    firing of a cleared interval changes nothing. *)
Theorem dead_interval_silent s h : h ∉ timers s -> dispatch (IntervalFires h) s = s.
Proof.
  intros Hh. unfold dispatch, handler. rewrite decide_False by done.
  by apply rerender_same_deps.
Qed.

(** A live interval is the one the ref holds, and the countdown runs. *)
Lemma live_interval s h :
  Inv s -> h ∈ timers s -> isRunning s = true /\ intervalRef s = Some h.
Proof.
  intros HI Hh. destruct (isRunning s) eqn:Hrun.
  - destruct (Inv_running s HI Hrun) as (h' & Href & Ht & Hc).
    rewrite Ht in Hh. by apply elem_of_singleton in Hh as ->.
  - destruct (Inv_idle s HI Hrun) as [_ Ht]. rewrite Ht in Hh. set_solver.
Qed.

(** ** The handlers, with their guards *)

(** C19. A preset is rejected while the countdown runs; otherwise it
    replaces the duration by the preset's minutes and the input text by
    their format, and clears the completed flag, the alert staying as it
    is. *)
Theorem preset_spec s (mins : Z) :
  Inv s ->
  dispatch (ClickPreset mins) s =
    if isRunning s then s
    else {| time := {| hours := 0; minutes := mins; seconds := 0 |};
            isRunning := false; isCompleted := false; showAlert := showAlert s;
            inputValue := formatTime {| hours := 0; minutes := mins; seconds := 0 |};
            intervalRef := None; beepRef := beepRef s;
            timers := ∅; nextHandle := nextHandle s; notifier := notifier s |}.
Proof.
  intros HI. destruct (isRunning s) eqn:Hr;
    [by apply preset_running|by apply preset_idle].
Qed.

(** C20. An edit of the text always stores the text; while the countdown
    runs it does nothing else, otherwise it sets the duration to what the
    text parses to and clears the completed flag. *)
Theorem input_spec s (value : string) :
  Inv s ->
  dispatch (InputChange value) s =
    if isRunning s then setInputValue value s
    else {| time := parseTimeInput value; isRunning := false;
            isCompleted := false; showAlert := showAlert s; inputValue := value;
            intervalRef := None; beepRef := beepRef s;
            timers := ∅; nextHandle := nextHandle s; notifier := notifier s |}.
Proof.
  intros HI. destruct (isRunning s) eqn:Hr;
    [by apply input_running|by apply input_idle].
Qed.

End Events.

(** ** The interval as a resource *)

Section Resource.
Context {Dev : Type} `{!Notifier Dev}.
Implicit Types (s : Widget Dev).

(** C10. In every reachable state the host holds a live interval of the
    widget exactly while the countdown runs, and never more than one. *)
Theorem interval_iff_running s :
  reachable s ->
  (timers s <> ∅ <-> isRunning s = true) /\ (size (timers s) <= 1)%nat.
Proof.
  intros HI%reachable_Inv. destruct (isRunning s) eqn:Hrun.
  - destruct (Inv_running s HI Hrun) as (h & _ & -> & _).
    rewrite size_singleton. split; [|done]. split; [done|]. intros _. set_solver.
  - destruct (Inv_idle s HI Hrun) as [_ ->]. rewrite size_empty.
    split; [|lia]. split; [done|discriminate].
Qed.

(** C39. Unmounting a reachable widget leaves no live interval behind. *)
Theorem unmount_releases s : reachable s -> timers (unmount s) = ∅.
Proof.
  intros HI%reachable_Inv. unfold unmount.
  apply timerCleanup_timers, resourcesOk_timers, HI.
Qed.

(** Identifiers are never reused: the interval the ref holds was handed
    out before [nextHandle]. *)
Theorem handles_fresh s h :
  reachable s -> h ∈ timers s -> (h < nextHandle s)%positive.
Proof.
  intros HI%reachable_Inv Hh. destruct (live_interval s h HI Hh) as [_ Href].
  destruct HI as [_ [Hr _]]. rewrite Href in Hr. apply Hr.
Qed.

End Resource.

(** ** Reset returns to the configured duration *)

Section Configured.
Context {Dev : Type} `{!Notifier Dev}.
Implicit Types (s : Widget Dev) (e : Event) (es : list Event).

(** The events that write the input text. *)
Definition editsInput (e : Event) : bool :=
  match e with InputChange _ | ClickPreset _ => true | _ => false end.

Lemma dispatch_keeps_input e s :
  editsInput e = false -> inputValue (dispatch e s) = inputValue s.
Proof.
  intros He. rewrite <- (dispatch_sameHooks e s).
  destruct e as [value| | | |mins| |h]; try done; cbn [handler]; unfold handleStart.
  - by destruct (isZeroTime (time s)).
  - destruct (decide (h ∈ timers s)); [|done].
    unfold intervalCallback, setTimeWith, tickUpdater.
    destruct (isZeroTime (time s)); [|done].
    by destruct s as [t r c a v ref [b|] T nx dev].
Qed.

Lemma run_keeps_input es s :
  forallb (fun e => negb (editsInput e)) es = true ->
  inputValue (run es s) = inputValue s.
Proof.
  revert s. induction es as [|e es IH]; intros s Hes; [done|].
  cbn in Hes. apply andb_true_iff in Hes as [He%negb_true_iff Hes].
  cbn [run foldl]. fold (run es (dispatch e s)).
  by rewrite IH, dispatch_keeps_input.
Qed.

Lemma reset_time s : time (dispatch ClickReset s) = parseTimeInput (inputValue s).
Proof. by rewrite <- (dispatch_sameHooks ClickReset s). Qed.

Lemma preset_input s (mins : Z) :
  isRunning s = false ->
  inputValue (dispatch (ClickPreset mins) s) =
    formatTime {| hours := 0; minutes := mins; seconds := 0 |}.
Proof.
  intros Hr. rewrite <- (dispatch_sameHooks (ClickPreset mins) s).
  cbn [handler]. unfold handlePreset. by rewrite Hr.
Qed.

(** C27. Reset returns to the preset: after a preset chosen while the
    countdown does not run, and any starts, pauses, firings and dismissals
    since, Reset restores the preset's duration, whatever the minutes. *)
Theorem reset_restores_preset s (mins : Z) es :
  isRunning s = false ->
  forallb (fun e => negb (editsInput e)) es = true ->
  time (dispatch ClickReset (run es (dispatch (ClickPreset mins) s))) =
    {| hours := 0; minutes := mins; seconds := 0 |}.
Proof.
  intros Hr Hes. rewrite reset_time, run_keeps_input, preset_input by done.
  by apply parse_format.
Qed.

End Configured.

(** ** The countdown, tick by tick

    What the firings of the interval do to a running widget: while the
    duration is not zero a firing applies [decrement] and changes nothing
    else; the firing that finds zero completes the countdown, shows the
    alert, fires the notifier once and disarms the interval, after which no
    firing is possible.  Together with the measure of [Duration] this gives
    the guarantee of the program, and its limit: a duration that is
    lexicographically at least zero completes after exactly [ticksToZero]
    firings plus one, and any other duration (a negative field that nothing
    overwrites) runs forever. *)

(** [zero_eval]: the interval callback on a duration just set to zero, down
    to the calls of its zero branch. *)
Ltac zero_eval :=
  unfold intervalCallback, setTimeWith, tickUpdater; cbn [time setTime];
  change (isZeroTime zeroTime) with true; cbv iota.

Section Countdown.
Context {Dev : Type} `{!Notifier Dev}.
Implicit Types (s : Widget Dev) (n k : nat) (t : TimeState).

(** The state in which a completed countdown leaves the widget. *)
Definition completedFrom (s : Widget Dev) : Widget Dev :=
  {| time := zeroTime; isRunning := false; isCompleted := true;
     showAlert := true; inputValue := inputValue s;
     intervalRef := None; beepRef := beepRef s;
     timers := ∅; nextHandle := nextHandle s;
     notifier := fire (notifier s) |}.

(** The widget is counting down. *)
Definition counting (s : Widget Dev) : Prop := Inv s /\ isRunning s = true.

(** ** One firing *)

Lemma counting_ref s :
  counting s -> exists h, intervalRef s = Some h /\ timers s = {[h]} /\
                          isCompleted s = false /\ beepRef s = Some BeepSound.
Proof.
  intros [[[Hex _] [Hr Hb]] Hrun]. rewrite Hrun in Hex.
  destruct (intervalRef s) as [h|]; [|destruct Hr; congruence].
  exists h. by destruct_and?.
Qed.

(** The firing of the interval of a counting widget runs the callback, and
    then the effects. *)
Lemma fireInterval_callback s :
  counting s -> fireInterval s = rerender s (intervalCallback s).
Proof.
  intros Hc. destruct (counting_ref s Hc) as (h & Href & Ht & _).
  unfold fireInterval, dispatch, handler. rewrite Href.
  by rewrite decide_True by (rewrite Ht; set_solver).
Qed.

(** A firing on a duration that is not zero takes one tick off it. *)
Lemma fireInterval_decrement s :
  counting s -> isZeroTime (time s) = false ->
  fireInterval s = setTime (decrement (time s)) s.
Proof.
  intros Hc Hz. rewrite fireInterval_callback, intervalCallback_tick by done.
  by apply rerender_same_deps.
Qed.

(** Once the interval is disarmed nothing fires. *)
Lemma fireInterval_idle s : intervalRef s = None -> fireInterval s = s.
Proof. unfold fireInterval. by intros ->. Qed.

(** The firing that finds zero stops the countdown and disarms the
    interval. *)
Lemma fireInterval_stops s :
  counting s -> time s = zeroTime -> intervalRef (fireInterval s) = None.
Proof.
  intros Hc Hz. apply Inv_idle.
  - unfold fireInterval. destruct (intervalRef s); [apply dispatch_Inv|]; apply Hc.
  - rewrite fireInterval_callback by done.
    rewrite <- (rerender_sameHooks s (intervalCallback s)).
    unfold intervalCallback, setTimeWith, tickUpdater. rewrite Hz.
    by destruct s as [t r c a v ref [b|] T nx dev].
Qed.

Lemma setTime_counting t s : counting s -> counting (setTime t s).
Proof.
  intros Hc. destruct (counting_ref s Hc) as (h & Href & Ht & Hcompl & Hb).
  destruct Hc as [[[Hex Hz] [Hr Hb']] Hrun].
  repeat split; try done. engine_eval. by rewrite Hcompl.
Qed.

Lemma setTime_setTime t t' s : setTime t (setTime t' s) = setTime t s.
Proof. done. Qed.

Lemma setTime_time s : setTime (time s) s = s.
Proof. by destruct s. Qed.

(** ** Many firings *)

(** While zero has not been reached, [n] firings are [n] ticks on the
    duration and nothing else. *)
Lemma ticks_countdown n s :
  counting s ->
  (forall k, (k < n)%nat -> countdown k (time s) <> zeroTime) ->
  ticks n s = setTime (countdown n (time s)) s.
Proof.
  intros Hc. induction n as [|n IH]; intros Hnz.
  - by rewrite <- (setTime_time s) at 1.
  - unfold ticks in *. rewrite iter_S, IH by (intros; apply Hnz; lia).
    rewrite fireInterval_decrement; [done|by apply setTime_counting|].
    cbn. destruct (isZeroTime _) eqn:E; [|done].
    apply isZeroTime_eq in E. by destruct (Hnz n ltac:(lia)).
Qed.

Lemma ticks_add n k s : ticks (n + k) s = ticks n (ticks k s).
Proof. apply iter_add. Qed.

Lemma ticks_disarmed n s : intervalRef s = None -> ticks n s = s.
Proof. intros Href. apply iter_fixed. by apply fireInterval_idle. Qed.

(** The number of firings a countdown takes: one for each tick and one that
    finds zero. *)
Definition firingsToComplete (s : Widget Dev) : nat :=
  S (Z.to_nat (ticksToZero (time s))).

(** Before zero is reached, [n] firings are [n] ticks on the duration. *)
Lemma ticks_before_zero s n :
  counting s -> lexNonNegative (time s) = true ->
  Z.of_nat n <= ticksToZero (time s) ->
  ticks n s = setTime (countdown n (time s)) s.
Proof.
  intros Hc Hlex Hn. apply ticks_countdown; [done|].
  intros k Hk. apply countdown_not_zero_before; [done|lia].
Qed.

(** After [ticksToZero] firings the duration is zero, the countdown still
    running. *)
Lemma ticks_to_zero s :
  counting s -> lexNonNegative (time s) = true ->
  ticks (Z.to_nat (ticksToZero (time s))) s = setTime zeroTime s.
Proof.
  intros Hc Hlex. pose proof (ticksToZero_nonneg _ Hlex).
  rewrite ticks_before_zero, countdown_reaches_zero; try done. lia.
Qed.

(** From then on the widget is what the firing that finds zero leaves:
    later firings find no interval. *)
Lemma ticks_past_fire s k :
  counting s -> lexNonNegative (time s) = true ->
  ticks (firingsToComplete s + k) s = fireInterval (setTime zeroTime s).
Proof.
  intros Hc Hlex. rewrite Nat.add_comm, ticks_add.
  unfold firingsToComplete, ticks at 2. rewrite iter_S.
  fold (ticks (Z.to_nat (ticksToZero (time s))) s). rewrite ticks_to_zero by done.
  apply ticks_disarmed, fireInterval_stops; [by apply setTime_counting|done].
Qed.

(** ** The guarantee *)

(** C2. The notifier is fired exactly once per countdown: not before the
    firing that finds zero, once by it, and never again. *)
Theorem notified_once s n :
  counting s -> lexNonNegative (time s) = true ->
  fired (notifier (ticks n s)) =
    (fired (notifier s) + if (firingsToComplete s <=? n)%nat then 1 else 0)%nat.
Proof.
  intros Hc Hlex. destruct (Nat.leb_spec (firingsToComplete s) n) as [Hle|Hlt].
  - replace n with (firingsToComplete s + (n - firingsToComplete s))%nat by lia.
    rewrite ticks_past_fire, fireInterval_callback by (done || by apply setTime_counting).
    rewrite <- (rerender_sameHooks (setTime zeroTime s) _).
    destruct (counting_ref s Hc) as (h & _ & _ & _ & Hb). zero_eval.
    destruct s as [t r c a v ref b T nx dev]. engine_simpl. subst.
    engine_eval. rewrite fired_fire. lia.
  - pose proof (ticksToZero_nonneg _ Hlex).
    rewrite ticks_before_zero; [cbn; lia|done..|unfold firingsToComplete in Hlt; lia].
Qed.

(** C1. A running countdown whose duration is lexicographically at least
    zero completes: after [ticksToZero] firings the display is at zero with
    the countdown still running, the next firing leaves the widget
    completed, with the alert shown, the notifier fired once and no interval
    armed, and later firings change nothing. *)
Theorem countdown_completes s k :
  counting s -> lexNonNegative (time s) = true ->
  ticks (Z.to_nat (ticksToZero (time s))) s = setTime zeroTime s /\
  ticks (firingsToComplete s + k) s = completedFrom s.
Proof.
  intros Hc Hlex. split; [by apply ticks_to_zero|].
  rewrite ticks_past_fire, fireInterval_callback by (done || by apply setTime_counting).
  destruct (counting_ref s Hc) as (h & Href & Ht & Hcompl & Hb). destruct Hc as [_ Hrun].
  zero_eval. destruct s as [t r c a v ref b T nx dev]. unfold completedFrom.
  engine_simpl. subst. engine_eval. f_equal.
  rewrite difference_diag_L. apply empty_difference_L.
Qed.

(** ** The completed state *)

(** The interval callback at zero. *)
Lemma intervalCallback_zero s :
  isZeroTime (time s) = true ->
  intervalCallback s =
    playBeep (setShowAlert true (setIsCompleted true (setIsRunning false s))).
Proof.
  intros Hz. unfold intervalCallback, setTimeWith, tickUpdater. rewrite Hz.
  by destruct s as [t r c a v ref [b|] T nx dev].
Qed.

(** The firing that finds the duration at zero completes the countdown. *)
Lemma fireInterval_complete s :
  counting s -> time s = zeroTime -> fireInterval s = completedFrom s.
Proof.
  intros Hc Hz. rewrite fireInterval_callback by done.
  rewrite intervalCallback_zero by (by apply isZeroTime_eq).
  destruct (counting_ref s Hc) as (h & Href & Ht & Hcompl & Hb). destruct Hc as [_ Hrun].
  destruct s as [t r c a v ref b T nx dev]. unfold completedFrom.
  engine_simpl. subst. engine_eval. f_equal.
  rewrite difference_diag_L. apply empty_difference_L.
Qed.

Lemma ticks_completedFrom n s : ticks n (completedFrom s) = completedFrom s.
Proof. by apply ticks_disarmed. Qed.

Lemma completedFrom_setTime t s : completedFrom (setTime t s) = completedFrom s.
Proof. done. Qed.

(** The firing after zero completes the countdown, and later ones find no
    interval. *)
Lemma ticks_past_zero s k :
  counting s -> lexNonNegative (time s) = true ->
  ticks (firingsToComplete s + k) s = completedFrom s.
Proof.
  intros Hc Hlex. rewrite ticks_past_fire by done.
  by rewrite fireInterval_complete, completedFrom_setTime by (done || by apply setTime_counting).
Qed.

(** C9. One firing of a live interval: at zero it completes the countdown
    (not running, completed, alert shown, notifier fired, interval
    cleared), otherwise it takes one tick off the duration and changes
    nothing else. *)
Theorem interval_fires s (h : Handle) :
  Inv s -> h ∈ timers s ->
  dispatch (IntervalFires h) s =
    if isZeroTime (time s) then completedFrom s
    else setTime (decrement (time s)) s.
Proof.
  intros HI Hh. destruct (live_interval s h HI Hh) as [Hrun Href].
  replace (dispatch (IntervalFires h) s) with (fireInterval s)
    by (unfold fireInterval; by rewrite Href).
  destruct (isZeroTime (time s)) eqn:Hz.
  - by apply fireInterval_complete, isZeroTime_eq.
  - by apply fireInterval_decrement.
Qed.

(** C30. Before the total is used up, [n] firings on a normalised duration
    leave the duration of the total less [n] seconds, and change nothing
    else of the widget. *)
Theorem countdown_runs s n :
  counting s -> normalized (time s) = true ->
  Z.of_nat n <= totalSeconds (time s) ->
  ticks n s = setTime (ofSeconds (totalSeconds (time s) - Z.of_nat n)) s.
Proof.
  intros Hc Hn Hle.
  assert (nonNegative (time s) = true) as Hnn by (revert Hn; time_unfold; lia).
  rewrite ticks_before_zero, countdown_ofSeconds; try done.
  - by apply nonNegative_lexNonNegative.
  - by rewrite ticksToZero_totalSeconds.
Qed.

(** C11. A running countdown whose duration is not lexicographically at least
    zero never completes: every firing leaves it running, not completed and
    not notified, and its duration is never zero. *)
Theorem countdown_never_completes s n :
  counting s -> lexNonNegative (time s) = false ->
  ticks n s = setTime (countdown n (time s)) s /\
  isRunning (ticks n s) = true /\ isCompleted (ticks n s) = false /\
  time (ticks n s) <> zeroTime /\ notifier (ticks n s) = notifier s.
Proof.
  intros Hc Hlex.
  assert (ticks n s = setTime (countdown n (time s)) s) as ->
    by (apply ticks_countdown; [done|intros; by apply countdown_never_zero]).
  destruct (counting_ref s Hc) as (h & _ & _ & Hcompl & _). destruct Hc as [_ Hrun].
  repeat split; try done. by apply countdown_never_zero.
Qed.

End Countdown.

(** ** Concrete widgets *)

#[export] Hint Resolve mount_Inv dispatch_Inv reachable_Inv reachable_run
  reachable_fireInterval reachable_ticks : timer.

(** The widget as mounted, with the default five minutes, and after Start. *)
Definition freshWidget : Widget AudioContext := mount newAudioContext.

Definition runningWidget : Widget AudioContext := dispatch ClickStart freshWidget.

Lemma runningWidget_reachable : reachable runningWidget.
Proof. unfold runningWidget, freshWidget. eauto with timer. Qed.

#[export] Hint Resolve runningWidget_reachable : timer.

Lemma start_spec_witness :
  dispatch ClickStart freshWidget =
    if isZeroTime (time freshWidget) || isRunning freshWidget then freshWidget
    else {| time := time freshWidget; isRunning := true; isCompleted := false;
            showAlert := showAlert freshWidget; inputValue := inputValue freshWidget;
            intervalRef := Some (nextHandle freshWidget);
            beepRef := beepRef freshWidget;
            timers := {[nextHandle freshWidget]};
            nextHandle := Pos.succ (nextHandle freshWidget);
            notifier := notifier freshWidget |}.
Proof. apply (start_spec freshWidget), mount_Inv. Defined.

Lemma pause_spec_witness :
  dispatch ClickPause runningWidget =
    if isRunning runningWidget then
      {| time := time runningWidget; isRunning := false;
         isCompleted := isCompleted runningWidget;
         showAlert := showAlert runningWidget;
         inputValue := inputValue runningWidget;
         intervalRef := None; beepRef := beepRef runningWidget;
         timers := ∅; nextHandle := nextHandle runningWidget;
         notifier := notifier runningWidget |}
    else runningWidget.
Proof. apply (pause_spec runningWidget). eauto with timer. Defined.

Lemma reset_spec_witness :
  dispatch ClickReset runningWidget =
    {| time := parseTimeInput (inputValue runningWidget); isRunning := false;
       isCompleted := false; showAlert := false;
       inputValue := inputValue runningWidget;
       intervalRef := None; beepRef := beepRef runningWidget;
       timers := ∅; nextHandle := nextHandle runningWidget;
       notifier := notifier runningWidget |}.
Proof. apply (reset_spec runningWidget). eauto with timer. Defined.

Lemma preset_spec_witness :
  dispatch (ClickPreset 10) freshWidget =
    if isRunning freshWidget then freshWidget
    else {| time := {| hours := 0; minutes := 10; seconds := 0 |};
            isRunning := false; isCompleted := false;
            showAlert := showAlert freshWidget;
            inputValue := formatTime {| hours := 0; minutes := 10; seconds := 0 |};
            intervalRef := None; beepRef := beepRef freshWidget;
            timers := ∅; nextHandle := nextHandle freshWidget;
            notifier := notifier freshWidget |}.
Proof. apply (preset_spec freshWidget 10), mount_Inv. Defined.

Lemma input_spec_witness :
  dispatch (InputChange "1:30") freshWidget =
    if isRunning freshWidget then setInputValue "1:30" freshWidget
    else {| time := parseTimeInput "1:30"; isRunning := false;
            isCompleted := false; showAlert := showAlert freshWidget;
            inputValue := "1:30";
            intervalRef := None; beepRef := beepRef freshWidget;
            timers := ∅; nextHandle := nextHandle freshWidget;
            notifier := notifier freshWidget |}.
Proof. apply (input_spec freshWidget "1:30"), mount_Inv. Defined.

Lemma dead_interval_silent_witness :
  dispatch (IntervalFires 1) (dispatch ClickPause runningWidget)
    = dispatch ClickPause runningWidget.
Proof.
  apply (dead_interval_silent (dispatch ClickPause runningWidget) 1).
  vm_compute. set_solver.
Defined.

Lemma interval_iff_running_witness :
  (timers runningWidget <> ∅ <-> isRunning runningWidget = true) /\
  (size (timers runningWidget) <= 1)%nat.
Proof. apply (interval_iff_running runningWidget). eauto with timer. Defined.

Lemma unmount_releases_witness : timers (unmount runningWidget) = ∅.
Proof. apply (unmount_releases runningWidget). eauto with timer. Defined.

Lemma handles_fresh_witness : (1 < nextHandle runningWidget)%positive.
Proof.
  apply (handles_fresh runningWidget 1); [eauto with timer|].
  vm_compute. set_solver.
Defined.

Lemma reset_restores_preset_witness :
  time (dispatch ClickReset
          (run [ClickStart; IntervalFires 1; IntervalFires 1; ClickPause]
             (dispatch (ClickPreset 10) freshWidget))) =
    {| hours := 0; minutes := 10; seconds := 0 |}.
Proof. by apply (reset_restores_preset freshWidget 10). Defined.

(** ** The mount on a host *)

(** The first effect opens the audio context of the window before it stores
    the player.  Where the window has neither constructor the effect raises,
    and React removes a component whose effect raised: there is no widget. *)
Definition mountOn (window : Window) : Result AudioError (Widget AudioContext) :=
  mount <$> audioContext window.

Lemma mountOn_Inv (window : Window) (s : Widget AudioContext) :
  mountOn window = Ok s -> Inv s.
Proof.
  unfold mountOn. destruct (audioContext window); cbn; [|done].
  intros [= <-]. apply mount_Inv.
Qed.

Lemma mountOn_raises (window : Window) :
  mountOn window = Error TypeError <->
  standardAudioContext window = None /\ webkitAudioContext window = None.
Proof.
  rewrite <- audioContext_raises. unfold mountOn.
  destruct (audioContext window); cbn; naive_solver.
Qed.

(** ** Concrete countdowns *)

(** The widget after the text [0:02] is entered and Start is clicked. *)
Definition twoSeconds : Widget AudioContext :=
  run [InputChange "0:02"; ClickStart] (mount newAudioContext).

Lemma twoSeconds_counting : counting twoSeconds.
Proof. split; [unfold twoSeconds; eauto with timer|done]. Qed.

#[export] Hint Resolve twoSeconds_counting : timer.

Lemma countdown_completes_witness :
  ticks (Z.to_nat (ticksToZero (time twoSeconds))) twoSeconds
    = setTime zeroTime twoSeconds /\
  ticks (firingsToComplete twoSeconds + 0) twoSeconds = completedFrom twoSeconds.
Proof.
  apply (countdown_completes twoSeconds 0);
    [apply twoSeconds_counting|reflexivity].
Defined.

Lemma notified_once_witness :
  fired (notifier (ticks 5 twoSeconds)) =
    (fired (notifier twoSeconds)
     + if (firingsToComplete twoSeconds <=? 5)%nat then 1 else 0)%nat.
Proof.
  apply (notified_once twoSeconds 5); [apply twoSeconds_counting|reflexivity].
Defined.

(** The widget after the text [0:-5] is entered and Start is clicked. *)
Definition minusFive : Widget AudioContext :=
  run [InputChange "0:-5"; ClickStart] (mount newAudioContext).

Lemma minusFive_counting : counting minusFive.
Proof. split; [unfold minusFive; eauto with timer|done]. Qed.

#[export] Hint Resolve minusFive_counting : timer.

Lemma interval_fires_witness :
  dispatch (IntervalFires 1%positive) twoSeconds =
    if isZeroTime (time twoSeconds) then completedFrom twoSeconds
    else setTime (decrement (time twoSeconds)) twoSeconds.
Proof.
  apply (interval_fires twoSeconds 1%positive);
    [apply twoSeconds_counting|vm_compute; set_solver].
Defined.

Lemma countdown_runs_witness :
  ticks 1 twoSeconds =
    setTime (ofSeconds (totalSeconds (time twoSeconds) - Z.of_nat 1)) twoSeconds.
Proof.
  apply (countdown_runs twoSeconds 1);
    [apply twoSeconds_counting|reflexivity|vm_compute; discriminate].
Defined.

Lemma countdown_never_completes_witness :
  ticks 100 minusFive = setTime (countdown 100 (time minusFive)) minusFive /\
  isRunning (ticks 100 minusFive) = true /\
  isCompleted (ticks 100 minusFive) = false /\
  time (ticks 100 minusFive) <> zeroTime /\
  notifier (ticks 100 minusFive) = notifier minusFive.
Proof.
  apply (countdown_never_completes minusFive 100);
    [apply minusFive_counting|reflexivity].
Defined.

(** The same countdown on the silent device: the engine's theorems do not
    depend on the audio implementation. *)
Definition silentTwoSeconds : Widget Silent :=
  run [InputChange "0:02"; ClickStart] (mount {| count := 0 |}).

Lemma silentTwoSeconds_counting : counting silentTwoSeconds.
Proof. split; [unfold silentTwoSeconds; eauto with timer|done]. Qed.

Lemma silent_countdown_counts (k : nat) :
  count (notifier (ticks (firingsToComplete silentTwoSeconds + k) silentTwoSeconds)) = 1%nat.
Proof. by rewrite ticks_past_zero by (apply silentTwoSeconds_counting || done). Qed.
