(* ===== verification/View.v ===== *)
(** * The rendered view and the events it lets through

    What [CountdownTimer] of [src/src/App.tsx] returns, reduced to what
    depends on the state: the text field and whether it is disabled, the
    display with its text and its colour, the banner, the buttons with their
    [disabled] attributes, and the alert with its Dismiss button.  The
    whole tree, with class names, icons and texts, is [Markup.markup], and
    [Markup.markup_reads] shows that this view is what can be read in it.

    A control that is disabled, or not rendered, delivers no event.
    [enabled] is that rule, [ui_reachable] the states a user can bring the
    widget to, and the theorems relate the controls to the handlers behind
    them: a disabled control is one whose handler would do nothing, and an
    enabled Start or Pause always changes the state. *)

From stdpp Require Import gmap.
From S2P Require Import Prelude Duration Parser Notifier Engine.

(** ** The view *)

(** The three colourings of the display. *)
Inductive DisplayStyle : Type := StyleCompleted | StyleRunning | StyleIdle.

#[export] Instance DisplayStyle_eq_dec : EqDecision DisplayStyle.
Proof. solve_decision. Defined.

(** One preset button. *)
Record PresetButton : Type := mkPresetButton {
  presetLabel : string;
  presetValue : Z;
  presetDisabled : bool;
}.

Record View : Type := mkView {
  inputText : string;
  inputDisabled : bool;
  displayStyle : DisplayStyle;
  displayText : string;
  timesUpBanner : bool;
  startDisabled : bool;
  pauseDisabled : bool;
  resetDisabled : bool;
  presets : list PresetButton;
  alertShown : bool;
}.

Section Render.
Context {Dev : Type} `{!Notifier Dev}.
Implicit Types (s : Widget Dev) (e : Event).

(** The conditional class of the display: completed, else running, else
    neither. *)
Definition styleOf (s : Widget Dev) : DisplayStyle :=
  if isCompleted s then StyleCompleted
  else if isRunning s then StyleRunning
  else StyleIdle.

Definition render (s : Widget Dev) : View :=
  {| inputText := inputValue s;
     inputDisabled := isRunning s;
     displayStyle := styleOf s;
     displayText := formatTime (time s);
     timesUpBanner := isCompleted s;
     startDisabled := isRunning s || isZeroTime (time s);
     pauseDisabled := negb (isRunning s);
     resetDisabled := false;
     presets := (fun p => mkPresetButton (fst p) (snd p) (isRunning s)) <$> presetButtons;
     alertShown := showAlert s |}.

(** ** Events the view delivers *)

(** The view delivers an event when the control that raises it is rendered
    and not disabled; the host fires live intervals only. *)
Definition enabled (e : Event) (s : Widget Dev) : bool :=
  let v := render s in
  match e with
  | InputChange _ => negb (inputDisabled v)
  | ClickStart => negb (startDisabled v)
  | ClickPause => negb (pauseDisabled v)
  | ClickReset => negb (resetDisabled v)
  | ClickPreset mins =>
      existsb (fun b => (presetValue b =? mins) && negb (presetDisabled b)) (presets v)
  | ClickDismiss => alertShown v
  | IntervalFires h => bool_decide (h ∈ timers s)
  end.

(** The states a user and the host can bring the widget to. *)
Inductive ui_reachable : Widget Dev -> Prop :=
  | ui_mount (d : Dev) : ui_reachable (mount d)
  | ui_step (e : Event) (s : Widget Dev) :
      ui_reachable s -> enabled e s = true -> ui_reachable (dispatch e s).

(** Every event of a run is delivered by the view of the state it arrives
    in. *)
Fixpoint enabledRun (es : list Event) (s : Widget Dev) : bool :=
  match es with
  | [] => true
  | e :: es' => enabled e s && enabledRun es' (dispatch e s)
  end.

(** The minutes a preset button can select. *)
Definition presetValues : list Z := snd <$> presetButtons.

End Render.

#[export] Hint Constructors ui_reachable : timer.

(** The view shows the state variables only. *)
#[export] Instance render_proper {Dev : Type} :
  Proper (sameHooks ==> eq) (@render Dev).
Proof.
  intros s s' H. unfold render, styleOf.
  by rewrite (time_proper _ _ H), (isRunning_proper _ _ H),
    (isCompleted_proper _ _ H), (showAlert_proper _ _ H), (inputValue_proper _ _ H).
Qed.

(** [view_simpl]: the fields of a rendered view. *)
Ltac view_simpl :=
  unfold render in *;
  cbn [inputText inputDisabled displayStyle displayText timesUpBanner
       startDisabled pauseDisabled resetDisabled presets alertShown] in *.

(** ** The controls and their handlers *)

Section Controls.
Context {Dev : Type} `{!Notifier Dev}.
Implicit Types (s : Widget Dev) (e : Event).

Lemma ui_reachable_reachable s : ui_reachable s -> reachable s.
Proof. induction 1; by constructor. Qed.

Lemma ui_reachable_run (es : list Event) s :
  ui_reachable s -> enabledRun es s = true -> ui_reachable (run es s).
Proof.
  revert s. induction es as [|e es IH]; intros s Hs Hes; [done|].
  cbn [enabledRun] in Hes. apply andb_true_iff in Hes as [He Hes].
  apply IH; [by constructor|done].
Qed.

Lemma ui_reachable_Inv s : ui_reachable s -> Inv s.
Proof. intros. by apply reachable_Inv, ui_reachable_reachable. Qed.

Lemma enabled_preset s (mins : Z) :
  enabled (ClickPreset mins) s = true <-> isRunning s = false /\ mins ∈ presetValues.
Proof.
  unfold enabled, presetValues. view_simpl. rewrite existsb_exists. split.
  - intros (b & Hin & Hb). apply list_elem_of_In, list_elem_of_fmap in Hin
      as ([l m] & -> & Hin). cbn in Hb.
    apply andb_true_iff in Hb as [Hm Hr%negb_true_iff]. split; [done|].
    apply Z.eqb_eq in Hm as <-. apply list_elem_of_fmap. by exists (l, m).
  - intros [Hr ([l m] & -> & Hin)%list_elem_of_fmap].
    exists (mkPresetButton l m (isRunning s)). split.
    + apply list_elem_of_In, list_elem_of_fmap. by exists (l, m).
    + cbn. by rewrite Z.eqb_refl, Hr.
Qed.

(** The display is coloured by the status: completed, running, or
    neither; in a reachable state the first two exclude each other. *)
Theorem style_status s :
  reachable s ->
  (displayStyle (render s) = StyleCompleted <-> isCompleted s = true) /\
  (displayStyle (render s) = StyleRunning <-> isRunning s = true) /\
  (displayStyle (render s) = StyleIdle <->
     isRunning s = false /\ isCompleted s = false).
Proof.
  intros Hs. apply reachable_Inv in Hs as [[Hex _] _]. view_simpl. unfold styleOf.
  destruct (isRunning s), (isCompleted s); try done;
    repeat split; done || by intros [].
Qed.

(** C24. A disabled control is one whose handler would change nothing: in a
    reachable state, Start, Pause and every preset button do nothing when
    they are disabled, and the disabled text field only stores the text. *)
Theorem disabled_controls_noop s :
  reachable s ->
  (startDisabled (render s) = true -> dispatch ClickStart s = s) /\
  (pauseDisabled (render s) = true -> dispatch ClickPause s = s) /\
  (forall b, b ∈ presets (render s) -> presetDisabled b = true ->
     dispatch (ClickPreset (presetValue b)) s = s) /\
  (forall value, inputDisabled (render s) = true ->
     dispatch (InputChange value) s = setInputValue value s).
Proof.
  intros HI%reachable_Inv. view_simpl. repeat split.
  - intros [He|He]%orb_true_iff;
      [by apply start_running|by apply start_guard, isZeroTime_eq].
  - intros He%negb_true_iff. by apply pause_idle.
  - intros b (p & -> & _)%list_elem_of_fmap Hd. by apply preset_running.
  - intros value Hd. by apply input_running.
Qed.

(** An enabled Start or Pause always acts: in a reachable state Start
    sets the countdown running and Pause stops it. *)
Theorem enabled_controls_act s :
  reachable s ->
  (enabled ClickStart s = true -> isRunning (dispatch ClickStart s) = true) /\
  (enabled ClickPause s = true -> isRunning (dispatch ClickPause s) = false).
Proof.
  intros HI%reachable_Inv. unfold enabled. view_simpl. split.
  - intros [Hr Hz]%negb_true_iff%orb_false_iff.
    rewrite start_arms; [done..|]. intros E. by rewrite E in Hz.
  - rewrite negb_involutive. intros Hr. by rewrite pause_disarms.
Qed.

(** The banner is rendered exactly when the countdown is completed, and
    then the display reads [00:00]. *)
Theorem banner_completed s :
  reachable s ->
  timesUpBanner (render s) = true ->
  isCompleted s = true /\ displayText (render s) = "00:00".
Proof.
  intros [[_ Hz] _]%reachable_Inv. view_simpl. intros Hc.
  by rewrite (Hz Hc).
Qed.

(** C26. The alert is raised by the firing of a live interval that finds the
    duration at zero and by nothing else, and it is hidden by Dismiss and
    by Reset and by nothing else: a preset or an edit that clears the
    completed state leaves it on the screen. *)
Theorem alert_lifecycle s e :
  alertShown (render (dispatch e s)) =
    match e with
    | ClickReset | ClickDismiss => false
    | IntervalFires h =>
        alertShown (render s) || (bool_decide (h ∈ timers s) && isZeroTime (time s))
    | _ => alertShown (render s)
    end.
Proof.
  rewrite <- (dispatch_sameHooks e s). view_simpl.
  destruct e as [value| | | |mins| |h]; cbn [handler];
    unfold handleStart, handleInputChange, handlePreset, handleReset;
    try (by destruct (isZeroTime (time s)), (isRunning s)).
  destruct (decide (h ∈ timers s)) as [Hh|Hh];
    [rewrite bool_decide_eq_true_2 by done
    |rewrite bool_decide_eq_false_2, orb_false_r by done; done].
  destruct (isZeroTime (time s)) eqn:Hz;
    [rewrite intervalCallback_zero by done|rewrite intervalCallback_tick by done].
  - rewrite orb_true_r. by destruct s as [t r c a v ref [b|] T nx dev].
  - by rewrite orb_false_r.
Qed.

(** The six buttons, in order. *)
Lemma presets_values s : presetValue <$> presets (render s) = presetValues.
Proof. done. Qed.

End Controls.

(** ** Concrete views *)

Lemma style_status_witness :
  (displayStyle (render runningWidget) = StyleCompleted <->
     isCompleted runningWidget = true) /\
  (displayStyle (render runningWidget) = StyleRunning <->
     isRunning runningWidget = true) /\
  (displayStyle (render runningWidget) = StyleIdle <->
     isRunning runningWidget = false /\ isCompleted runningWidget = false).
Proof. apply (style_status runningWidget). eauto with timer. Defined.

Lemma disabled_controls_noop_witness :
  (startDisabled (render runningWidget) = true ->
     dispatch ClickStart runningWidget = runningWidget) /\
  (pauseDisabled (render runningWidget) = true ->
     dispatch ClickPause runningWidget = runningWidget) /\
  (forall b, b ∈ presets (render runningWidget) -> presetDisabled b = true ->
     dispatch (ClickPreset (presetValue b)) runningWidget = runningWidget) /\
  (forall value, inputDisabled (render runningWidget) = true ->
     dispatch (InputChange value) runningWidget = setInputValue value runningWidget).
Proof. apply (disabled_controls_noop runningWidget). eauto with timer. Defined.

Lemma enabled_controls_act_witness :
  (enabled ClickStart freshWidget = true ->
     isRunning (dispatch ClickStart freshWidget) = true) /\
  (enabled ClickPause freshWidget = true ->
     isRunning (dispatch ClickPause freshWidget) = false).
Proof. apply (enabled_controls_act freshWidget). unfold freshWidget. eauto with timer. Defined.

(** The widget a countdown of one second leaves. *)
Definition finishedWidget : Widget AudioContext :=
  run [InputChange "0:01"; ClickStart; IntervalFires 1; IntervalFires 1] freshWidget.

Lemma banner_completed_witness :
  isCompleted finishedWidget = true /\ displayText (render finishedWidget) = "00:00".
Proof.
  apply (banner_completed finishedWidget);
    [unfold finishedWidget, freshWidget; eauto with timer|vm_compute; reflexivity].
Defined.
