(* ===== verification/Markup.v ===== *)
(** * The markup

    The element tree [CountdownTimer] returns ([src/src/App.tsx], lines
    158-283), node by node: every element with its class, its attributes and
    its children, the icons, the static texts, the template strings of the
    two conditional classes, the two conditional subtrees and the buttons
    the list of presets is mapped to.  A handler attribute is the event the
    control raises: [onChange] of the text field an edit, [onClick] the
    click bound to the button.

    [View.render] is what the engine's theorems use of it.  The theorems
    here show that it is the markup read back: [viewOf] finds the text
    field, the display, the banner, the buttons and the alert in the tree
    and returns the view [render] computes from the state, and the events
    the tree can deliver (a handler on an element that is not disabled) are
    the events [enabled] lets through. *)

From stdpp Require Import gmap.
From S2P Require Import Prelude Duration Parser Notifier Engine View.

(** ** Elements *)

Inductive Attr : Type :=
  | className (c : string)
  | inputType (t : string)
  | value (v : string)
  | placeholder (p : string)
  | disabled (b : bool)
  | key (k : Z)
  | onChange                    (* handleInputChange, with the text typed *)
  | onClick (e : Event).        (* the click the handler stands for *)

Inductive Node : Type :=
  | element (tag : string) (attrs : list Attr) (children : list Node)
  | component (name : string) (attrs : list Attr)
  | text (s : string).

(** ** The returned tree *)

Section Markup.
Context {Dev : Type} `{!Notifier Dev}.
Implicit Types (s : Widget Dev) (e : Event) (n : Node).

(** The class of the display box and of the digits, by the status. *)
Definition boxClass (s : Widget Dev) : string :=
  "text-center mb-8 p-6 rounded-xl transition-all duration-500 " ++
  (if isCompleted s then "bg-red-100 border-2 border-red-300 animate-pulse"
   else if isRunning s then "bg-green-100 border-2 border-green-300"
   else "bg-gray-100 border-2 border-gray-300").

Definition digitsClass (s : Widget Dev) : string :=
  "text-5xl font-mono font-bold transition-colors duration-500 " ++
  (if isCompleted s then "text-red-600"
   else if isRunning s then "text-green-600"
   else "text-gray-800").

Definition header : Node :=
  element "div" [className "mb-8 text-center"]
    [element "div" [className "flex items-center justify-center mb-2"]
       [component "Timer" [className "w-8 h-8 mr-2 text-indigo-600"];
        element "h1" [className "text-3xl font-bold text-gray-800"] [text "Timer"]];
     element "p" [className "text-gray-600"] [text "Set your timer and stay focused"]].

Definition inputField (s : Widget Dev) : Node :=
  element "div" [className "mb-6"]
    [element "label" [className "block mb-2 text-sm font-medium text-gray-700"]
       [text "Enter Time (HH:MM:SS or MM:SS)"];
     element "div" [className "relative"]
       [component "Clock"
          [className "absolute w-5 h-5 text-gray-400 transform -translate-y-1/2 left-3 top-1/2"];
        element "input"
          [inputType "text";
           value (inputValue s);
           onChange;
           placeholder "05:00";
           className "w-full py-3 pl-10 pr-4 font-mono text-lg text-center border border-gray-300 rounded-lg focus:ring-2 focus:ring-indigo-500 focus:border-indigo-500";
           disabled (isRunning s)]
          []]].

Definition display (s : Widget Dev) : Node :=
  element "div" [className (boxClass s)]
    (element "div" [className (digitsClass s)] [text (formatTime (time s))] ::
     if isCompleted s
     then [element "div" [className "mt-2 font-semibold text-red-600 animate-bounce"]
             [text "⏰ Time's Up!"]]
     else []).

Definition controls (s : Widget Dev) : Node :=
  element "div" [className "flex justify-center mb-6 space-x-4"]
    [element "button"
       [onClick ClickStart;
        disabled (isRunning s || isZeroTime (time s));
        className "flex items-center px-6 py-3 text-white transition-colors duration-200 bg-green-600 rounded-lg hover:bg-green-700 disabled:bg-gray-400 disabled:cursor-not-allowed"]
       [component "Play" [className "w-5 h-5 mr-2"]; text "Start"];
     element "button"
       [onClick ClickPause;
        disabled (negb (isRunning s));
        className "flex items-center px-6 py-3 text-white transition-colors duration-200 bg-yellow-600 rounded-lg hover:bg-yellow-700 disabled:bg-gray-400 disabled:cursor-not-allowed"]
       [component "Pause" [className "w-5 h-5 mr-2"]; text "Pause"];
     element "button"
       [onClick ClickReset;
        className "flex items-center px-6 py-3 text-white transition-colors duration-200 bg-red-600 rounded-lg hover:bg-red-700"]
       [component "Square" [className "w-5 h-5 mr-2"]; text "Reset"]].

(** One button of [presetButtons.map]. *)
Definition presetNode (s : Widget Dev) (preset : string * Z) : Node :=
  element "button"
    [key (snd preset);
     onClick (ClickPreset (snd preset));
     disabled (isRunning s);
     className "px-3 py-2 text-sm text-indigo-700 transition-colors duration-200 bg-indigo-100 rounded-lg hover:bg-indigo-200 disabled:bg-gray-200 disabled:text-gray-400 disabled:cursor-not-allowed"]
    [text (fst preset)].

Definition quickPresets (s : Widget Dev) : Node :=
  element "div" [className "pt-6 border-t"]
    [element "h3" [className "mb-3 text-lg font-semibold text-center text-gray-700"]
       [text "Quick Presets"];
     element "div" [className "grid grid-cols-3 gap-2"]
       (presetNode s <$> presetButtons)].

Definition alert : Node :=
  element "div"
    [className "fixed inset-0 z-50 flex items-center justify-center bg-black bg-opacity-50"]
    [element "div" [className "max-w-sm p-6 mx-4 text-center bg-white rounded-xl animate-bounce"]
       [element "div" [className "mb-4 text-6xl"] [text "⏰"];
        element "h2" [className "mb-2 text-2xl font-bold text-gray-800"] [text "Time's Up!"];
        element "p" [className "mb-4 text-gray-600"]
          [text "Your countdown timer has finished."];
        element "button"
          [onClick ClickDismiss;
           className "px-6 py-2 text-white transition-colors duration-200 bg-indigo-600 rounded-lg hover:bg-indigo-700"]
          [text "Dismiss"]]].

(** [return (...)]. *)
Definition markup (s : Widget Dev) : Node :=
  element "div"
    [className "flex items-center justify-center min-h-screen p-4 bg-gradient-to-br from-blue-50 to-indigo-100"]
    [element "div" [className "w-full max-w-md p-8 bg-white shadow-2xl rounded-2xl"]
       ([header; inputField s; display s; controls s; quickPresets s] ++
        if showAlert s then [alert] else [])].

End Markup.

(** ** Reading a tree *)

(** The elements of a tree, in document order. *)
Fixpoint elements (n : Node) : list Node :=
  match n with
  | element _ _ children => n :: flat_map elements children
  | _ => []
  end.

(** The text of a tree. *)
Fixpoint textContent (n : Node) : string :=
  match n with
  | element _ _ children => String.concat "" (map textContent children)
  | component _ _ => ""
  | text s => s
  end.

Definition attrsOf (n : Node) : list Attr :=
  match n with
  | element _ attrs _ | component _ attrs => attrs
  | text _ => []
  end.

Definition tagOf (n : Node) : string :=
  match n with element tag _ _ => tag | _ => "" end.

Definition classOf (n : Node) : string :=
  from_option id "" (head (omap (fun a => match a with className c => Some c | _ => None end)
                             (attrsOf n))).

Definition valueOf (n : Node) : string :=
  from_option id "" (head (omap (fun a => match a with value v => Some v | _ => None end)
                             (attrsOf n))).

(** An element without the attribute is not disabled. *)
Definition isDisabled (n : Node) : bool :=
  existsb (fun a => match a with disabled b => b | _ => false end) (attrsOf n).

(** The click of a handler attribute is the click of the event. *)
Definition sameClick (e1 e2 : Event) : bool :=
  match e1, e2 with
  | ClickStart, ClickStart | ClickPause, ClickPause | ClickReset, ClickReset
  | ClickDismiss, ClickDismiss => true
  | ClickPreset m1, ClickPreset m2 => m1 =? m2
  | _, _ => false
  end.

(** The element raises the event when it is activated. *)
Definition raises (n : Node) (e : Event) : bool :=
  existsb (fun a => match a, e with
                    | onChange, InputChange _ => true
                    | onClick e', _ => sameClick e' e
                    | _, _ => false
                    end) (attrsOf n).

(** The tree can deliver the event: an element raises it and is not
    disabled.  A disabled control raises nothing, and an element that is
    not rendered is not there. *)
Definition delivers (n : Node) (e : Event) : bool :=
  existsb (fun c => raises c e && negb (isDisabled c)) (elements n).

(** The first element that satisfies a test. *)
Definition findElement (p : Node -> bool) (n : Node) : option Node :=
  head (List.filter p (elements n)).

Definition hasTag (tag : string) (n : Node) : bool := String.eqb (tagOf n) tag.

Definition hasClass (c : string) (n : Node) : bool := String.eqb (classOf n) c.

Definition classPrefix (c : string) (n : Node) : bool := String.prefix c (classOf n).

Definition classSuffix (c : string) (n : Node) : bool :=
  let k := String.length (classOf n) in
  String.eqb (String.substring (k - String.length c)%nat (String.length c) (classOf n)) c.

(** The preset a button selects. *)
Definition presetOf (n : Node) : option PresetButton :=
  head (omap (fun a => match a with
                       | onClick (ClickPreset mins) =>
                           Some (mkPresetButton (textContent n) mins (isDisabled n))
                       | _ => None
                       end) (attrsOf n)).

(** The view a tree shows. *)
Definition viewOf (n : Node) : View :=
  let input := findElement (hasTag "input") n in
  let digits := findElement (classPrefix "text-5xl ") n in
  {| inputText := from_option valueOf "" input;
     inputDisabled := from_option isDisabled false input;
     displayStyle :=
       if from_option (classSuffix "text-red-600") false digits then StyleCompleted
       else if from_option (classSuffix "text-green-600") false digits then StyleRunning
       else StyleIdle;
     displayText := from_option textContent "" digits;
     timesUpBanner :=
       existsb (hasClass "mt-2 font-semibold text-red-600 animate-bounce") (elements n);
     startDisabled := from_option isDisabled false (findElement (fun c => raises c ClickStart) n);
     pauseDisabled := from_option isDisabled false (findElement (fun c => raises c ClickPause) n);
     resetDisabled := from_option isDisabled false (findElement (fun c => raises c ClickReset) n);
     presets := omap presetOf (elements n);
     alertShown := existsb (fun c => raises c ClickDismiss) (elements n) |}.

(** ** The view is the markup read back *)

(** [markup_unfold]: the tree and the view of an explicit state, with the
    parts that depend on the state in sight. *)
Ltac markup_unfold :=
  unfold markup, display, controls, inputField, quickPresets, presetNode,
    boxClass, digitsClass, render, styleOf;
  engine_simpl.

Section Reading.
Context {Dev : Type} `{!Notifier Dev}.
Implicit Types (s : Widget Dev) (e : Event).

(** C18. The view and the events the engine's theorems use are the returned
    markup read back.  In every state, the text field with its value and
    its [disabled] attribute, the class and the text of the display, the
    banner, the [disabled] attributes of Start, Pause and Reset, the six
    preset buttons and the alert found in the element tree are the fields
    of [render]; and the events the tree can deliver are the events
    [enabled] lets through: an edit unless the text field is disabled,
    Start, Pause and a preset unless their button is, Reset always, Dismiss
    while the alert is rendered, and never the firing of the interval. *)
Theorem markup_reads s e :
  viewOf (markup s) = render s /\
  delivers (markup s) e =
    (match e with IntervalFires _ => false | _ => enabled e s end).
Proof.
  destruct s as [t r c a v ref b T nx dev]. unfold enabled. markup_unfold.
  generalize (formatTime t) (isZeroTime t). intros digits zero. split.
  - destruct r, c, a, zero; vm_compute; reflexivity.
  - destruct e, r, c, a, zero;
      first [vm_compute; reflexivity | cbn; by rewrite ?orb_false_r].
Qed.

End Reading.
