(* ===== verification/Refinement.v ===== *)
(** * The specified timer and the refinement

    [Spec] is the countdown engine as the specification describes it: one
    status out of three, a duration and the input text, with the commands
    Start, Pause, Reset, Tick, preset selection, input edits and Dismiss.
    [abs] reads a state of the widget as a state of the specified timer,
    the status from the two booleans.

    The refinement theorems say that every event of the widget is the
    corresponding command of the specified timer, for all events but those
    the code treats differently: an edit or a preset on a completed
    countdown (honoured by the code, ignored by the specification) and an
    edit while the countdown runs (the code stores the text).  The last
    theorems state these differences on every well-formed state, and the
    concrete runs at the end apply them to states the view can reach. *)

From stdpp Require Import gmap.
From S2P Require Import Prelude Duration Parser Notifier Engine View.

(** ** The specified timer *)

Module Spec.

Inductive TimerStatus : Type := Idle | Running | Completed.

#[export] Instance TimerStatus_eq_dec : EqDecision TimerStatus.
Proof. solve_decision. Defined.

Record Timer : Type := mkTimer {
  status : TimerStatus;
  duration : TimeState;
  text : string;                 (* InputText *)
  notifications : nat;           (* how often the notifier was signalled *)
}.

#[export] Instance Timer_eq_dec : EqDecision Timer.
Proof. solve_decision. Defined.

Inductive Command : Type :=
  | Start
  | Pause
  | Reset
  | Tick
  | SelectPreset (mins : Z)
  | EditInput (value : string)
  | Dismiss.

(** The default duration of five minutes, idle. *)
Definition initial (notified : nat) : Timer :=
  {| status := Idle; duration := {| hours := 0; minutes := 5; seconds := 0 |};
     text := "05:00"; notifications := notified |}.

Definition isRunning (a : Timer) : bool := bool_decide (status a = Running).
Definition isIdle (a : Timer) : bool := bool_decide (status a = Idle).

(** One command. *)
Definition step (c : Command) (a : Timer) : Timer :=
  match c with
  | Start =>
      if negb (isZeroTime (duration a)) && negb (isRunning a)
      then mkTimer Running (duration a) (text a) (notifications a)
      else a
  | Pause =>
      if isRunning a then mkTimer Idle (duration a) (text a) (notifications a)
      else a
  | Reset => mkTimer Idle (parseTimeInput (text a)) (text a) (notifications a)
  | Tick =>
      if isRunning a then
        if isZeroTime (duration a)
        then mkTimer Completed (duration a) (text a) (S (notifications a))
        else mkTimer Running (decrement (duration a)) (text a) (notifications a)
      else a
  | SelectPreset mins =>
      if isIdle a then
        let d := {| hours := 0; minutes := mins; seconds := 0 |} in
        mkTimer Idle d (formatTime d) (notifications a)
      else a
  | EditInput value =>
      if isIdle a then mkTimer Idle (parseTimeInput value) value (notifications a)
      else a
  | Dismiss => a
  end.

(** A sequence of commands, first to last. *)
Definition steps (cs : list Command) (a : Timer) : Timer :=
  foldl (fun a c => step c a) a cs.

End Spec.

(** ** The abstraction *)

Section Abstraction.
Context {Dev : Type} `{!Notifier Dev}.
Implicit Types (s : Widget Dev) (e : Event).

(** The status the two booleans stand for. *)
Definition statusOf (s : Widget Dev) : Spec.TimerStatus :=
  if isCompleted s then Spec.Completed
  else if isRunning s then Spec.Running
  else Spec.Idle.

Definition abs (s : Widget Dev) : Spec.Timer :=
  {| Spec.status := statusOf s; Spec.duration := time s;
     Spec.text := inputValue s; Spec.notifications := fired (notifier s) |}.

(** The command an event stands for; the firing of an interval that is not
    live is no command. *)
Definition command (e : Event) (s : Widget Dev) : option Spec.Command :=
  match e with
  | InputChange value => Some (Spec.EditInput value)
  | ClickStart => Some Spec.Start
  | ClickPause => Some Spec.Pause
  | ClickReset => Some Spec.Reset
  | ClickPreset mins => Some (Spec.SelectPreset mins)
  | ClickDismiss => Some Spec.Dismiss
  | IntervalFires h => if decide (h ∈ timers s) then Some Spec.Tick else None
  end.

Definition stepOpt (c : option Spec.Command) (a : Spec.Timer) : Spec.Timer :=
  match c with Some c => Spec.step c a | None => a end.

(** The events on which code and specification agree: every event except an
    edit or a preset on a completed countdown and an edit on a running
    one. *)
Definition conforming (e : Event) (s : Widget Dev) : bool :=
  match e with
  | InputChange _ => negb (isCompleted s) && negb (isRunning s)
  | ClickPreset _ => negb (isCompleted s)
  | _ => true
  end.

End Abstraction.

(** The abstraction reads the state variables and the device only. *)
#[export] Instance abs_proper {Dev : Type} `{!Notifier Dev} :
  Proper (sameHooks ==> eq) (abs (Dev:=Dev)).
Proof.
  intros s s' H. unfold abs, statusOf.
  by rewrite (time_proper _ _ H), (isRunning_proper _ _ H),
    (isCompleted_proper _ _ H), (inputValue_proper _ _ H), (notifier_proper _ _ H).
Qed.

(** ** Events are commands *)

Section Refines.
Context {Dev : Type} `{!Notifier Dev}.
Implicit Types (s : Widget Dev) (e : Event) (es : list Event).

Lemma abs_isRunning s : Inv s -> Spec.isRunning (abs s) = isRunning s.
Proof.
  intros [[Hex _] _]. unfold Spec.isRunning, abs, statusOf. cbn.
  by destruct (isRunning s), (isCompleted s).
Qed.

Lemma abs_isIdle s :
  Spec.isIdle (abs s) = negb (isCompleted s) && negb (isRunning s).
Proof.
  unfold Spec.isIdle, abs, statusOf. cbn.
  by destruct (isRunning s), (isCompleted s).
Qed.

Lemma abs_mount (d : Dev) : abs (mount d) = Spec.initial (fired d).
Proof. done. Qed.

(** The abstraction sees the state variables and the device only, which an
    event changes as its handler does. *)
Lemma abs_dispatch s e : abs (dispatch e s) = abs (handler e s s).
Proof. by rewrite <- (dispatch_sameHooks e s). Qed.

(** The callback of a live interval is the command Tick. *)
Lemma refines_tick s :
  Inv s -> isRunning s = true ->
  abs (intervalCallback s) = Spec.step Spec.Tick (abs s).
Proof.
  intros HI Hrun. cbn [Spec.step]. rewrite abs_isRunning, Hrun by done.
  change (Spec.duration (abs s)) with (time s).
  destruct (Inv_running s HI Hrun) as (h & _ & _ & Hc).
  destruct (isZeroTime (time s)) eqn:Hz.
  - rewrite intervalCallback_zero by done.
    destruct HI as [_ [_ Hb]]. destruct s. engine_simpl. subst.
    unfold abs, statusOf. engine_eval. by rewrite fired_fire.
  - rewrite intervalCallback_tick by done.
    unfold abs, statusOf. cbn. by rewrite Hc, Hrun.
Qed.

(** The handlers of the user's events are their commands. *)
Lemma refines_handler s e :
  Inv s -> conforming e s = true -> (forall h, e <> IntervalFires h) ->
  abs (handler e s s) = stepOpt (command e s) (abs s).
Proof.
  intros [[Hex _] _] Hconf Hne.
  destruct e; try (by destruct (Hne h));
    cbn [command stepOpt Spec.step conforming handler] in *;
    rewrite ?abs_isIdle; unfold Spec.isRunning;
    destruct s as [t r c a v ref b T nx dev]; unfold abs, statusOf;
    unfold handleStart, handleInputChange, handlePreset, handleReset;
    engine_simpl; cbn [Spec.duration Spec.status];
    destruct (isZeroTime t), r, c; by engine_eval.
Qed.

(** Every event on which code and specification agree is the command it
    stands for: the abstraction of the state after the event is the
    specified timer after the command. *)
Lemma refines_step s e :
  Inv s -> conforming e s = true ->
  abs (dispatch e s) = stepOpt (command e s) (abs s).
Proof.
  intros HI Hconf. rewrite abs_dispatch.
  destruct e as [value| | | |mins| |h]; try by apply refines_handler.
  cbn [handler command]. destruct (decide (h ∈ timers s)) as [Hh|Hh]; [|done].
  apply refines_tick; [done|]. by apply (live_interval s h).
Qed.

(** The commands of a run of events. *)
Fixpoint commands (es : list Event) (s : Widget Dev) : list Spec.Command :=
  match es with
  | [] => []
  | e :: es' => option_list (command e s) ++ commands es' (dispatch e s)
  end.

(** Every event of the run is one on which code and specification agree. *)
Fixpoint conformingRun (es : list Event) (s : Widget Dev) : bool :=
  match es with
  | [] => true
  | e :: es' => conforming e s && conformingRun es' (dispatch e s)
  end.

(** C5. The widget refines the specified timer: on a well-formed state, a
    run of events on which code and specification agree is the run of its
    commands on the specified timer. *)
Theorem refines_run es s :
  Inv s -> conformingRun es s = true ->
  abs (run es s) = Spec.steps (commands es s) (abs s).
Proof.
  revert s. induction es as [|e es IH]; intros s HI Hconf; [done|].
  cbn in Hconf. apply andb_true_iff in Hconf as [He Hes].
  cbn [run foldl commands]. unfold Spec.steps. rewrite foldl_app.
  fold (run es (dispatch e s)). rewrite IH by (done || by apply dispatch_Inv).
  unfold Spec.steps. f_equal. rewrite refines_step by done.
  by destruct (command e s).
Qed.

(** Every event the view delivers agrees with the specification, except
    edits and presets on a completed countdown. *)
Lemma enabled_conforming s e :
  enabled e s = true -> isCompleted s = false -> conforming e s = true.
Proof.
  intros He Hc. destruct e; cbn in *; by rewrite ?Hc.
Qed.

(** Through the view the widget is the specified timer until the
    countdown completes: every event the view delivers in a state that is
    not completed is the command it stands for. *)
Theorem view_refines s e :
  ui_reachable s -> enabled e s = true -> isCompleted s = false ->
  abs (dispatch e s) = stepOpt (command e s) (abs s).
Proof.
  intros Hs He Hc. apply refines_step; [by apply ui_reachable_Inv|].
  by apply enabled_conforming.
Qed.

End Refines.

(** ** Where the code departs from the specification *)

Section Divergences.
Context {Dev : Type} `{!Notifier Dev}.
Implicit Types (s : Widget Dev) (e : Event).

Lemma completed_idle s : Inv s -> isCompleted s = true -> isRunning s = false.
Proof. intros [[Hex _] _] Hc. rewrite Hc in Hex. by destruct (isRunning s). Qed.

(** C21. A preset on a completed countdown: the specified timer ignores it
    and stays Completed, the widget honours it and becomes Idle with the
    preset's duration. *)
Theorem completed_honours_preset s (mins : Z) :
  Inv s -> isCompleted s = true ->
  Spec.step (Spec.SelectPreset mins) (abs s) = abs s /\
  abs (dispatch (ClickPreset mins) s) =
    Spec.mkTimer Spec.Idle {| hours := 0; minutes := mins; seconds := 0 |}
      (formatTime {| hours := 0; minutes := mins; seconds := 0 |})
      (fired (notifier s)).
Proof.
  intros HI Hc. pose proof (completed_idle s HI Hc) as Hr. split.
  - cbn [Spec.step]. by rewrite abs_isIdle, Hc.
  - by rewrite preset_idle.
Qed.

(** C22. An edit of the text on a completed countdown: the specified timer
    ignores it and stays Completed, the widget honours it and becomes Idle
    with the duration the text parses to. *)
Theorem completed_honours_edit s (value : string) :
  Inv s -> isCompleted s = true ->
  Spec.step (Spec.EditInput value) (abs s) = abs s /\
  abs (dispatch (InputChange value) s) =
    Spec.mkTimer Spec.Idle (parseTimeInput value) value (fired (notifier s)).
Proof.
  intros HI Hc. pose proof (completed_idle s HI Hc) as Hr. split.
  - cbn [Spec.step]. by rewrite abs_isIdle, Hc.
  - by rewrite input_idle.
Qed.

(** C23. An edit of the text while the countdown runs, which the view
    prevents and the handler accepts: the specified timer ignores it, the
    widget stores the text, and the next Reset restores the duration the
    new text parses to. *)
Theorem running_edit_stores_text s (value : string) :
  Inv s -> isRunning s = true ->
  enabled (InputChange value) s = false /\
  Spec.step (Spec.EditInput value) (abs s) = abs s /\
  abs (dispatch (InputChange value) s) =
    Spec.mkTimer Spec.Running (time s) value (fired (notifier s)) /\
  time (dispatch ClickReset (dispatch (InputChange value) s)) = parseTimeInput value.
Proof.
  intros HI Hr. destruct (Inv_running s HI Hr) as (h & _ & _ & Hc).
  pose proof (dispatch_Inv (InputChange value) s HI) as HI'.
  repeat split.
  - cbn. by rewrite Hr.
  - cbn [Spec.step]. by rewrite abs_isIdle, Hr, andb_false_r.
  - rewrite input_running by done. unfold abs, statusOf. cbn. by rewrite Hc, Hr.
  - rewrite <- (dispatch_sameHooks ClickReset). by rewrite input_running.
Qed.

End Divergences.

(** ** Concrete runs *)

(** A run that enters two seconds, starts, lets the interval fire three
    times and resets; and the widget a completed countdown leaves. *)
Definition sampleRun : list Event :=
  [InputChange "0:02"; ClickStart; IntervalFires 1; ClickPause; ClickStart;
   IntervalFires 2; IntervalFires 2; IntervalFires 2; ClickDismiss; ClickReset].

Definition completedWidget : Widget AudioContext :=
  run [InputChange "0:02"; ClickStart; IntervalFires 1; IntervalFires 1;
       IntervalFires 1] (mount newAudioContext).

Lemma completedWidget_ui_reachable : ui_reachable completedWidget.
Proof. apply ui_reachable_run; [constructor|by vm_compute]. Qed.

Lemma refines_run_witness :
  abs (run sampleRun (mount newAudioContext)) =
    Spec.steps (commands sampleRun (mount newAudioContext))
      (abs (mount newAudioContext)).
Proof. apply (refines_run sampleRun); [apply mount_Inv|vm_compute; reflexivity]. Defined.

Lemma view_refines_witness :
  abs (dispatch ClickStart (mount newAudioContext)) =
    stepOpt (command ClickStart (mount newAudioContext)) (abs (mount newAudioContext)).
Proof.
  apply (view_refines (mount newAudioContext) ClickStart);
    [constructor|vm_compute; reflexivity|reflexivity].
Defined.

Lemma completed_honours_preset_witness :
  Spec.step (Spec.SelectPreset 5) (abs completedWidget) = abs completedWidget /\
  abs (dispatch (ClickPreset 5) completedWidget) =
    Spec.mkTimer Spec.Idle {| hours := 0; minutes := 5; seconds := 0 |}
      (formatTime {| hours := 0; minutes := 5; seconds := 0 |})
      (fired (notifier completedWidget)).
Proof.
  apply (completed_honours_preset completedWidget 5);
    [apply ui_reachable_Inv, completedWidget_ui_reachable|vm_compute; reflexivity].
Defined.

Lemma completed_honours_edit_witness :
  Spec.step (Spec.EditInput "1:00") (abs completedWidget) = abs completedWidget /\
  abs (dispatch (InputChange "1:00") completedWidget) =
    Spec.mkTimer Spec.Idle (parseTimeInput "1:00") "1:00"
      (fired (notifier completedWidget)).
Proof.
  apply (completed_honours_edit completedWidget "1:00");
    [apply ui_reachable_Inv, completedWidget_ui_reachable|vm_compute; reflexivity].
Defined.

Lemma running_edit_stores_text_witness :
  enabled (InputChange "9:00") twoSeconds = false /\
  Spec.step (Spec.EditInput "9:00") (abs twoSeconds) = abs twoSeconds /\
  abs (dispatch (InputChange "9:00") twoSeconds) =
    Spec.mkTimer Spec.Running (time twoSeconds) "9:00" (fired (notifier twoSeconds)) /\
  time (dispatch ClickReset (dispatch (InputChange "9:00") twoSeconds)) =
    parseTimeInput "9:00".
Proof.
  apply (running_edit_stores_text twoSeconds "9:00");
    [apply twoSeconds_counting|vm_compute; reflexivity].
Defined.
