(* ===== verification/Typing.v ===== *)
(** * The Duration type, and the inputs that keep it

    The specification types a Duration as three integers that are not
    negative.  Nothing in [src/src/App.tsx] enforces it: [parseTimeInput]
    reads a sign, and [decrement] has no branch that repairs a negative
    field.  This file says when the type is kept.  A text is plain when it
    is made of digits and colons, which is what the field asks for
    ([HH:MM:SS] or [MM:SS]); an event is plain when it is not an edit to a
    text that is not plain nor a preset of negative minutes.  A state is
    well typed when its duration has no negative field and its input text
    parses to such a duration, the second because Reset parses the text
    again.

    The theorems: every handler and the interval callback keep well-typed
    states well typed under plain events, so every state reached by plain
    events is well typed; the view only offers presets that are plain; and
    a countdown started from such a state completes, after one firing per
    second of its total and one more. *)

From stdpp Require Import gmap.
From S2P Require Import Prelude JsString JsNumber Duration Parser Notifier.
From S2P Require Import Engine View.

Section Typing.
Context {Dev : Type} `{!Notifier Dev}.
Implicit Types (s : Widget Dev) (e : Event) (es : list Event).

(** The duration is a Duration of the specification, and so is what the
    input text parses to. *)
Definition wellTyped (s : Widget Dev) : bool :=
  nonNegative (time s) && nonNegative (parseTimeInput (inputValue s)).

(** Edits to plain texts, presets that are not negative, and every other
    event. *)
Definition plainEvent (e : Event) : bool :=
  match e with
  | InputChange value => plainText value
  | ClickPreset mins => 0 <=? mins
  | _ => true
  end.

Definition plainRun (es : list Event) : bool := forallb plainEvent es.

(** ** Preservation *)

Lemma preset_nonNegative (mins : Z) :
  0 <= mins -> nonNegative {| hours := 0; minutes := mins; seconds := 0 |} = true.
Proof. intros H. unfold nonNegative. cbn. lia. Qed.

(** The interval callback only ticks or leaves the duration at zero. *)
Lemma intervalCallback_wellTyped s :
  wellTyped s = true -> wellTyped (intervalCallback s) = true.
Proof.
  unfold wellTyped. intros [Ht Hi]%andb_true_iff.
  destruct (isZeroTime (time s)) eqn:Hz.
  - rewrite intervalCallback_zero by done.
    destruct s as [t r c a v ref [b|] T nx dev]; engine_eval; rewrite Ht, Hi; done.
  - rewrite intervalCallback_tick by done. cbn.
    by rewrite decrement_nonNegative, Hi.
Qed.

Lemma handler_wellTyped e s :
  plainEvent e = true -> wellTyped s = true -> wellTyped (handler e s s) = true.
Proof.
  unfold wellTyped. intros He [Ht Hi]%andb_true_iff.
  destruct e as [value| | | |mins| |h]; cbn [handler plainEvent] in *;
    try (destruct (decide (h ∈ timers s));
         [by apply intervalCallback_wellTyped, andb_true_iff|]);
    try apply parseTimeInput_plain in He;
    try (pose proof (preset_nonNegative mins ltac:(lia)) as Hm;
         pose proof (parse_format {| hours := 0; minutes := mins; seconds := 0 |}
                       ltac:(done)) as Hpf);
    destruct s as [t r c a v ref b T nx dev];
    unfold handleStart, handleInputChange, handlePreset, handleReset;
    engine_simpl; destruct (isZeroTime t), r; engine_eval;
    rewrite ?Hpf, ?Hm, ?He, ?Ht, ?Hi; done.
Qed.

Lemma dispatch_wellTyped e s :
  plainEvent e = true -> wellTyped s = true -> wellTyped (dispatch e s) = true.
Proof.
  intros He Hs. unfold wellTyped. rewrite <- (dispatch_sameHooks e s).
  by apply handler_wellTyped.
Qed.

Lemma mount_wellTyped (d : Dev) : wellTyped (mount d) = true.
Proof. done. Qed.

Lemma run_wellTyped es s :
  plainRun es = true -> wellTyped s = true -> wellTyped (run es s) = true.
Proof.
  revert s. induction es as [|e es IH]; intros s Hes Hs; [done|].
  cbn in Hes. apply andb_true_iff in Hes as [He Hes].
  apply IH; [done|by apply dispatch_wellTyped].
Qed.

(** ** The view delivers plain presets *)

(** What the user chooses: the texts. *)
Definition plainInput (e : Event) : bool :=
  match e with InputChange value => plainText value | _ => true end.

Lemma enabled_plainEvent e s :
  enabled e s = true -> plainInput e = true -> plainEvent e = true.
Proof.
  destruct e as [value| | | |mins| |h]; try done. intros He _.
  apply enabled_preset in He as [_ Hin]. cbn.
  unfold presetValues, presetButtons in Hin. cbn in Hin.
  repeat (apply elem_of_cons in Hin as [->|Hin]; [done|]).
  by apply elem_of_nil in Hin.
Qed.

Lemma enabledRun_plainRun es s :
  enabledRun es s = true -> forallb plainInput es = true -> plainRun es = true.
Proof.
  unfold plainRun. revert s. induction es as [|e es IH]; intros s Hen Hpl; [done|].
  cbn in *. apply andb_true_iff in Hen as [He Hen].
  apply andb_true_iff in Hpl as [Hp Hpl].
  by rewrite (enabled_plainEvent e s), (IH (dispatch e s)).
Qed.

(** C17. The Duration type is kept through the view: whatever the user does
    with the rendered controls, as long as the texts typed are made of
    digits and colons, the duration has no negative field, and neither has
    what the input text parses to. *)
Theorem view_run_wellTyped (d : Dev) es :
  enabledRun es (mount d) = true -> forallb plainInput es = true ->
  wellTyped (run es (mount d)) = true.
Proof.
  intros Hen Hpl. apply run_wellTyped; [|apply mount_wellTyped].
  by apply (enabledRun_plainRun es (mount d)).
Qed.

(** A countdown that runs on a well-typed state completes: one firing
    for each second of its total brings the duration to zero, the next
    completes the countdown and fires the notifier, once, and later firings
    change nothing. *)
Theorem typed_countdown_completes s (k : nat) :
  wellTyped s = true -> counting s ->
  ticks (Z.to_nat (totalSeconds (time s))) s = setTime zeroTime s /\
  ticks (S (Z.to_nat (totalSeconds (time s))) + k) s = completedFrom s /\
  fired (notifier (ticks (S (Z.to_nat (totalSeconds (time s))) + k) s))
    = S (fired (notifier s)).
Proof.
  intros [Ht _]%andb_true_iff Hc.
  pose proof (nonNegative_lexNonNegative _ Ht) as Hlex.
  pose proof (ticks_to_zero s Hc Hlex) as H1.
  pose proof (ticks_past_zero s k Hc Hlex) as H2.
  unfold firingsToComplete in H2. rewrite ticksToZero_totalSeconds in H1, H2 by done.
  repeat split; [done..|]. rewrite H2. cbn. apply fired_fire.
Qed.

End Typing.

(** ** A concrete session *)

(** Ninety seconds typed in, started and paused, a preset chosen and
    started. *)
Definition plainSession : list Event :=
  [InputChange "1:30"; ClickStart; IntervalFires 1; ClickPause;
   ClickPreset 1; ClickStart].

Lemma view_run_wellTyped_witness :
  wellTyped (run plainSession (mount newAudioContext)) = true.
Proof. by apply (view_run_wellTyped newAudioContext plainSession). Defined.

Lemma typed_countdown_completes_witness :
  ticks (Z.to_nat (totalSeconds (time twoSeconds))) twoSeconds
    = setTime zeroTime twoSeconds /\
  ticks (S (Z.to_nat (totalSeconds (time twoSeconds))) + 1) twoSeconds
    = completedFrom twoSeconds /\
  fired (notifier (ticks (S (Z.to_nat (totalSeconds (time twoSeconds))) + 1) twoSeconds))
    = S (fired (notifier twoSeconds)).
Proof.
  apply (typed_countdown_completes twoSeconds 1); [reflexivity|eauto with timer].
Defined.

