(* ===== verification/Scheduler.v ===== *)
(** * React's update queue, and how often an updater runs

    [Engine] reads a handler as the composition of its set calls.  React
    does something else with [src/src/App.tsx]: a set call made by a handler
    changes nothing at once; it puts an update on the queue of its state
    variable, and the next render settles every queue, variable by variable
    in the order of the [useState] calls, a value replacing the state and an
    updater being applied to it.  Set calls made by an updater, which runs
    while React renders, are settled by a second render before the commit.
    In development under StrictMode React calls every updater twice and
    keeps one result.

    This file writes the handlers once more, as the lists of calls they
    make ([calls]), gives those lists React's semantics ([commit], in a
    [Mode]), and proves that in production the committed state is the one
    [Engine] computes, for every event and every state.  That is a fact
    about this program and not about React: [commit_order_matters] is a
    list of calls for which the two readings differ.  In StrictMode the
    state variables are still the same, because the set calls of the updater
    of the interval callback are idempotent, but its call of [play] is not:
    a countdown that completes beeps twice. *)

From stdpp Require Import gmap.
From S2P Require Import Prelude JsString JsNumber Duration Parser Notifier.
From S2P Require Import Engine.

(** ** Calls *)

(** A call of a set function with a value. *)
Inductive SetCall : Type :=
  | SetTime (t : TimeState)
  | SetIsRunning (b : bool)
  | SetIsCompleted (b : bool)
  | SetShowAlert (b : bool)
  | SetInputValue (value : string).

(** What an updater does besides returning: set calls and the beep. *)
Inductive Effect : Type :=
  | ESet (c : SetCall)
  | EPlay.

(** What a handler does: effects, and [setTime] with an updater. *)
Inductive Call : Type :=
  | CDo (eff : Effect)
  | CSetTimeWith (updater : TimeState -> list Effect * TimeState).

(** An update waiting on the queue of [time]. *)
Inductive TimeUpdate : Type :=
  | TValue (t : TimeState)
  | TUpdater (updater : TimeState -> list Effect * TimeState).

(** The queues of the five state variables, oldest update first. *)
Record Queue : Type := mkQueue {
  qTime : list TimeUpdate;
  qIsRunning : list bool;
  qIsCompleted : list bool;
  qShowAlert : list bool;
  qInputValue : list string;
}.

Definition emptyQueue : Queue := mkQueue [] [] [] [] [].

(** A set call with a value appends to the queue of its variable. *)
Definition enqueue (c : SetCall) (q : Queue) : Queue :=
  match c with
  | SetTime t =>
      mkQueue (qTime q ++ [TValue t]) (qIsRunning q) (qIsCompleted q)
        (qShowAlert q) (qInputValue q)
  | SetIsRunning b =>
      mkQueue (qTime q) (qIsRunning q ++ [b]) (qIsCompleted q)
        (qShowAlert q) (qInputValue q)
  | SetIsCompleted b =>
      mkQueue (qTime q) (qIsRunning q) (qIsCompleted q ++ [b])
        (qShowAlert q) (qInputValue q)
  | SetShowAlert b =>
      mkQueue (qTime q) (qIsRunning q) (qIsCompleted q)
        (qShowAlert q ++ [b]) (qInputValue q)
  | SetInputValue value =>
      mkQueue (qTime q) (qIsRunning q) (qIsCompleted q)
        (qShowAlert q) (qInputValue q ++ [value])
  end.

Definition enqueueUpdater (u : TimeState -> list Effect * TimeState) (q : Queue) : Queue :=
  mkQueue (qTime q ++ [TUpdater u]) (qIsRunning q) (qIsCompleted q)
    (qShowAlert q) (qInputValue q).

(** The two ways React runs the program. *)
Inductive Mode : Type := Production | Strict.

#[export] Instance Mode_eq_dec : EqDecision Mode.
Proof. solve_decision. Defined.

(** How often an updater is called. *)
Definition invocations (m : Mode) : nat :=
  match m with Production => 1 | Strict => 2 end.

(** ** The program as calls *)

(** The updater of the interval callback. *)
Definition tickCalls (prevTime : TimeState) : list Effect * TimeState :=
  if isZeroTime prevTime then
    ([ESet (SetIsRunning false); ESet (SetIsCompleted true);
      ESet (SetShowAlert true); EPlay],
     prevTime)
  else ([], decrement prevTime).

Section Scheduler.
Context {Dev : Type} `{!Notifier Dev}.
Implicit Types (s snap : Widget Dev) (e : Event) (q : Queue) (m : Mode).

(** The calls of the handler of an event, on the snapshot of its render. *)
Definition calls (e : Event) (snap : Widget Dev) : list Call :=
  match e with
  | InputChange value =>
      CDo (ESet (SetInputValue value)) ::
      (if negb (isRunning snap) then
         [CDo (ESet (SetTime (parseTimeInput value)));
          CDo (ESet (SetIsCompleted false))]
       else [])
  | ClickStart =>
      if isZeroTime (time snap) then []
      else [CDo (ESet (SetIsRunning true)); CDo (ESet (SetIsCompleted false))]
  | ClickPause => [CDo (ESet (SetIsRunning false))]
  | ClickReset =>
      [CDo (ESet (SetIsRunning false)); CDo (ESet (SetIsCompleted false));
       CDo (ESet (SetShowAlert false));
       CDo (ESet (SetTime (parseTimeInput (inputValue snap))))]
  | ClickPreset mins =>
      if negb (isRunning snap) then
        let newTime := {| hours := 0; minutes := mins; seconds := 0 |} in
        [CDo (ESet (SetTime newTime));
         CDo (ESet (SetInputValue (formatTime newTime)));
         CDo (ESet (SetIsCompleted false))]
      else []
  | ClickDismiss => [CDo (ESet (SetShowAlert false))]
  | IntervalFires h =>
      if decide (h ∈ timers snap) then [CSetTimeWith tickCalls] else []
  end.

(** ** Calls read one after the other *)

Definition applySet (c : SetCall) : Action Dev :=
  match c with
  | SetTime t => setTime t
  | SetIsRunning b => setIsRunning b
  | SetIsCompleted b => setIsCompleted b
  | SetShowAlert b => setShowAlert b
  | SetInputValue value => setInputValue value
  end.

Definition runEffect (eff : Effect) : Action Dev :=
  match eff with ESet c => applySet c | EPlay => playBeep end.

Definition runEffects (effs : list Effect) : Action Dev :=
  fun s => foldl (fun s eff => runEffect eff s) s effs.

Definition runCall (c : Call) : Action Dev :=
  match c with
  | CDo eff => runEffect eff
  | CSetTimeWith u => fun s => let '(effs, t) := u (time s) in setTime t (runEffects effs s)
  end.

Definition runCalls (cs : list Call) : Action Dev :=
  fun s => foldl (fun s c => runCall c s) s cs.

(** ** Calls as React runs them *)

(** While code runs, a set call is queued and the beep is played. *)
Definition doEffect (eff : Effect) (p : Widget Dev * Queue) : Widget Dev * Queue :=
  match eff with
  | ESet c => (fst p, enqueue c (snd p))
  | EPlay => (playBeep (fst p), snd p)
  end.

Definition doEffects (effs : list Effect) (p : Widget Dev * Queue) : Widget Dev * Queue :=
  foldl (fun p eff => doEffect eff p) p effs.

Definition doCall (c : Call) (p : Widget Dev * Queue) : Widget Dev * Queue :=
  match c with
  | CDo eff => doEffect eff p
  | CSetTimeWith u => (fst p, enqueueUpdater u (snd p))
  end.

(** The handler runs: every call is queued. *)
Definition handlerPhase (cs : list Call) (s : Widget Dev) : Widget Dev * Queue :=
  foldl (fun p c => doCall c p) (s, emptyQueue) cs.

(** The render settles the queue of [time]: a value replaces the duration,
    an updater is called [n] times on the duration so far, every call
    running its effects, and its result is the new duration. *)
Fixpoint renderTime (n : nat) (us : list TimeUpdate) (t : TimeState)
    (p : Widget Dev * Queue) : TimeState * (Widget Dev * Queue) :=
  match us with
  | [] => (t, p)
  | TValue v :: us' => renderTime n us' v p
  | TUpdater u :: us' =>
      let '(effs, t') := u t in
      renderTime n us' t' (Nat.iter n (doEffects effs) p)
  end.

(** One event's updates, from the handler to the commit: the handler's
    calls are queued; the render settles [time], queueing what the updaters
    set; the other variables take the last value set by the handler or,
    after it, by an updater. *)
Definition commit (m : Mode) (cs : list Call) (s : Widget Dev) : Widget Dev :=
  let '(s1, q) := handlerPhase cs s in
  let '(t, (s2, q')) := renderTime (invocations m) (qTime q) (time s) (s1, emptyQueue) in
  let '(t', (s3, _)) := renderTime (invocations m) (qTime q') t (s2, emptyQueue) in
  {| time := t';
     isRunning := List.last (qIsRunning q ++ qIsRunning q') (isRunning s);
     isCompleted := List.last (qIsCompleted q ++ qIsCompleted q') (isCompleted s);
     showAlert := List.last (qShowAlert q ++ qShowAlert q') (showAlert s);
     inputValue := List.last (qInputValue q ++ qInputValue q') (inputValue s);
     intervalRef := intervalRef s; beepRef := beepRef s;
     timers := timers s; nextHandle := nextHandle s;
     notifier := notifier s3 |}.

(** One event in a mode: the commit of the handler's calls, then the
    effects. *)
Definition dispatchIn (m : Mode) (e : Event) : Action Dev :=
  fun s => rerender s (commit m (calls e s) s).

(** Mounting in a mode: the first render and both effects; under
    StrictMode every effect is then cleaned up and set up once more. *)
Definition mountIn (m : Mode) (d : Dev) : Widget Dev :=
  Nat.iter (invocations m - 1)
    (fun s => timerEffect (beepEffect (timerCleanup s))) (mount d).

Definition fireIntervalIn (m : Mode) : Action Dev := fun s =>
  match intervalRef s with
  | Some h => dispatchIn m (IntervalFires h) s
  | None => s
  end.

Definition ticksIn (m : Mode) (n : nat) : Action Dev := Nat.iter n (fireIntervalIn m).

End Scheduler.

(** ** Tactics *)

(** [sched_eval]: run calls, queues and commits on explicit lists, by
    value. *)
Ltac sched_eval :=
  cbv beta iota zeta delta
    [commit handlerPhase renderTime doCall doEffect doEffects enqueue
     enqueueUpdater emptyQueue invocations qTime qIsRunning qIsCompleted
     qShowAlert qInputValue runCalls runCall runEffects runEffect applySet
     foldl List.last app Nat.iter nat_rect fst snd] in *.

(** ** Production: the queue is not observable *)

Section Production.
Context {Dev : Type} `{!Notifier Dev}.
Implicit Types (s snap : Widget Dev) (e : Event) (m : Mode).

(** The calls of a handler, read one after the other, are the handler. *)
Lemma calls_handler e snap s : runCalls (calls e snap) s = handler e snap s.
Proof.
  destruct e as [value| | | |mins| |h]; cbn [calls handler];
    unfold handleInputChange, handleStart, handlePreset.
  - by destruct (isRunning snap).
  - by destruct (isZeroTime (time snap)).
  - done.
  - done.
  - by destruct (isRunning snap).
  - done.
  - destruct (decide (h ∈ timers snap)); [|done].
    unfold intervalCallback, setTimeWith, tickUpdater, tickCalls.
    sched_eval. by destruct (isZeroTime (time s)).
Qed.

(** The handlers of the user's events call no updater: their commit is the
    same in every mode, and is the handler. *)
Lemma commit_user m e snap s :
  (forall h, e <> IntervalFires h) -> commit m (calls e snap) s = handler e snap s.
Proof.
  intros Hne. destruct e as [value| | | |mins| |h]; try (by destruct (Hne h));
    cbn [calls handler]; unfold handleInputChange, handleStart, handlePreset;
    destruct (isRunning snap), (isZeroTime (time snap)), s; reflexivity.
Qed.

(** The commit of the interval callback: the updater runs as often as the
    mode says, on the duration of the state. *)
Lemma commit_tick m s :
  commit m [CSetTimeWith tickCalls] s =
    if isZeroTime (time s) then
      Nat.iter (invocations m) playBeep
        (setShowAlert true (setIsCompleted true (setIsRunning false s)))
    else setTime (decrement (time s)) s.
Proof.
  unfold commit, handlerPhase. cbn [foldl doCall enqueueUpdater emptyQueue qTime
    qIsRunning qIsCompleted qShowAlert qInputValue fst snd app renderTime].
  unfold tickCalls. destruct (isZeroTime (time s)) eqn:Hz.
  - destruct m, s as [t r c a v ref [b|] T nx dev]; reflexivity.
  - destruct m, s; reflexivity.
Qed.

(** C13. In production React's queue is not observable in this program: for
    every event, settling the queues of the handler's calls commits the
    state that the handler computes when its set calls are read one after
    the other. *)
Theorem commit_handler e snap s :
  commit Production (calls e snap) s = handler e snap s.
Proof.
  destruct e as [value| | | |mins| |h]; try (by apply commit_user).
  cbn [calls handler]. destruct (decide (h ∈ timers snap)); [|by destruct s].
  rewrite commit_tick. destruct (isZeroTime (time s)) eqn:Hz.
  - by rewrite intervalCallback_zero.
  - by rewrite intervalCallback_tick.
Qed.

End Production.

(** ** Any mode: the state variables are the same, the beeps are not *)

Section Modes.
Context {Dev : Type} `{!Notifier Dev}.
Implicit Types (s old new : Widget Dev) (e : Event) (m : Mode) (n k : nat).

(** The event is the firing of a live interval on the zero duration: the
    one that runs the zero branch of the updater. *)
Definition completing (e : Event) (s : Widget Dev) : bool :=
  match e with
  | IntervalFires h => bool_decide (h ∈ timers s) && isZeroTime (time s)
  | _ => false
  end.

(** How many calls of [play] a mode adds to an event. *)
Definition extraBeeps (m : Mode) (e : Event) (s : Widget Dev) : nat :=
  if completing e s then (invocations m - 1)%nat else 0%nat.

(** The beep touches the device only, so it commutes with the effects. *)
Lemma rerender_playBeep old new :
  rerender old (playBeep new) = playBeep (rerender old new).
Proof.
  destruct old as [t r c a v ref b T nx dev],
    new as [t' r' c' a' v' [h|] [b'|] T' nx' dev'];
    destruct r, c, r', c'; reflexivity.
Qed.

Lemma rerender_playBeeps k old new :
  rerender old (Nat.iter k playBeep new) = Nat.iter k playBeep (rerender old new).
Proof.
  induction k as [|k IH]; [done|]. by rewrite !iter_S, rerender_playBeep, IH.
Qed.

Lemma commit_mode m e s :
  commit m (calls e s) s = Nat.iter (extraBeeps m e s) playBeep (handler e s s).
Proof.
  unfold extraBeeps. destruct e as [value| | | |mins| |h];
    try (by rewrite commit_user). cbn [calls handler completing].
  destruct (decide (h ∈ timers s)) as [Hh|Hh];
    [rewrite bool_decide_eq_true_2 by done
    |rewrite bool_decide_eq_false_2 by done; by destruct s].
  rewrite commit_tick. cbn [andb]. destruct (isZeroTime (time s)) eqn:Hz.
  - rewrite intervalCallback_zero by done. by destruct m.
  - by rewrite intervalCallback_tick.
Qed.

(** An event in a mode is the event, and then the beeps the mode adds. *)
Lemma dispatchIn_dispatch m e s :
  dispatchIn m e s = Nat.iter (extraBeeps m e s) playBeep (dispatch e s).
Proof. unfold dispatchIn, dispatch. by rewrite commit_mode, rerender_playBeeps. Qed.

(** The second cycle of the effects at the mount changes nothing: the
    timer effect finds the countdown idle and the ref empty, and the player
    is stored again. *)
Lemma mountIn_mount m (d : Dev) : mountIn m d = mount d.
Proof. by destruct m. Qed.

(** What StrictMode changes: in production an event is what [dispatch]
    says; under StrictMode it is the same, except that the firing that
    completes the countdown calls [play] once more. *)
Theorem strict_dispatch e s :
  dispatchIn Production e s = dispatch e s /\
  dispatchIn Strict e s =
    if completing e s then playBeep (dispatch e s) else dispatch e s.
Proof.
  rewrite !dispatchIn_dispatch. unfold extraBeeps. by destruct (completing e s).
Qed.

End Modes.

(** ** The countdown in a mode *)

Section ModeCountdown.
Context {Dev : Type} `{!Notifier Dev}.
Implicit Types (s : Widget Dev) (m : Mode) (n k j : nat).

(** [j] beeps on an installed player fire the device [j] times and touch
    nothing else. *)
Lemma playBeeps_installed j s :
  beepRef s = Some BeepSound ->
  fired (notifier (Nat.iter j playBeep s)) = (j + fired (notifier s))%nat /\
  intervalRef (Nat.iter j playBeep s) = intervalRef s /\
  beepRef (Nat.iter j playBeep s) = Some BeepSound.
Proof.
  intros Hb. induction j as [|j (IH1 & IH2 & IH3)]; [done|]. rewrite iter_S.
  destruct (Nat.iter j playBeep s) as [t r c a v ref b T nx dev].
  engine_simpl. subst. cbn. by rewrite fired_fire, IH1.
Qed.

(** While the duration is not zero a firing is the same in every mode. *)
Lemma fireIntervalIn_tick m s :
  isZeroTime (time s) = false -> fireIntervalIn m s = fireInterval s.
Proof.
  intros Hz. unfold fireIntervalIn, fireInterval.
  destruct (intervalRef s) as [h|]; [|done].
  rewrite dispatchIn_dispatch. unfold extraBeeps, completing.
  by rewrite Hz, andb_false_r.
Qed.

(** The firing that finds zero beeps as often as the updater is called. *)
Lemma fireIntervalIn_complete m s :
  counting s -> time s = zeroTime ->
  fireIntervalIn m s = Nat.iter (invocations m - 1) playBeep (completedFrom s).
Proof.
  intros Hc Hz. rewrite <- (fireInterval_complete s Hc Hz).
  destruct (counting_ref s Hc) as (h & Href & Ht & _).
  unfold fireIntervalIn, fireInterval. rewrite Href, dispatchIn_dispatch.
  unfold extraBeeps, completing.
  rewrite bool_decide_eq_true_2 by (rewrite Ht; set_solver).
  by rewrite (proj2 (isZeroTime_eq _) Hz).
Qed.

Lemma ticksIn_before_zero m s n :
  counting s -> lexNonNegative (time s) = true ->
  Z.of_nat n <= ticksToZero (time s) -> ticksIn m n s = ticks n s.
Proof.
  intros Hc Hlex. induction n as [|n IH]; intros Hn; [done|].
  unfold ticksIn, ticks in *. rewrite !iter_S, IH by lia.
  apply fireIntervalIn_tick. fold (ticks n s).
  rewrite ticks_before_zero by (done || lia). cbn.
  destruct (isZeroTime _) eqn:E; [|done]. apply isZeroTime_eq in E.
  by destruct (countdown_not_zero_before n (time s) Hlex ltac:(lia)).
Qed.

Lemma ticksIn_past_zero m s k :
  counting s -> lexNonNegative (time s) = true ->
  ticksIn m (firingsToComplete s + k) s =
    Nat.iter (invocations m - 1) playBeep (completedFrom s).
Proof.
  intros Hc Hlex. pose proof (ticksToZero_nonneg _ Hlex).
  unfold ticksIn. rewrite Nat.add_comm, iter_add. unfold firingsToComplete.
  rewrite iter_S. fold (ticksIn m (Z.to_nat (ticksToZero (time s))) s).
  rewrite ticksIn_before_zero, ticks_to_zero by (done || lia).
  rewrite fireIntervalIn_complete, completedFrom_setTime
    by (done || by apply setTime_counting).
  apply iter_fixed. unfold fireIntervalIn.
  destruct Hc as [[_ [_ Hb]] _].
  by destruct (playBeeps_installed (invocations m - 1) (completedFrom s) Hb)
    as (_ & -> & _).
Qed.

(** C14. The notifier is fired once for each call of the updater that finds
    zero: once per countdown in production, twice under StrictMode, where
    React calls updaters twice; not before the countdown completes and not
    again after. *)
Theorem mode_notified m s n :
  counting s -> lexNonNegative (time s) = true ->
  fired (notifier (ticksIn m n s)) =
    (fired (notifier s) + if (firingsToComplete s <=? n)%nat then invocations m else 0)%nat.
Proof.
  intros Hc Hlex. destruct (Nat.leb_spec (firingsToComplete s) n) as [Hle|Hlt].
  - replace n with (firingsToComplete s + (n - firingsToComplete s))%nat by lia.
    rewrite ticksIn_past_zero by done. destruct Hc as [[_ [_ Hb]] _].
    destruct (playBeeps_installed (invocations m - 1) (completedFrom s) Hb) as (-> & _).
    cbn. rewrite fired_fire. destruct m; cbn; lia.
  - pose proof (ticksToZero_nonneg _ Hlex). unfold firingsToComplete in Hlt.
    rewrite ticksIn_before_zero, ticks_before_zero by (done || lia). cbn. lia.
Qed.

End ModeCountdown.

(** ** Concrete commits *)

(** Calls for which the order of the calls and the order of the queues
    differ: an updater that stops the countdown, then a call that starts
    it.  Read one after the other they leave the countdown running; React
    settles the updater's set call last. *)
Definition stopThenStart : list Call :=
  [CSetTimeWith (fun t => ([ESet (SetIsRunning false)], t));
   CDo (ESet (SetIsRunning true))].

Lemma commit_order_matters :
  isRunning (runCalls stopThenStart freshWidget) = true /\
  isRunning (commit Production stopThenStart freshWidget) = false.
Proof. done. Qed.

Lemma mode_notified_witness :
  fired (notifier (ticksIn Strict 5 twoSeconds)) =
    (fired (notifier twoSeconds)
     + if (firingsToComplete twoSeconds <=? 5)%nat then invocations Strict else 0)%nat.
Proof. apply (mode_notified Strict twoSeconds 5); [eauto with timer|reflexivity]. Defined.
