(* ===== verification/Passive.v ===== *)
(** * Effects that run after the commit

    [Engine] runs the timer effect of [src/src/App.tsx] in the same step as
    the commit that changes its dependencies.  React does so for the
    commits of clicks and edits; after any other commit, the one of a firing
    of the interval among them, the effects are passive: they run later, and
    at the latest before React renders the next update.  Between the commit
    in which the countdown completes and the cleanup that clears the
    interval, the interval is therefore still live, and the host may fire
    it.

    A [Staged] widget is a committed state together with the render whose
    effects ran last.  [deliver] is one event without its effects, [flush]
    runs the effects that are pending, and a [Step] is either.  A run in
    which no firing comes while an effect is pending ends, once flushed, in
    the state [Engine] computes from its events; in every interleaving the
    state variables stay well formed and the host holds the one interval of
    the ref or none; and a firing that comes before the flush of a completed
    countdown plays the beep a second time, because the updater tests the
    duration and nothing else.  That firing is the only step on which the
    staged widget leaves the specified timer of [Refinement]: a flush is no
    step of the specified timer, and every other event is its command. *)

From stdpp Require Import gmap.
From S2P Require Import Prelude JsString JsNumber Duration Parser Notifier.
From S2P Require Import Engine View Refinement.

(** ** Staged widgets *)

Section Passive.
Context {Dev : Type} `{!Notifier Dev}.

(** The committed state, and the render whose effects ran last: the timer
    effect compares its dependencies with those of that render. *)
Record Staged : Type := mkStaged {
  effected : Widget Dev;
  current : Widget Dev;
}.

(** A state whose effects have run. *)
Definition settledAt (s : Widget Dev) : Staged := mkStaged s s.

(** The timer effect has to run. *)
Definition pending (p : Staged) : bool := depsChanged (effected p) (current p).

(** The pending effects run: the cleanup of the last run, then the effect. *)
Definition flush (p : Staged) : Staged :=
  settledAt (rerender (effected p) (current p)).

(** One event without its effects.  The host decides on the committed state
    whether an interval is live, and the handler reads the snapshot of the
    committed render; React runs the pending effects before it renders the
    update. *)
Definition deliver (e : Event) (p : Staged) : Staged :=
  let s := rerender (effected p) (current p) in
  mkStaged s (handler e (current p) s).

(** Clicks and edits are discrete events: React runs the effects of their
    commit at once. *)
Definition discrete (e : Event) : bool :=
  match e with IntervalFires _ => false | _ => true end.

Definition stagedDispatch (e : Event) (p : Staged) : Staged :=
  if discrete e then flush (deliver e p) else deliver e p.

(** What happens next: an event, or React runs the pending effects. *)
Inductive Step : Type :=
  | Deliver (e : Event)
  | Flush.

Definition step (l : Step) (p : Staged) : Staged :=
  match l with
  | Deliver e => stagedDispatch e p
  | Flush => flush p
  end.

Definition stagedRun (ls : list Step) (p : Staged) : Staged :=
  foldl (fun p l => step l p) p ls.

(** The events of a run, each followed by the flush of its effects. *)
Definition atomically (es : list Event) : list Step :=
  flat_map (fun e => [Deliver e; Flush]) es.

(** The events of a run of steps, without the flushes. *)
Definition eventsOf (ls : list Step) : list Event :=
  omap (fun l => match l with Deliver e => Some e | Flush => None end) ls.

(** A step is in time unless it is a firing of the interval while an effect
    is pending; a run is timely when each of its steps is in time. *)
Definition inTime (l : Step) (p : Staged) : bool :=
  match l with
  | Deliver (IntervalFires _) => negb (pending p)
  | _ => true
  end.

Fixpoint timely (ls : list Step) (p : Staged) : bool :=
  match ls with
  | [] => true
  | l :: ls' => inTime l p && timely ls' (step l p)
  end.

(** The staged widgets that the mount and any steps lead to. *)
Inductive staged_reachable : Staged -> Prop :=
  | staged_mount (d : Dev) : staged_reachable (settledAt (mount d))
  | staged_step (l : Step) (p : Staged) :
      staged_reachable p -> staged_reachable (step l p).

(** What every staged widget satisfies: the state variables are well
    formed, the refs and the host are those the last effects left, and they
    agree with the dependencies of that render. *)
Definition StagedInv (p : Staged) : Prop :=
  Inv (effected p) /\ hooksOk (current p) /\
  sameResources (effected p) (current p).

(** The state a countdown is in when it has completed and its effects have
    not run. *)
Definition justCompleted (s : Widget Dev) : Widget Dev :=
  playBeep (setShowAlert true (setIsCompleted true (setIsRunning false s))).

End Passive.

Arguments Staged : clear implicits.

#[export] Hint Constructors staged_reachable : timer.

(** ** Flushing after every event *)

Section Atomic.
Context {Dev : Type} `{!Notifier Dev}.
Implicit Types (s : Widget Dev) (p : Staged Dev) (e : Event) (h : Handle).

Lemma rerender_same s : rerender s s = s.
Proof. by apply rerender_same_deps. Qed.

Lemma flush_settled s : flush (settledAt s) = settledAt s.
Proof. unfold flush. cbn. by rewrite rerender_same. Qed.

Lemma deliver_settled e s : deliver e (settledAt s) = mkStaged s (handler e s s).
Proof. unfold deliver. cbn. by rewrite rerender_same. Qed.

Lemma flush_deliver e s : flush (deliver e (settledAt s)) = settledAt (dispatch e s).
Proof. by rewrite deliver_settled. Qed.

Lemma step_atomically e s :
  stagedRun (atomically [e]) (settledAt s) = settledAt (dispatch e s).
Proof.
  cbn. unfold stagedDispatch.
  destruct (discrete e); by rewrite flush_deliver, ?flush_settled.
Qed.

Lemma stagedRun_app ls1 ls2 p :
  stagedRun (ls1 ++ ls2) p = stagedRun ls2 (stagedRun ls1 p).
Proof. apply foldl_app. Qed.

End Atomic.

(** ** Well-formed staged widgets *)

Section StagedInvariant.
Context {Dev : Type} `{!Notifier Dev}.
Implicit Types (s snap old new : Widget Dev) (p : Staged Dev) (e : Event).

Lemma sameResources_refl s : sameResources s s.
Proof. by repeat split. Qed.

Lemma rerender_Inv old new :
  Inv old -> hooksOk new -> sameResources old new -> Inv (rerender old new).
Proof.
  intros [_ Hr] Hh Hs.
  pose proof (rerender_sameHooks old new) as (E1 & E2 & E3 & _). split.
  - unfold hooksOk in *. by rewrite E1, E2, E3.
  - apply rerender_resourcesOk; [done..|apply Hh].
Qed.

(** The interval callback keeps the state variables well formed. *)
Lemma intervalCallback_hooksOk s : hooksOk s -> hooksOk (intervalCallback s).
Proof.
  intros [Hex Hz]. destruct (isZeroTime (time s)) eqn:E.
  - rewrite intervalCallback_zero by done. apply isZeroTime_eq in E.
    destruct s as [t r c a v ref [b|] T nx dev]; by split.
  - rewrite intervalCallback_tick by done. split; [done|]. cbn. intros Hc.
    apply Hz in Hc. apply isZeroTime_eq in Hc. congruence.
Qed.

(** A handler other than the interval callback reads the state variables
    of its snapshot only. *)
Lemma handler_snapshot e snap s :
  discrete e = true -> sameHooks snap s -> handler e snap s = handler e s s.
Proof.
  intros He (Ht & Hr & _ & _ & Hv & _). destruct e; try done; cbn;
    unfold handleInputChange, handleStart, handleReset, handlePreset;
    by rewrite ?Ht, ?Hr, ?Hv.
Qed.

Lemma handler_hooksOk_snapshot e snap s :
  sameHooks snap s -> hooksOk s -> hooksOk (handler e snap s).
Proof.
  intros Hs Hh. destruct (discrete e) eqn:He.
  - rewrite handler_snapshot by done. by apply handler_hooksOk.
  - destruct e; try done. cbn. case_decide; [by apply intervalCallback_hooksOk|done].
Qed.

Lemma flush_StagedInv p : StagedInv p -> StagedInv (flush p).
Proof.
  intros (Hi & Hh & Hs). pose proof (rerender_Inv _ _ Hi Hh Hs) as Hi'.
  split; [done|]. split; [apply Hi'|apply sameResources_refl].
Qed.

Lemma deliver_StagedInv e p : StagedInv p -> StagedInv (deliver e p).
Proof.
  intros (Hi & Hh & Hs). pose proof (rerender_Inv _ _ Hi Hh Hs) as Hi'.
  split; [done|]. split; [|apply handler_sameResources].
  apply handler_hooksOk_snapshot; [apply rerender_sameHooks|apply Hi'].
Qed.

Lemma step_StagedInv l p : StagedInv p -> StagedInv (step l p).
Proof.
  destruct l as [e|]; cbn; unfold stagedDispatch;
    [destruct (discrete e)|]; auto using flush_StagedInv, deliver_StagedInv.
Qed.

Lemma staged_reachable_Inv p : staged_reachable p -> StagedInv p.
Proof.
  induction 1 as [d|l p _ IH]; [|by apply step_StagedInv].
  split; [apply mount_Inv|]. split; [apply mount_Inv|apply sameResources_refl].
Qed.

Lemma stagedRun_reachable ls p : staged_reachable p -> staged_reachable (stagedRun ls p).
Proof.
  revert p. induction ls as [|l ls IH]; intros p Hp; [done|].
  cbn. apply IH. by constructor.
Qed.

(** The host holds the interval of the ref, or none. *)
Lemma StagedInv_timers p :
  StagedInv p ->
  timers (current p) = from_option singleton ∅ (intervalRef (current p)).
Proof.
  intros ([_ Hr] & _ & E1 & _ & E3 & _). rewrite E1, E3.
  by apply resourcesOk_timers.
Qed.

(** *** When effects are pending *)

Lemma pending_settledAt s : pending (settledAt s) = false.
Proof. unfold pending, depsChanged. cbn. by rewrite !Bool.eqb_reflx. Qed.

Lemma not_pending_flags p :
  pending p = false ->
  isRunning (current p) = isRunning (effected p) /\
  isCompleted (current p) = isCompleted (effected p).
Proof.
  unfold pending, depsChanged.
  by destruct (isRunning (effected p)), (isRunning (current p)),
    (isCompleted (effected p)), (isCompleted (current p)).
Qed.

(** When no effect is pending the committed state is well formed: an
    interval that is live there is the one of a running countdown. *)
Lemma settled_live p h :
  StagedInv p -> pending p = false -> h ∈ timers (current p) ->
  rerender (effected p) (current p) = current p /\ isRunning (current p) = true.
Proof.
  intros (Hi & _ & _ & _ & Ht & _) [Hr Hc]%not_pending_flags Hlive.
  split; [by apply rerender_same_deps|].
  rewrite Ht in Hlive. rewrite Hr. by apply (live_interval _ h).
Qed.

(** The flags after the interval callback. *)
Lemma intervalCallback_flags s :
  isRunning (intervalCallback s) = (isRunning s && negb (isZeroTime (time s))) /\
  isCompleted (intervalCallback s) = (isCompleted s || isZeroTime (time s)).
Proof.
  destruct (isZeroTime (time s)) eqn:E.
  - rewrite intervalCallback_zero by done. unfold playBeep.
    destruct s as [t r c a v ref [b|] T nx dev]; cbn; by rewrite andb_false_r, orb_true_r.
  - rewrite intervalCallback_tick by done. cbn. by rewrite andb_true_r, orb_false_r.
Qed.

(** The effects of a firing are pending only when it completed a running
    countdown. *)
Lemma deliver_fire_pending h p :
  StagedInv p -> (pending p = true -> isCompleted (current p) = true) ->
  pending (deliver (IntervalFires h) p) = true ->
  isRunning (effected (deliver (IntervalFires h) p)) = true /\
  isCompleted (current (deliver (IntervalFires h) p)) = true.
Proof.
  intros HI IH. pose proof HI as (Hi & Hh & Hs).
  pose proof (rerender_sameHooks (effected p) (current p)) as (_ & Er & Ec & _).
  unfold deliver, pending, depsChanged. cbn [effected current handler].
  case_decide as Hlive; [|by rewrite !Bool.eqb_reflx].
  destruct (intervalCallback_flags (rerender (effected p) (current p))) as [-> ->].
  destruct (pending p) eqn:Hp.
  - rewrite Ec, (IH eq_refl). destruct Hh as [Hex _]. rewrite (IH eq_refl) in Hex.
    rewrite Er. by destruct (isRunning (current p)).
  - destruct (settled_live p h HI Hp Hlive) as [-> ->].
    by destruct (isZeroTime _), (isCompleted (current p)).
Qed.

Lemma step_pending l p :
  StagedInv p ->
  (pending p = true -> isRunning (effected p) = true /\ isCompleted (current p) = true) ->
  pending (step l p) = true ->
  isRunning (effected (step l p)) = true /\ isCompleted (current (step l p)) = true.
Proof.
  intros HI IH. unfold step, stagedDispatch, flush.
  destruct l as [[]|]; cbn [discrete]; try by rewrite pending_settledAt.
  apply deliver_fire_pending; [done|]. intros Hp. by apply IH.
Qed.

Lemma staged_reachable_pending p :
  staged_reachable p -> pending p = true ->
  isRunning (effected p) = true /\ isCompleted (current p) = true.
Proof.
  induction 1 as [d|l p Hp IH]; [by rewrite pending_settledAt|].
  by apply step_pending; [apply staged_reachable_Inv|].
Qed.

(** C16. In every interleaving of events and flushes from the mount, the
    state variables are well formed (running and completed exclude each
    other, a completed countdown shows zero), the host holds the one
    interval of the ref or none, the flush of the pending effects leaves a
    well-formed widget, and effects are pending only from the commit that
    completes a running countdown to the next flush. *)
Theorem staged_invariant (d : Dev) (ls : list Step) :
  let p := stagedRun ls (settledAt (mount d)) in
  hooksOk (current p) /\
  timers (current p) = from_option singleton ∅ (intervalRef (current p)) /\
  Inv (current (flush p)) /\
  (pending p = true -> isRunning (effected p) = true /\ isCompleted (current p) = true).
Proof.
  cbn zeta. set (p := stagedRun _ _).
  assert (staged_reachable p) as Hr by (apply stagedRun_reachable; constructor).
  pose proof (staged_reachable_Inv p Hr) as Hp.
  split; [apply Hp|]. split; [by apply StagedInv_timers|].
  split; [by apply (flush_StagedInv p)|by apply staged_reachable_pending].
Qed.

End StagedInvariant.

(** ** A firing before the flush *)

Section LateFiring.
Context {Dev : Type} `{!Notifier Dev}.
Implicit Types (s : Widget Dev) (p : Staged Dev) (h : Handle) (k : nat).

(** The firing that finds zero commits the completed countdown; the
    interval stays live until the flush. *)
Lemma deliver_complete s h :
  counting s -> time s = zeroTime -> intervalRef s = Some h ->
  deliver (IntervalFires h) (settledAt s) = mkStaged s (justCompleted s).
Proof.
  intros Hc Hz Href. destruct (counting_ref s Hc) as (h' & Href' & Ht & _).
  rewrite deliver_settled. f_equal. cbn.
  rewrite decide_True by (rewrite Ht; simplify_eq; set_solver).
  apply intervalCallback_zero. by apply isZeroTime_eq.
Qed.

Lemma flush_complete s :
  counting s -> time s = zeroTime ->
  rerender s (justCompleted s) = completedFrom s.
Proof.
  intros Hc Hz. destruct (counting_ref s Hc) as (h & Href & Ht & _).
  rewrite <- (fireInterval_complete s Hc Hz). unfold fireInterval, dispatch.
  rewrite Href. cbn. rewrite decide_True by (rewrite Ht; set_solver).
  by rewrite intervalCallback_zero by (by apply isZeroTime_eq).
Qed.

(** A firing between the commit and the flush: the effects run, and the
    updater, which finds zero again, plays the beep again. *)
Lemma deliver_late s h :
  counting s -> time s = zeroTime -> intervalRef s = Some h ->
  deliver (IntervalFires h) (mkStaged s (justCompleted s)) =
    mkStaged (completedFrom s) (playBeep (completedFrom s)).
Proof.
  intros Hc Hz Href. destruct (counting_ref s Hc) as (h' & Href' & Ht & _ & Hb).
  unfold deliver. cbn [effected current]. rewrite flush_complete by done.
  f_equal. cbn [handler].
  assert (timers (justCompleted s) = timers s) as ->
    by (unfold justCompleted, playBeep; by destruct (beepRef _)).
  rewrite decide_True by (rewrite Ht; simplify_eq; set_solver).
  by rewrite intervalCallback_zero.
Qed.

(** Once the effects have run the interval is dead. *)
Lemma deliver_dead s h :
  timers s = ∅ -> deliver (IntervalFires h) (settledAt s) = settledAt s.
Proof.
  intros Ht. rewrite deliver_settled. cbn. rewrite Ht.
  by rewrite decide_False by set_solver.
Qed.

(** C15. A firing of the interval between the commit that completes the
    countdown and the flush of its effects plays the beep a second time:
    after the first firing at zero the countdown is completed with one beep
    and the interval is still live; a second firing before the flush leaves
    the completed widget with two beeps; after that the interval is dead and
    further firings do nothing. *)
Theorem late_firing_beeps s h k :
  counting s -> time s = zeroTime -> intervalRef s = Some h ->
  let fire1 := deliver (IntervalFires h) (settledAt s) in
  let fire2 := deliver (IntervalFires h) fire1 in
  (pending fire1 = true /\ h ∈ timers (current fire1) /\
   flush fire1 = settledAt (completedFrom s)) /\
  flush fire2 = settledAt (playBeep (completedFrom s)) /\
  fired (notifier (current fire2)) = S (S (fired (notifier s))) /\
  Nat.iter k (deliver (IntervalFires h)) (flush fire2) = flush fire2.
Proof.
  intros Hc Hz Href. cbn zeta.
  destruct (counting_ref s Hc) as (h' & Href' & Ht & Hcompl & Hb).
  rewrite (deliver_complete s h), (deliver_late s h) by done.
  assert (flush (mkStaged (completedFrom s) (playBeep (completedFrom s)))
          = settledAt (playBeep (completedFrom s))) as Hflush.
  { unfold flush. f_equal. apply rerender_same_deps; unfold playBeep; cbn;
      by rewrite Hb. }
  split; [split; [|split]|split; [done|split]].
  - destruct Hc as [_ Hrun]. unfold pending, depsChanged, justCompleted, playBeep.
    cbn. rewrite Hb. cbn. by rewrite Hrun.
  - unfold justCompleted, playBeep. cbn. rewrite Hb. cbn. rewrite Ht.
    simplify_eq. set_solver.
  - unfold flush. cbn. by rewrite flush_complete.
  - unfold playBeep. cbn. rewrite Hb. cbn. by rewrite !fired_fire.
  - rewrite Hflush. apply iter_fixed, deliver_dead.
    unfold playBeep. cbn. by rewrite Hb.
Qed.

End LateFiring.

(** ** Runs in which no firing comes early

    Deferring the effects cannot be observed as long as no firing of the
    interval arrives while an effect is pending: the handlers of clicks and
    edits read the state variables of their snapshot and nothing of the refs
    or the host, which is all a pending effect would change. *)

Section Timely.
Context {Dev : Type} `{!Notifier Dev}.
Implicit Types (s : Widget Dev) (p : Staged Dev) (e : Event) (l : Step).

(** One step in time, seen after the flush: the event of the step, if any,
    dispatched on the flushed state. *)
Lemma flush_step l p :
  StagedInv p -> inTime l p = true ->
  flush (step l p) = settledAt (run (eventsOf [l]) (current (flush p))).
Proof.
  intros HI Hl. change (flush p) with (settledAt (rerender (effected p) (current p))).
  destruct l as [e|]; [|apply flush_settled].
  unfold step, stagedDispatch. destruct (discrete e) eqn:He.
  - unfold deliver at 1, flush at 2. rewrite flush_settled. cbn [effected current].
    by rewrite handler_snapshot by (done || apply rerender_sameHooks).
  - destruct e; try done. cbn in Hl. apply negb_true_iff in Hl.
    destruct (not_pending_flags p Hl) as [Hr Hc].
    unfold flush, deliver. cbn [effected current].
    by rewrite (rerender_same_deps (effected p)) by done.
Qed.

Lemma eventsOf_cons l ls : eventsOf (l :: ls) = eventsOf [l] ++ eventsOf ls.
Proof. by destruct l. Qed.

(** C29. Deferring the effects is not observable in a run in which no firing
    of the interval arrives while an effect is pending: whatever flushes
    the run has and wherever they are, after the last flush the widget is
    in the state the engine reaches by dispatching the events of the run
    one after the other, each with its effects. *)
Theorem timely_run (ls : list Step) p :
  StagedInv p -> timely ls p = true ->
  flush (stagedRun ls p) = settledAt (run (eventsOf ls) (current (flush p))).
Proof.
  revert p. induction ls as [|l ls IH]; intros p HI Ht; [done|].
  cbn [timely] in Ht. apply andb_true_iff in Ht as [Hl Ht].
  cbn [stagedRun foldl]. fold (stagedRun ls (step l p)).
  rewrite IH, eventsOf_cons, run_app by (done || by apply step_StagedInv).
  by rewrite (flush_step l p).
Qed.

End Timely.

(** ** The staged widget and the specified timer *)

Section StagedRefinement.
Context {Dev : Type} `{!Notifier Dev}.
Implicit Types (s : Widget Dev) (p : Staged Dev) (e : Event).

(** The settled states of the engine are staged widgets. *)
Lemma settled_reachable s : reachable s -> staged_reachable (settledAt s).
Proof.
  induction 1 as [d|e s _ IH]; [constructor|].
  rewrite <- step_atomically. by apply stagedRun_reachable.
Qed.

(** The specified timer does not see a flush. *)
Lemma abs_flush p : abs (current (flush p)) = abs (current p).
Proof. unfold flush. cbn. by rewrite <- (rerender_sameHooks (effected p) (current p)). Qed.

Lemma conforming_proper e s s' : sameHooks s s' -> conforming e s' = conforming e s.
Proof. intros (_ & Hr & Hc & _). destruct e; cbn; by rewrite ?Hr, ?Hc. Qed.

(** A click or an edit, whether effects are pending or not. *)
Lemma staged_refines_discrete e p :
  StagedInv p -> discrete e = true -> conforming e (current p) = true ->
  abs (current (stagedDispatch e p)) = stepOpt (command e (current p)) (abs (current p)).
Proof.
  intros (Hi & Hh & Hs) He Hconf. unfold stagedDispatch. rewrite He, abs_flush.
  pose proof (rerender_sameHooks (effected p) (current p)) as Hsame.
  unfold deliver. cbn [current]. rewrite handler_snapshot by done.
  rewrite refines_handler, <- (abs_proper _ _ Hsame).
  - by destruct e.
  - by apply rerender_Inv.
  - by rewrite (conforming_proper _ _ _ Hsame).
  - by intros h ->.
Qed.

(** A firing when no effect is pending. *)
Lemma staged_refines_firing h p :
  StagedInv p -> pending p = false ->
  abs (current (stagedDispatch (IntervalFires h) p)) =
    stepOpt (command (IntervalFires h) (current p)) (abs (current p)).
Proof.
  intros HI [Hr Hc]%not_pending_flags. pose proof HI as (Hi & Hh & Hs).
  pose proof (rerender_Inv _ _ Hi Hh Hs) as Hi'.
  unfold stagedDispatch, deliver. cbn [discrete current].
  rewrite rerender_same_deps in * by done.
  by rewrite <- abs_dispatch, refines_step.
Qed.

(** C35. In every interleaving the staged widget follows the specified
    timer, except for a firing while effects are pending: a flush is no step
    of the specified timer, and an event on which code and specification
    agree, delivered when no effect is pending or being a click or an edit,
    is the command it stands for. *)
Theorem staged_refines e p :
  staged_reachable p -> conforming e (current p) = true ->
  (pending p = true -> discrete e = true) ->
  abs (current (step Flush p)) = abs (current p) /\
  abs (current (step (Deliver e) p)) = stepOpt (command e (current p)) (abs (current p)).
Proof.
  intros Hp%staged_reachable_Inv Hconf Hpend. split; [apply abs_flush|]. cbn [step].
  destruct (discrete e) eqn:He; [by apply staged_refines_discrete|].
  destruct e; try done. apply staged_refines_firing; [done|].
  destruct (pending p); [by discriminate Hpend|done].
Qed.

End StagedRefinement.

#[export] Hint Resolve settled_reachable : timer.

(** ** Concrete staged widgets *)

(** The countdown of two seconds at zero, still running. *)
Definition atZero : Widget AudioContext := ticks 2 twoSeconds.

Lemma atZero_counting : counting atZero.
Proof. split; [unfold atZero; eauto with timer|done]. Qed.

Lemma late_firing_beeps_witness :
  let fire1 := deliver (IntervalFires 1) (settledAt atZero) in
  let fire2 := deliver (IntervalFires 1) fire1 in
  (pending fire1 = true /\ 1%positive ∈ timers (current fire1) /\
   flush fire1 = settledAt (completedFrom atZero)) /\
  flush fire2 = settledAt (playBeep (completedFrom atZero)) /\
  fired (notifier (current fire2)) = S (S (fired (notifier atZero))) /\
  Nat.iter 3 (deliver (IntervalFires 1)) (flush fire2) = flush fire2.
Proof. apply (late_firing_beeps atZero 1%positive 3 atZero_counting); reflexivity. Defined.

(** A Reset while the effects of the completing firing are pending. *)
Lemma staged_refines_witness :
  let p := step (Deliver (IntervalFires 1)) (settledAt atZero) in
  abs (current (step Flush p)) = abs (current p) /\
  abs (current (step (Deliver ClickReset) p)) =
    stepOpt (command ClickReset (current p)) (abs (current p)).
Proof.
  apply (staged_refines ClickReset
           (step (Deliver (IntervalFires 1)) (settledAt atZero)));
    [|reflexivity|reflexivity].
  apply staged_step, settled_reachable, reachable_ticks.
  unfold twoSeconds. eauto with timer.
Defined.

(** Two seconds counted down with the effects of the completing firing
    flushed late, after the next click. *)
Lemma timely_run_witness :
  let ls := [Deliver (IntervalFires 1); Deliver ClickReset; Flush;
             Deliver ClickStart; Flush; Deliver (IntervalFires 2)] in
  flush (stagedRun ls (settledAt atZero)) =
    settledAt (run (eventsOf ls) (current (flush (settledAt atZero)))).
Proof.
  apply (timely_run
           [Deliver (IntervalFires 1); Deliver ClickReset; Flush;
            Deliver ClickStart; Flush; Deliver (IntervalFires 2)]
           (settledAt atZero)); [|vm_compute; reflexivity].
  apply staged_reachable_Inv, settled_reachable, reachable_ticks.
  unfold twoSeconds. eauto with timer.
Defined.
