(* ===== verification/Double.v ===== *)
(** * The fields of a duration as doubles

    The fields of a [TimeState] are JavaScript numbers: doubles.  [Duration]
    and [Parser] compute with integers, which is what the program does as
    long as every value is a safe integer.  This file drops the assumption.
    [roundDouble] is the rounding of an integer to the nearest double, ties
    to the even significand; [parseIntD] is [parseInt] with its result
    rounded, as ECMAScript defines it for at most twenty significant
    digits; [decrementD] is the tick with its subtractions rounded;
    [handlerD], [dispatchD] and [runD] are the engine with these in the
    place of [parseTimeInput] and [decrement].

    The theorems: up to [2^53] nothing is rounded, so a text of at most
    fifteen characters parses and counts down exactly as [Parser] and
    [Duration] say, and on such texts and on presets that are safe
    integers every run of the engine on doubles is the run of [Engine]
    ([runD_exact]); a field beyond [2^54] is a fixed point of the
    subtraction of one, so a countdown with such a field never reaches
    zero, and a firing of the interval changes nothing of the widget.
    [roundDouble] is compared with the rounding of the standard library's
    specification of IEEE 754 on the values around the powers of two where
    the spacing changes. *)

From Stdlib Require Import Floats.SpecFloat.
From S2P Require Import Prelude JsString JsNumber Duration Parser Notifier Engine.

(** ** Rounding *)

(** The exponent of the spacing of the doubles around [n]: a double has 53
    significant bits. *)
Definition ulpExp (n : Z) : Z := Z.max 0 (Z.log2 (Z.abs n) - 52).

(** The spacing of the doubles around [n]. *)
Definition ulp (n : Z) : Z := 2 ^ ulpExp n.

(** The double nearest to the integer [n]; of two that are as near, the one
    whose significand is even. *)
Definition roundDouble (n : Z) : Z :=
  let u := ulp n in
  let q := n / u in
  let r := n mod u in
  if 2 * r <? u then q * u
  else if u <? 2 * r then (q + 1) * u
  else if Z.even q then q * u else (q + 1) * u.

(** The integer is a double. *)
Definition isDouble (n : Z) : bool := roundDouble n =? n.

(** The integer a finite binary float stands for, when it is one. *)
Definition integerOf (f : spec_float) : option Z :=
  match f with
  | S754_zero _ => Some 0
  | S754_finite s m e =>
      if 0 <=? e then Some (cond_Zopp s (Z.pos m * 2 ^ e))
      else if Z.pos m mod 2 ^ (- e) =? 0 then Some (cond_Zopp s (Z.pos m / 2 ^ (- e)))
      else None
  | _ => None
  end.

(** The rounding of the standard library's IEEE 754: binary64 has a
    precision of 53 bits and a largest exponent of 1024. *)
Definition roundBinary64 (n : Z) : option Z :=
  integerOf (binary_normalize 53 1024 n 0 false).

(** ** The program on doubles *)

(** [parseInt]: the number the digits write, rounded. *)
Definition parseIntD (s : string) : option Z := roundDouble <$> parseInt s.

Definition parsePartD (part : string) : Z := orZero (parseIntD (trim part)).

Definition parseTimeInputD (input : string) : TimeState :=
  let parts := map parsePartD (split ":" input) in
  if (length parts =? 2)%nat then
    {| hours := 0; minutes := nth 0 parts 0; seconds := nth 1 parts 0 |}
  else if (length parts =? 3)%nat then
    {| hours := nth 0 parts 0; minutes := nth 1 parts 0; seconds := nth 2 parts 0 |}
  else {| hours := 0; minutes := 0; seconds := 0 |}.

(** The branches of the interval callback, each subtraction rounded. *)
Definition decrementD (t : TimeState) : TimeState :=
  if seconds t >? 0 then
    {| hours := hours t; minutes := minutes t;
       seconds := roundDouble (seconds t - 1) |}
  else if minutes t >? 0 then
    {| hours := hours t; minutes := roundDouble (minutes t - 1); seconds := 59 |}
  else if hours t >? 0 then
    {| hours := roundDouble (hours t - 1); minutes := 59; seconds := 59 |}
  else t.

Definition countdownD (n : nat) (t : TimeState) : TimeState := Nat.iter n decrementD t.

(** Every field is a double. *)
Definition doubleTime (t : TimeState) : bool :=
  isDouble (hours t) && isDouble (minutes t) && isDouble (seconds t).

(** A field that the subtraction of one does not change. *)
Definition hugeField (n : Z) : bool := isDouble n && (2 ^ 54 <? n).

(** ** The spacing *)

Section Spacing.
Implicit Types (n m k : Z).

Lemma ulpExp_nonneg n : 0 <= ulpExp n.
Proof. unfold ulpExp. lia. Qed.

Lemma ulp_pos n : 0 < ulp n.
Proof. apply Z.pow_pos_nonneg; [lia|apply ulpExp_nonneg]. Qed.

(** Below [2^53] the doubles are the integers. *)
Lemma ulp_small n : Z.abs n < 2 ^ 53 -> ulp n = 1.
Proof.
  intros Hn. unfold ulp, ulpExp.
  assert (Z.log2 (Z.abs n) < 53) as Hlog.
  { destruct (Z.eq_dec (Z.abs n) 0) as [->|]; [done|].
    apply Z.log2_lt_pow2; lia. }
  by rewrite Z.max_l by lia.
Qed.

(** From [2^54] on the spacing is at least four. *)
Lemma ulp_large n : 2 ^ 54 <= n -> 4 <= ulp n.
Proof.
  intros Hn. unfold ulp, ulpExp. rewrite Z.abs_eq by lia.
  assert (54 <= Z.log2 n) by (apply Z.log2_le_pow2; lia).
  rewrite Z.max_r by lia. change 4 with (2 ^ 2).
  apply Z.pow_le_mono_r; lia.
Qed.

(** The spacing does not decrease with the magnitude. *)
Lemma ulp_divide n m : 0 <= n <= m -> (ulp n | ulp m).
Proof.
  intros Hnm. unfold ulp.
  assert (ulpExp n <= ulpExp m) as Hle.
  { unfold ulpExp. rewrite !Z.abs_eq by lia.
    pose proof (Z.log2_le_mono n m). lia. }
  exists (2 ^ (ulpExp m - ulpExp n)).
  rewrite <- Z.pow_add_r by (pose proof (ulpExp_nonneg n); lia).
  f_equal. lia.
Qed.

(** A double is a multiple of the spacing around the number it rounds. *)
Lemma roundDouble_multiple n : (ulp n | roundDouble n).
Proof.
  unfold roundDouble. cbn zeta.
  repeat case_match; apply Z.divide_factor_r.
Qed.

Lemma isDouble_multiple n : isDouble n = true -> (ulp n | n).
Proof.
  unfold isDouble. intros Hn%Z.eqb_eq. rewrite <- Hn at 2.
  apply roundDouble_multiple.
Qed.

End Spacing.

(** ** Rounding, where it is exact and where it is not *)

Section Rounding.
Implicit Types (n m k s : Z).

(** Up to [2^53] in magnitude every integer is a double. *)
Lemma roundDouble_exact n : Z.abs n <= 2 ^ 53 -> roundDouble n = n.
Proof.
  intros Hn. destruct (Z.eq_dec (Z.abs n) (2 ^ 53)) as [He|Hne].
  - destruct (Z.abs_spec n) as [[_ E]|[_ E]]; rewrite E in He;
      [rewrite He|replace n with (- 2 ^ 53) by lia]; by vm_compute.
  - unfold roundDouble. rewrite ulp_small by lia. cbn zeta.
    rewrite Z.mod_1_r, Z.div_1_r. case_test; lia.
Qed.

Lemma roundDouble_safe n : isSafeInteger n = true -> roundDouble n = n.
Proof.
  unfold isSafeInteger, MAX_SAFE_INTEGER. intros Hn.
  apply roundDouble_exact. lia.
Qed.

Lemma roundDouble_zero : roundDouble 0 = 0.
Proof. done. Qed.

(** A number one below a multiple of a spacing of at least four rounds up
    to the multiple. *)
Lemma roundDouble_below s :
  4 <= ulp (s - 1) -> (ulp (s - 1) | s) -> roundDouble (s - 1) = s.
Proof.
  intros Hu [m Hm]. unfold roundDouble. cbn zeta. set (u := ulp (s - 1)) in *.
  assert ((s - 1) / u = m - 1) as ->
    by (symmetry; apply (Z.div_unique_pos _ _ _ (u - 1)); lia).
  assert ((s - 1) mod u = u - 1) as ->
    by (symmetry; apply (Z.mod_unique_pos _ _ (m - 1)); lia).
  destruct (Z.ltb_spec (2 * (u - 1)) u), (Z.ltb_spec u (2 * (u - 1))); lia.
Qed.

(** Beyond [2^54] the subtraction of one returns its argument. *)
Lemma roundDouble_pred s : hugeField s = true -> roundDouble (s - 1) = s.
Proof.
  unfold hugeField. intros [Hd Hs%Z.ltb_lt]%andb_true_iff.
  apply roundDouble_below; [apply ulp_large; lia|].
  etrans; [apply (ulp_divide (s - 1) s); lia|by apply isDouble_multiple].
Qed.

End Rounding.

(** ** Where the integer model is exact *)

Section Exact.
Implicit Types (t : TimeState) (n : nat) (part input : string).

Lemma parsePartD_round part : parsePartD part = roundDouble (parsePart part).
Proof.
  unfold parsePartD, parsePart, parseIntD.
  destruct (parseInt (trim part)) as [k|]; [|done]. cbn.
  destruct (Z.eqb_spec k 0) as [->|Hk]; [done|].
  destruct (Z.eqb_spec (roundDouble k) 0) as [->|]; done.
Qed.

Lemma parsePartD_exact part :
  (String.length part <= 15)%nat -> parsePartD part = parsePart part.
Proof.
  intros Hlen. rewrite parsePartD_round. by apply roundDouble_safe, parsePart_safe.
Qed.

(** The parts of a text of at most fifteen characters. *)
Lemma short_parts input (P : string -> Prop) :
  (String.length input <= 15)%nat ->
  (forall part, (String.length part <= 15)%nat -> P part) ->
  Forall P (split ":" input).
Proof.
  intros Hlen HP. eapply Forall_impl; [apply split_parts_length|].
  cbn. intros part Hp. apply HP. lia.
Qed.

Lemma parseTimeInputD_exact input :
  (String.length input <= 15)%nat -> parseTimeInputD input = parseTimeInput input.
Proof.
  intros Hlen. unfold parseTimeInputD, parseTimeInput.
  replace (map parsePartD (split ":" input)) with (map parsePart (split ":" input));
    [done|].
  apply map_ext_Forall, (short_parts input); [done|].
  intros part Hp. by rewrite parsePartD_exact.
Qed.

(** On safe integers no subtraction is rounded. *)
Lemma decrementD_exact t : safeTime t = true -> decrementD t = decrement t.
Proof.
  unfold safeTime, isSafeInteger, MAX_SAFE_INTEGER, decrementD, decrement.
  intros Ht. repeat case_test; try done; f_equal; apply roundDouble_exact; lia.
Qed.

Lemma countdownD_exact n t : safeTime t = true -> countdownD n t = countdown n t.
Proof.
  intros Ht. induction n as [|n IH]; [done|].
  unfold countdownD, countdown in *. rewrite !iter_S, IH.
  apply decrementD_exact.
  by apply (iter_invariant decrement (fun x => safeTime x = true)), Ht;
    apply decrement_safeTime.
Qed.

(** C38. On the doubles the program computes with, a text of at most fifteen
    characters parses to the duration of the integer model and counts down
    through the durations of the integer model: no value is rounded. *)
Theorem short_input_exact input n :
  (String.length input <= 15)%nat ->
  parseTimeInputD input = parseTimeInput input /\
  countdownD n (parseTimeInputD input) = countdown n (parseTimeInput input).
Proof.
  intros Hlen. rewrite parseTimeInputD_exact by done. split; [done|].
  by apply countdownD_exact, parseTimeInput_safe.
Qed.

End Exact.

(** ** Where the countdown stops counting *)

Section Stuck.
Implicit Types (t : TimeState) (n : nat).

(** A duration with a field beyond [2^54]. *)
Definition hugeTime (t : TimeState) : bool :=
  hugeField (seconds t) || hugeField (minutes t) || hugeField (hours t).

Lemma hugeField_pos k : hugeField k = true -> 0 < k.
Proof. unfold hugeField. intros [_ Hk%Z.ltb_lt]%andb_true_iff. lia. Qed.

(** A tick finds the seconds positive and gives them back. *)
Lemma decrementD_huge_seconds t : hugeField (seconds t) = true -> decrementD t = t.
Proof.
  intros Hs. pose proof (hugeField_pos _ Hs). unfold decrementD.
  case_test; [|lia]. rewrite roundDouble_pred by done. by destruct t.
Qed.

(** A tick keeps every field that is beyond [2^54]. *)
Lemma decrementD_huge_minutes t :
  hugeField (minutes t) = true -> minutes (decrementD t) = minutes t.
Proof.
  intros Hm. pose proof (hugeField_pos _ Hm). unfold decrementD.
  repeat case_test; cbn; try lia. by apply roundDouble_pred.
Qed.

Lemma decrementD_huge_hours t :
  hugeField (hours t) = true -> hours (decrementD t) = hours t.
Proof.
  intros Hh. pose proof (hugeField_pos _ Hh). unfold decrementD.
  repeat case_test; cbn; try lia. by apply roundDouble_pred.
Qed.

Lemma decrementD_hugeTime t : hugeTime t = true -> hugeTime (decrementD t) = true.
Proof.
  unfold hugeTime. intros [[Hs|Hm]%orb_true_iff|Hh]%orb_true_iff.
  - by rewrite decrementD_huge_seconds, Hs.
  - by rewrite decrementD_huge_minutes, Hm, orb_true_r.
  - by rewrite decrementD_huge_hours, Hh, orb_true_r.
Qed.

Lemma hugeTime_not_zero t : hugeTime t = true -> isZeroTime t = false.
Proof.
  unfold hugeTime, isZeroTime.
  intros [[H|H]%orb_true_iff|H]%orb_true_iff; apply hugeField_pos in H; lia.
Qed.

(** C37. A countdown with a field beyond [2^54] never reaches zero: the
    subtraction of one from a double of that size returns the double, so a
    tick keeps the field; when the field is the seconds, no tick changes the
    duration at all. *)
Theorem huge_field_stuck t n :
  hugeTime t = true ->
  isZeroTime (countdownD n t) = false /\
  (hugeField (seconds t) = true -> countdownD n t = t).
Proof.
  intros Ht. split.
  - by apply hugeTime_not_zero,
      (iter_invariant decrementD (fun x => hugeTime x = true)), Ht;
      apply decrementD_hugeTime.
  - intros Hs. by apply iter_fixed, decrementD_huge_seconds.
Qed.

End Stuck.

(** ** The interval callback on doubles *)

Section Callback.
Context {Dev : Type} `{!Notifier Dev}.
Implicit Types (s : Widget Dev).

(** The updater of the interval callback, its subtractions rounded. *)
Definition tickUpdaterD (prevTime : TimeState) : Action Dev * TimeState :=
  if isZeroTime prevTime then
    (seq (setIsRunning false)
       (seq (setIsCompleted true) (seq (setShowAlert true) playBeep)),
     prevTime)
  else (skip, decrementD prevTime).

Definition intervalCallbackD : Action Dev := setTimeWith tickUpdaterD.

(** On safe integers the callback is the one of the engine. *)
Lemma intervalCallbackD_exact s :
  safeTime (time s) = true -> intervalCallbackD s = intervalCallback s.
Proof.
  intros Hs. unfold intervalCallbackD, intervalCallback, setTimeWith,
    tickUpdaterD, tickUpdater.
  by rewrite decrementD_exact.
Qed.

(** With seconds beyond [2^54] the callback changes nothing: the countdown
    runs and the display stands still. *)
Lemma intervalCallbackD_stuck s :
  hugeField (seconds (time s)) = true -> intervalCallbackD s = s.
Proof.
  intros Hs. unfold intervalCallbackD, setTimeWith, tickUpdaterD.
  rewrite hugeTime_not_zero, decrementD_huge_seconds by (done || by unfold hugeTime; rewrite Hs).
  by destruct s.
Qed.

(** ** The engine on doubles *)

(** The handlers that compute a duration, with the parser on doubles; the
    other handlers compute no number. *)
Definition handleInputChangeD (value : string) (snap : Widget Dev) : Action Dev :=
  seq (setInputValue value)
    (if negb (isRunning snap) then
       seq (setTime (parseTimeInputD value)) (setIsCompleted false)
     else skip).

Definition handleResetD (snap : Widget Dev) : Action Dev :=
  seq (setIsRunning false)
    (seq (setIsCompleted false)
       (seq (setShowAlert false) (setTime (parseTimeInputD (inputValue snap))))).

Definition handlerD (e : Event) (snap : Widget Dev) : Action Dev :=
  match e with
  | InputChange value => handleInputChangeD value snap
  | ClickReset => handleResetD snap
  | IntervalFires h => if decide (h ∈ timers snap) then intervalCallbackD else skip
  | _ => handler e snap
  end.

Definition dispatchD (e : Event) : Action Dev := fun s => rerender s (handlerD e s s).

Definition runD (es : list Event) : Action Dev :=
  fun s => foldl (fun s e => dispatchD e s) s es.

(** The events and the states on which nothing is rounded: texts of at most
    fifteen characters, presets that are safe integers and print as such a
    text, durations of safe integers. *)
Definition shortText (v : string) : bool := (String.length v <=? 15)%nat.

Definition exactEvent (e : Event) : bool :=
  match e with
  | InputChange value => shortText value
  | ClickPreset mins =>
      isSafeInteger mins &&
      shortText (formatTime {| hours := 0; minutes := mins; seconds := 0 |})
  | _ => true
  end.

Definition exactState (s : Widget Dev) : bool :=
  safeTime (time s) && shortText (inputValue s).

Lemma shortText_safe v : shortText v = true -> safeTime (parseTimeInput v) = true.
Proof. intros Hv. apply parseTimeInput_safe. by apply Nat.leb_le. Qed.

Lemma shortText_exact v : shortText v = true -> parseTimeInputD v = parseTimeInput v.
Proof. intros Hv. apply parseTimeInputD_exact. by apply Nat.leb_le. Qed.

Lemma handlerD_exact e s :
  exactEvent e = true -> exactState s = true -> handlerD e s s = handler e s s.
Proof.
  unfold exactState. intros He [Ht Hv]%andb_prop. destruct e; try done; cbn in *.
  - unfold handleInputChangeD, handleInputChange. by rewrite shortText_exact.
  - unfold handleResetD, handleReset. by rewrite shortText_exact.
  - case_decide; [by apply intervalCallbackD_exact|done].
Qed.

(** An exact event leaves safe integers in the duration and a short text in
    the field. *)
Lemma handler_exactState e s :
  exactEvent e = true -> exactState s = true -> exactState (handler e s s) = true.
Proof.
  unfold exactState. intros He [Ht Hv]%andb_prop. apply andb_true_intro.
  destruct s as [t r c a v ref b T nx dev], e; cbn in He;
    try apply andb_prop in He as [Hm Hf]; engine_simpl;
    engine_eval; engine_cases; engine_simpl;
    auto using shortText_safe, decrement_safeTime.
  split; [|done]. unfold safeTime. cbn. by rewrite Hm.
Qed.

Lemma dispatchD_exact e s :
  exactEvent e = true -> exactState s = true ->
  dispatchD e s = dispatch e s /\ exactState (dispatch e s) = true.
Proof.
  intros He Hs. unfold dispatchD, dispatch. rewrite handlerD_exact by done.
  split; [done|]. pose proof (rerender_sameHooks s (handler e s s)) as (Ht & _ & _ & _ & Hv & _).
  pose proof (handler_exactState e s He Hs) as Hx. unfold exactState in *.
  by rewrite Ht, Hv.
Qed.

(** On events that are exact, from a state that is, the engine on doubles
    is the engine on integers, whatever the events and the firings are:
    the theorems of [Engine] are then theorems of the program. *)
Theorem runD_exact es s :
  forallb exactEvent es = true -> exactState s = true ->
  runD es s = run es s /\ exactState (run es s) = true.
Proof.
  revert s. induction es as [|e es IH]; intros s Hes Hs; [done|].
  cbn in Hes. apply andb_prop in Hes as [He Hes].
  destruct (dispatchD_exact e s He Hs) as [Hd Hx].
  unfold runD, run in *. cbn [foldl]. rewrite Hd. by apply IH.
Qed.

End Callback.

(** ** Concrete numbers *)

(** The integers from [a] on, [k] of them. *)
Definition fromZ (a : Z) (k : nat) : list Z := map (fun i => a + Z.of_nat i) (List.seq 0 k).

(** Around zero and around the powers of two where the spacing changes,
    [roundDouble] is the rounding of binary64. *)
Lemma roundDouble_binary64 :
  forallb (fun n => bool_decide (roundBinary64 n = Some (roundDouble n)))
    (fromZ (- 64) 128 ++ fromZ (2 ^ 53 - 64) 128 ++ fromZ (- 2 ^ 53 - 64) 128 ++
     fromZ (2 ^ 54 - 64) 128 ++ fromZ (2 ^ 55 - 64) 128 ++ fromZ (10 ^ 20 - 64) 128 ++
     fromZ (2 ^ 64 - 1000) 2000) = true.
Proof. by vm_compute. Qed.

(** Between [2^53] and [2^54] the doubles are the even integers, and the
    subtraction of one is a tie: from [2^53 + 2] it gives [2^53], from
    [2^53 + 4] it gives [2^53 + 4]. *)
Lemma roundDouble_ties :
  roundDouble (2 ^ 53 + 2 - 1) = 2 ^ 53 /\ roundDouble (2 ^ 53 + 4 - 1) = 2 ^ 53 + 4.
Proof. by vm_compute. Qed.

Lemma short_input_exact_witness :
  parseTimeInputD "99:99:99" = parseTimeInput "99:99:99" /\
  countdownD 4000 (parseTimeInputD "99:99:99") = countdown 4000 (parseTimeInput "99:99:99").
Proof. apply (short_input_exact "99:99:99" 4000). cbn. lia. Defined.

(** The text [0:99999999999999999999] parses to [10^20] seconds, and the
    countdown stays there. *)
Lemma huge_field_stuck_witness :
  isZeroTime (countdownD 100 (parseTimeInputD "0:99999999999999999999")) = false /\
  (hugeField (seconds (parseTimeInputD "0:99999999999999999999")) = true ->
   countdownD 100 (parseTimeInputD "0:99999999999999999999") =
     parseTimeInputD "0:99999999999999999999").
Proof.
  apply (huge_field_stuck (parseTimeInputD "0:99999999999999999999") 100).
  by vm_compute.
Defined.

(** From the mount, the presets of the program, short edits and any firings
    are exact. *)
Lemma runD_exact_witness :
  let es := [ClickPreset 60; InputChange "1:00:01"; ClickStart; IntervalFires 1;
             IntervalFires 1; ClickPause; ClickReset] in
  runD es freshWidget = run es freshWidget /\
  exactState (run es freshWidget) = true.
Proof. by apply (runD_exact _ freshWidget). Defined.

(** A text of eighteen characters is not: the program stores [2^53] where
    the text says [2^53 + 1]. *)
Lemma long_input_rounded :
  let e := InputChange "0:9007199254740993" in
  seconds (time (dispatchD e freshWidget)) = 2 ^ 53 /\
  seconds (time (dispatch e freshWidget)) = 2 ^ 53 + 1.
Proof. by vm_compute. Qed.
