(* ===== verification/Clock.v ===== *)
(** * The interval on the wall clock

    In [Engine] a firing of the interval is an event like
    any other, and nothing says when it happens.  The program asks the host
    for a firing every 1000 milliseconds ([setInterval(..., 1000)] in
    [src/src/App.tsx]), counted from the call that creates the interval,
    and the timer effect creates a new interval every time the countdown
    starts to run.  This file adds the clock: a [Timed] widget is a widget,
    the time, and the time at which the interval of the ref was created;
    [elapse] lets time pass and fires the interval as often as its period
    fits, [timedDispatch] is an event at the current time.

    The host is ideal: a firing happens exactly at its time, and the commit
    and the effects of an event take no time.  Under this assumption a
    countdown that is not interrupted completes one period after its
    duration has passed, and not before; and a pause discards the part of
    the period that has passed, so a countdown that is paused and resumed
    within every period does not advance. *)

From stdpp Require Import gmap.
From S2P Require Import Prelude JsString JsNumber Duration Parser Notifier.
From S2P Require Import Engine.

(** The delay passed to [setInterval], in milliseconds. *)
Definition period : Z := 1000.

(** The firings of an interval created at [a], between [t0] (excluded) and
    [t1] (included): one at every multiple of the period after [a]. *)
Definition firingsBetween (a t0 t1 : Z) : nat :=
  Z.to_nat ((t1 - a) / period - (t0 - a) / period).

Section Clock.
Context {Dev : Type} `{!Notifier Dev}.

(** A widget, the time in milliseconds, and the time of the call of
    [setInterval] that created the interval the ref holds. *)
Record Timed : Type := mkTimed {
  widget : Widget Dev;
  now : Z;
  armedAt : Z;
}.

(** The widget is mounted at [t0]. *)
Definition timedMount (d : Dev) (t0 : Z) : Timed := mkTimed (mount d) t0 t0.

(** Time passes: the interval of the ref fires at each of its times, as
    long as it is live. *)
Definition elapse (dt : Z) (T : Timed) : Timed :=
  {| widget := ticks (firingsBetween (armedAt T) (now T) (now T + dt)) (widget T);
     now := now T + dt;
     armedAt := armedAt T |}.

(** An event at the current time; when the effect creates an interval, it
    is created now. *)
Definition timedDispatch (e : Event) (T : Timed) : Timed :=
  let w := dispatch e (widget T) in
  {| widget := w;
     now := now T;
     armedAt := if decide (intervalRef w = intervalRef (widget T))
                then armedAt T else now T |}.

(** What happens next: time passes, or an event. *)
Inductive TimedStep : Type :=
  | Wait (dt : Z)
  | Do (e : Event).

Definition timedStep (l : TimedStep) (T : Timed) : Timed :=
  match l with
  | Wait dt => elapse (Z.max 0 dt) T
  | Do e => timedDispatch e T
  end.

Definition timedRun (ls : list TimedStep) (T : Timed) : Timed :=
  foldl (fun T l => timedStep l T) T ls.

(** The time that passes in a run. *)
Definition waited (ls : list TimedStep) : Z :=
  foldr (fun l d => match l with Wait dt => Z.max 0 dt + d | Do _ => d end) 0 ls.

(** The interval was not created in the future. *)
Definition clockOk (T : Timed) : Prop := armedAt T <= now T.

(** The steps that leave the duration to the interval: waiting, Start,
    Pause and Dismiss. *)
Definition pacing (l : TimedStep) : bool :=
  match l with
  | Wait _ | Do ClickStart | Do ClickPause | Do ClickDismiss => true
  | Do _ => false
  end.

(** The part of the current period that has passed. *)
Definition phase (T : Timed) : Z :=
  if isRunning (widget T) then (now T - armedAt T) mod period else 0.

(** The running time a countdown still needs: a period for every tick and
    one for the firing that completes it, less the part of the current
    period that has passed. *)
Definition remaining (T : Timed) : Z :=
  (ticksToZero (time (widget T)) + (if isCompleted (widget T) then 0 else 1)) * period
  - phase T.

(** The timed widgets of a countdown: well formed, with a duration that is
    lexicographically at least zero. *)
Definition paced (T : Timed) : Prop :=
  Inv (widget T) /\ lexNonNegative (time (widget T)) = true /\ clockOk T.

(** Pause and Start again, after [d] milliseconds. *)
Definition pauseResume (d : Z) (T : Timed) : Timed :=
  timedRun [Wait d; Do ClickPause; Do ClickStart] T.

End Clock.

Arguments Timed : clear implicits.

(** ** Counting firings *)

Section Firings.
Implicit Types (a d : Z).

Lemma period_pos : 0 < period.
Proof. done. Qed.

(** From the creation of the interval on, [d] milliseconds hold [d / period]
    firings. *)
Lemma firingsBetween_armed a d : firingsBetween a a (a + d) = Z.to_nat (d / period).
Proof.
  unfold firingsBetween. rewrite Z.sub_diag.
  replace (a + d - a) with d by lia. f_equal. rewrite Z.div_0_l by done. lia.
Qed.

(** Less than a period after the creation there is no firing. *)
Lemma firingsBetween_short a d : 0 <= d < period -> firingsBetween a a (a + d) = 0%nat.
Proof. intros Hd. rewrite firingsBetween_armed, Z.div_small by done. done. Qed.

(** The firings of two spans that follow each other. *)
Lemma firingsBetween_add a (t0 t1 t2 : Z) :
  a <= t0 <= t1 -> t1 <= t2 ->
  (firingsBetween a t0 t1 + firingsBetween a t1 t2)%nat = firingsBetween a t0 t2.
Proof.
  intros H01 H12. unfold firingsBetween.
  pose proof (Z.div_le_mono (t0 - a) (t1 - a) period period_pos ltac:(lia)).
  pose proof (Z.div_le_mono (t1 - a) (t2 - a) period period_pos ltac:(lia)).
  lia.
Qed.

End Firings.

(** ** Time and events *)

Section Timed.
Context {Dev : Type} `{!Notifier Dev}.
Implicit Types (T : Timed Dev) (s : Widget Dev) (e : Event) (d dt : Z) (k : nat).

Lemma elapse_clockOk dt T : 0 <= dt -> clockOk T -> clockOk (elapse dt T).
Proof. unfold clockOk. cbn. lia. Qed.

Lemma timedDispatch_clockOk e T : clockOk T -> clockOk (timedDispatch e T).
Proof. unfold clockOk. cbn. case_decide; lia. Qed.

Lemma timedRun_clockOk (ls : list TimedStep) T : clockOk T -> clockOk (timedRun ls T).
Proof.
  revert T. induction ls as [|[dt|e] ls IH]; intros T HT; [done|..]; apply IH;
    [apply elapse_clockOk; [lia|done]|by apply timedDispatch_clockOk].
Qed.

(** The clock advances by the waits of a run. *)
Lemma timedRun_now (ls : list TimedStep) T : now (timedRun ls T) = now T + waited ls.
Proof.
  revert T. induction ls as [|l ls IH]; intros T; [cbn; lia|].
  change (timedRun (l :: ls) T) with (timedRun ls (timedStep l T)).
  rewrite IH. unfold waited. destruct l; cbn; lia.
Qed.

(** Two spans of time that follow each other are one. *)
Lemma elapse_add d1 d2 T :
  0 <= d1 -> 0 <= d2 -> clockOk T -> elapse d2 (elapse d1 T) = elapse (d1 + d2) T.
Proof.
  intros H1 H2 HT. unfold clockOk in HT. unfold elapse. cbn. f_equal; [|lia].
  rewrite <- ticks_add, Z.add_assoc, Nat.add_comm. f_equal.
  apply firingsBetween_add; lia.
Qed.

(** While the countdown does not run, time changes nothing. *)
Lemma elapse_idle dt T :
  intervalRef (widget T) = None -> widget (elapse dt T) = widget T.
Proof. intros Href. cbn. by apply iter_fixed, fireInterval_idle. Qed.

(** Start on an idle widget with a duration creates the interval now. *)
Lemma timedDispatch_start T :
  Inv (widget T) -> isRunning (widget T) = false -> time (widget T) <> zeroTime ->
  let T' := timedDispatch ClickStart T in
  counting (widget T') /\ time (widget T') = time (widget T) /\
  notifier (widget T') = notifier (widget T) /\
  armedAt T' = now T /\ now T' = now T.
Proof.
  intros HI Hrun Hnz. cbn zeta. unfold timedDispatch. cbn [widget armedAt now].
  destruct (Inv_idle _ HI Hrun) as [Href _].
  split; [split; [by apply dispatch_Inv|]|]; rewrite start_arms by done; [done|].
  cbn. by rewrite Href, decide_False.
Qed.

(** Pause on a running widget keeps the duration. *)
Lemma timedDispatch_pause T :
  counting (widget T) ->
  let T' := timedDispatch ClickPause T in
  Inv (widget T') /\ isRunning (widget T') = false /\
  time (widget T') = time (widget T) /\
  notifier (widget T') = notifier (widget T) /\ now T' = now T.
Proof.
  intros [HI Hrun]. cbn zeta. unfold timedDispatch. cbn [widget now].
  split; [by apply dispatch_Inv|]. by rewrite pause_disarms.
Qed.

(** The firings of a countdown: before zero they tick, then one completes
    it, then nothing. *)
Lemma ticks_counting s k :
  counting s -> lexNonNegative (time s) = true ->
  ticks k s = if (k <? firingsToComplete s)%nat
              then setTime (countdown k (time s)) s else completedFrom s.
Proof.
  intros Hc Hlex. pose proof (ticksToZero_nonneg _ Hlex).
  destruct (Nat.ltb_spec k (firingsToComplete s)) as [Hk|Hk].
  - apply ticks_before_zero; [done..|]. unfold firingsToComplete in Hk. lia.
  - replace k with (firingsToComplete s + (k - firingsToComplete s))%nat by lia.
    by apply ticks_past_zero.
Qed.

(** A countdown whose interval was created now, [dt] milliseconds later. *)
Lemma elapse_started dt T :
  counting (widget T) -> lexNonNegative (time (widget T)) = true ->
  armedAt T = now T -> 0 <= dt ->
  widget (elapse dt T) =
    if dt <? (ticksToZero (time (widget T)) + 1) * period
    then setTime (countdown (Z.to_nat (dt / period)) (time (widget T))) (widget T)
    else completedFrom (widget T).
Proof.
  intros Hc Hlex Ha Hdt. pose proof (ticksToZero_nonneg _ Hlex).
  cbn [elapse widget]. rewrite Ha, firingsBetween_armed, ticks_counting by done.
  unfold firingsToComplete, period.
  destruct (Nat.ltb_spec (Z.to_nat (dt / 1000)) (S (Z.to_nat (ticksToZero (time (widget T)))))),
    (Z.ltb_spec dt ((ticksToZero (time (widget T)) + 1) * 1000)); (done || zdiv).
Qed.

(** C40. A countdown that is started and left alone completes one period
    after its duration has passed, and not before: [dt] milliseconds after
    Start it is still running with one second off for every full period, as
    long as [dt] is less than the seconds of the duration plus one, in
    periods; from then on it is completed, at zero, with one notification. *)
Theorem completes_on_time T dt :
  Inv (widget T) -> isRunning (widget T) = false ->
  lexNonNegative (time (widget T)) = true -> time (widget T) <> zeroTime ->
  0 <= dt ->
  let T' := timedRun [Do ClickStart; Wait dt] T in
  now T' = now T + dt /\
  if dt <? (ticksToZero (time (widget T)) + 1) * period
  then isRunning (widget T') = true /\ isCompleted (widget T') = false /\
       time (widget T') = countdown (Z.to_nat (dt / period)) (time (widget T))
  else isCompleted (widget T') = true /\ time (widget T') = zeroTime /\
       fired (notifier (widget T')) = S (fired (notifier (widget T))).
Proof.
  intros HI Hrun Hlex Hnz Hdt. cbn zeta. rewrite timedRun_now.
  split; [unfold waited; cbn; lia|]. cbn [timedRun foldl timedStep].
  destruct (timedDispatch_start T HI Hrun Hnz) as (Hc & Ht & Hd & Ha & Hn).
  rewrite Z.max_r, elapse_started by (done || congruence). rewrite Ht.
  destruct (counting_ref _ Hc) as (h & _ & _ & Hcompl & _). destruct Hc as [_ Hr].
  set (T1 := timedDispatch ClickStart T) in *. clearbody T1.
  case_test; cbn; [done|]. by rewrite fired_fire, Hd.
Qed.

(** Pause and Start within the period of an interval that was just created:
    no firing, the duration is kept, and the new interval is created at the
    Start. *)
Lemma pauseResume_keeps d T :
  counting (widget T) -> armedAt T = now T -> time (widget T) <> zeroTime ->
  0 <= d < period ->
  counting (widget (pauseResume d T)) /\
  armedAt (pauseResume d T) = now (pauseResume d T) /\
  time (widget (pauseResume d T)) = time (widget T) /\
  notifier (widget (pauseResume d T)) = notifier (widget T) /\
  now (pauseResume d T) = now T + d.
Proof.
  intros Hc Ha Hnz Hd. unfold pauseResume. cbn [timedRun foldl timedStep].
  rewrite Z.max_r by lia.
  assert (elapse d T = mkTimed (widget T) (now T + d) (armedAt T)) as ->
    by (unfold elapse; by rewrite Ha, firingsBetween_short).
  set (T1 := mkTimed _ _ _).
  destruct (timedDispatch_pause T1 Hc) as (HI & Hr & Ht & Hdev & Hn).
  destruct (timedDispatch_start (timedDispatch ClickPause T1) HI Hr)
    as (Hc' & Ht' & Hdev' & Ha' & Hn'); [by rewrite Ht|].
  split; [done|]. split; [by rewrite Ha', Hn'|].
  split; [by rewrite Ht', Ht|]. split; [by rewrite Hdev', Hdev|].
  by rewrite Hn', Hn.
Qed.

(** C28. A pause discards the part of the period that has passed: a running
    countdown that is paused and started again before the first firing of
    its interval, any number of times, keeps its duration and is never
    notified, while the clock advances and the countdown runs all the
    time but for the instants of the pauses. *)
Theorem pause_resume_starves T d k :
  counting (widget T) -> armedAt T = now T -> time (widget T) <> zeroTime ->
  0 <= d < period ->
  let T' := Nat.iter k (pauseResume d) T in
  time (widget T') = time (widget T) /\ isRunning (widget T') = true /\
  fired (notifier (widget T')) = fired (notifier (widget T)) /\
  now T' = now T + Z.of_nat k * d.
Proof.
  intros Hc Ha Hnz Hd. cbn zeta.
  enough (counting (widget (Nat.iter k (pauseResume d) T)) /\
          armedAt (Nat.iter k (pauseResume d) T) = now (Nat.iter k (pauseResume d) T) /\
          time (widget (Nat.iter k (pauseResume d) T)) = time (widget T) /\
          notifier (widget (Nat.iter k (pauseResume d) T)) = notifier (widget T) /\
          now (Nat.iter k (pauseResume d) T) = now T + Z.of_nat k * d)
    as ([_ Hr] & _ & Ht & Hdev & Hn) by (by rewrite Hdev).
  induction k as [|k (Hc' & Ha' & Ht' & Hdev' & Hn')];
    [do 4 (split; [done|]); cbn; lia|].
  rewrite iter_S.
  destruct (pauseResume_keeps d _ Hc' Ha') as (? & ? & ? & ? & ?);
    [congruence|done|].
  do 2 (split; [done|]). do 2 (split; [congruence|]). lia.
Qed.

(** ** The countdown is never ahead of the clock *)

Lemma countdown_lexNonNegative k (t : TimeState) :
  lexNonNegative t = true -> lexNonNegative (countdown k t) = true.
Proof.
  apply (iter_invariant decrement (fun t => lexNonNegative t = true)),
    decrement_lexNonNegative.
Qed.

Lemma ticks_Inv k s : Inv s -> Inv (ticks k s).
Proof.
  apply (iter_invariant fireInterval Inv). intros x Hx. unfold fireInterval.
  destruct (intervalRef x); [by apply dispatch_Inv|done].
Qed.

Lemma phase_range T : 0 <= phase T < period.
Proof.
  unfold phase. destruct (isRunning _); [apply Z.mod_pos_bound|]; done.
Qed.

(** An event that changes nothing leaves the clock as it is. *)
Lemma timedDispatch_same e T : dispatch e (widget T) = widget T -> timedDispatch e T = T.
Proof.
  intros He. unfold timedDispatch. rewrite He, decide_True by done. by destruct T.
Qed.

(** While the countdown runs, the time that passes is taken off what
    remains, and the firings after the completion take nothing. *)
Lemma elapse_running dt T :
  0 <= dt -> paced T -> isRunning (widget T) = true ->
  lexNonNegative (time (widget (elapse dt T))) = true /\
  remaining T <= remaining (elapse dt T) + dt.
Proof.
  intros Hdt (HI & Hlex & Hclk) Hrun. pose proof (ticksToZero_nonneg _ Hlex) as Hnn.
  assert (counting (widget T)) as Hc by done.
  destruct (counting_ref _ Hc) as (h & _ & _ & Hcompl & _).
  unfold remaining, phase, clockOk in *. cbn [elapse widget now armedAt].
  rewrite ticks_counting, Hrun, Hcompl by done. unfold firingsToComplete.
  set (n := firingsBetween _ _ _).
  assert (Z.of_nat n * period + (now T + dt - armedAt T) mod period
          = dt + (now T - armedAt T) mod period) as Hn
    by (unfold n, firingsBetween, period; zdiv).
  destruct (Nat.ltb_spec n (S (Z.to_nat (ticksToZero (time (widget T)))))) as [Hlt|Hge].
  - cbn [setTime time isRunning isCompleted]. rewrite Hrun, Hcompl.
    rewrite countdown_ticksToZero by (done || lia).
    split; [by apply countdown_lexNonNegative|]. unfold period in *. lia.
  - cbn [completedFrom time isRunning isCompleted]. split; [done|].
    pose proof (Z.mod_pos_bound (now T + dt - armedAt T) period period_pos).
    change (ticksToZero zeroTime) with 0. unfold period in *. lia.
Qed.

Lemma elapse_paced dt T :
  0 <= dt -> paced T ->
  paced (elapse dt T) /\ remaining T <= remaining (elapse dt T) + dt.
Proof.
  intros Hdt HT. pose proof HT as (HI & Hlex & Hclk).
  destruct (isRunning (widget T)) eqn:Hrun.
  - destruct (elapse_running dt T Hdt HT Hrun) as [Hlex' Hle].
    split; [|done]. split; [by apply ticks_Inv|]. split; [done|].
    by apply elapse_clockOk.
  - destruct (Inv_idle _ HI Hrun) as [Href _].
    assert (elapse dt T = mkTimed (widget T) (now T + dt) (armedAt T)) as ->
      by (unfold elapse, ticks; by rewrite (iter_fixed _ _ _ (fireInterval_idle _ Href))).
    unfold paced, remaining, phase, clockOk in *. cbn. rewrite Hrun.
    split; [split; [done|split; [done|lia]]|lia].
Qed.

(** Start, Pause and Dismiss take nothing off what remains; Pause adds the
    part of the period that had passed. *)
Lemma timedDispatch_paced e T :
  pacing (Do e) = true -> paced T ->
  paced (timedDispatch e T) /\ remaining T <= remaining (timedDispatch e T).
Proof.
  intros He HT. pose proof HT as (HI & Hlex & Hclk).
  pose proof (phase_range T) as Hph.
  assert (paced (timedDispatch e T)) as HT'.
  { split; [by apply dispatch_Inv|]. split; [|by apply timedDispatch_clockOk].
    destruct e; try done; cbn [timedDispatch widget];
      [destruct (isRunning (widget T)) eqn:Hr;
         [by rewrite start_running|
          destruct (decide (time (widget T) = zeroTime));
            [by rewrite start_guard|by rewrite start_arms]]
      |destruct (isRunning (widget T)) eqn:Hr;
         [by rewrite pause_disarms|by rewrite pause_idle]
      |by rewrite dismiss_spec]. }
  split; [done|]. destruct e; try done.
  - destruct (isRunning (widget T)) eqn:Hr;
      [by rewrite timedDispatch_same by (by apply start_running)|].
    destruct (decide (time (widget T) = zeroTime)) as [Hz|Hnz];
      [by rewrite timedDispatch_same by (by apply start_guard)|].
    destruct (timedDispatch_start T HI Hr Hnz) as (Hc & Ht & _ & Ha & Hn).
    destruct (counting_ref _ Hc) as (h & _ & _ & Hcompl & _).
    unfold remaining, phase in *.
    rewrite Ht, Hcompl, Ha, Hn, Z.sub_diag, Hr, (proj2 Hc), Z.mod_0_l by done.
    destruct (isCompleted (widget T)); unfold period; lia.
  - destruct (isRunning (widget T)) eqn:Hr;
      [|by rewrite timedDispatch_same by (by apply pause_idle)].
    unfold remaining, phase in *. cbn [timedDispatch widget].
    rewrite pause_disarms, Hr in * by done. cbn. lia.
  - unfold remaining, phase. cbn [timedDispatch widget now armedAt].
    rewrite dismiss_spec. cbn. by case_decide.
Qed.

Lemma timedRun_paced (ls : list TimedStep) T :
  forallb pacing ls = true -> paced T ->
  paced (timedRun ls T) /\ remaining T <= remaining (timedRun ls T) + waited ls.
Proof.
  revert T. induction ls as [|l ls IH]; intros T Hls HT; [split; [done|cbn; lia]|].
  cbn in Hls. apply andb_true_iff in Hls as [Hl Hls].
  change (timedRun (l :: ls) T) with (timedRun ls (timedStep l T)).
  assert (paced (timedStep l T) /\
          remaining T <= remaining (timedStep l T)
                         + match l with Wait dt => Z.max 0 dt | Do _ => 0 end)
    as [HT' Hle].
  { destruct l as [dt|e]; cbn [timedStep];
      [apply elapse_paced; [lia|done]|].
    destruct (timedDispatch_paced e T Hl HT). split; [done|lia]. }
  destruct (IH _ Hls HT') as [HT'' Hle']. split; [done|].
  unfold waited in *. destruct l; cbn [foldr]; lia.
Qed.

(** C25. The countdown is never ahead of the clock.  In a run of waits,
    Starts, Pauses and Dismissals from an idle widget that has not
    completed, no more ticks are taken off the duration than periods have
    passed, and the countdown is completed only when the periods of its
    ticks and one more have passed. *)
Theorem never_early (ls : list TimedStep) T :
  paced T -> isRunning (widget T) = false -> isCompleted (widget T) = false ->
  forallb pacing ls = true ->
  let T' := timedRun ls T in
  ticksToZero (time (widget T)) * period
    <= ticksToZero (time (widget T')) * period + waited ls /\
  (isCompleted (widget T') = true ->
   (ticksToZero (time (widget T)) + 1) * period <= waited ls).
Proof.
  intros HT Hrun Hcompl Hls. cbn zeta.
  destruct (timedRun_paced ls T Hls HT) as [(HI & _ & _) Hle].
  pose proof (phase_range (timedRun ls T)) as Hph.
  unfold remaining at 1 in Hle. unfold phase at 1 in Hle.
  rewrite Hrun, Hcompl in Hle. unfold remaining in Hle. split.
  - destruct (isCompleted (widget (timedRun ls T))); unfold period in *; lia.
  - intros Hc. rewrite Hc in Hle. destruct HI as [[Hex Hz] _].
    rewrite (Hz Hc) in Hle. change (ticksToZero zeroTime) with 0 in Hle.
    unfold period in *. lia.
Qed.

End Timed.

(** ** Concrete countdowns *)

(** Mounted at time zero: five minutes take 301 seconds. *)
Lemma completes_on_time_witness :
  let T := timedMount newAudioContext 0 in
  let T' := timedRun [Do ClickStart; Wait 301000] T in
  now T' = now T + 301000 /\
  if 301000 <? (ticksToZero (time (widget T)) + 1) * period
  then isRunning (widget T') = true /\ isCompleted (widget T') = false /\
       time (widget T') = countdown (Z.to_nat (301000 / period)) (time (widget T))
  else isCompleted (widget T') = true /\ time (widget T') = zeroTime /\
       fired (notifier (widget T')) = S (fired (notifier (widget T))).
Proof.
  apply (completes_on_time (timedMount newAudioContext 0) 301000);
    [apply mount_Inv|reflexivity|reflexivity|discriminate|lia].
Defined.

(** Started at time zero, then paused and resumed every 999 milliseconds,
    a thousand times. *)
Lemma pause_resume_starves_witness :
  let T := timedDispatch ClickStart (timedMount newAudioContext 0) in
  let T' := Nat.iter 1000 (pauseResume 999) T in
  time (widget T') = time (widget T) /\ isRunning (widget T') = true /\
  fired (notifier (widget T')) = fired (notifier (widget T)) /\
  now T' = now T + Z.of_nat 1000 * 999.
Proof.
  apply (pause_resume_starves
           (timedDispatch ClickStart (timedMount newAudioContext 0)) 999 1000);
    [split; [apply dispatch_Inv, mount_Inv|reflexivity]|reflexivity|discriminate|].
  unfold period. lia.
Defined.

(** Five minutes, with a pause of two seconds after ten: completed after
    303 seconds of the clock, of which 301 were running. *)
Lemma never_early_witness :
  let ls := [Do ClickStart; Wait 10500; Do ClickPause; Wait 2000; Do ClickStart;
             Wait 291000] in
  let T := timedMount newAudioContext 0 in
  let T' := timedRun ls T in
  ticksToZero (time (widget T)) * period
    <= ticksToZero (time (widget T')) * period + waited ls /\
  (isCompleted (widget T') = true ->
   (ticksToZero (time (widget T)) + 1) * period <= waited ls).
Proof.
  apply (never_early
           [Do ClickStart; Wait 10500; Do ClickPause; Wait 2000; Do ClickStart;
            Wait 291000] (timedMount newAudioContext 0));
    [split; [apply mount_Inv|split; [reflexivity|unfold clockOk; cbn; lia]]
    |reflexivity..].
Defined.
